(** * metald tenant fabric, kernel arguments and VM lifecycle

    A shallow embedding of the parts of the metald provisioner that decide
    how tenants are mapped to bridges, how VM addresses are issued inside a
    tenant /29, how the fabric state is persisted and repaired, how the
    guest kernel command line describes the network, and which calls the
    lifecycle engine issues on the VMM.

    Conventions.
    - Go [int] is 64 bit (metald is a linux/amd64 service); integers are [Z]
      and [wrap64] is written where the source adds to a stored value.
    - Go strings and byte slices are [string] (a sequence of bytes).
    - Go maps are [gmap]; map values that the source holds by pointer are
      held by value, except in module [Heap], which keeps the pointers.
    - A call that can fail returns [result]; [Panic] is a run-time panic. *)

From Stdlib Require Import ZArith Lia Ascii String List Bool.
From stdpp Require Import gmap strings list fin_maps.

Local Open Scope Z_scope.

(** ** Outcomes *)

Inductive result (E A : Type) : Type :=
| Ok (a : A)
| Err (e : E)
| Panic.
Arguments Ok {E A} a.
Arguments Err {E A} e.
Arguments Panic {E A}.


Definition is_Err {E A} (r : result E A) : bool :=
  match r with Err _ => true | _ => false end.

(** ** Machine integers *)

Definition wrap64 (z : Z) : Z := (z + 2 ^ 63) mod 2 ^ 64 - 2 ^ 63.

Definition in_int64 (z : Z) : Prop := - 2 ^ 63 <= z < 2 ^ 63.

Definition byte_of (z : Z) : Z := z mod 256.

Definition uint32_of (z : Z) : Z := z mod 2 ^ 32.

(** Go's [a % b] truncates toward zero and panics when [b] is zero. *)
Definition go_rem (a b : Z) : option Z :=
  if b =? 0 then None else Some (Z.rem a b).

(** ** hash/fnv: 32-bit FNV-1a *)

Definition fnv_offset32 : Z := 2166136261.
Definition fnv_prime32 : Z := 16777619.

Definition byte_val (c : ascii) : Z := Z.of_N (N_of_ascii c).

Definition fnv1a32_step (h : Z) (c : ascii) : Z :=
  (Z.lxor h (byte_val c) * fnv_prime32) mod 2 ^ 32.

Fixpoint fnv1a32_from (h : Z) (s : string) : Z :=
  match s with
  | EmptyString => h
  | String c s' => fnv1a32_from (fnv1a32_step h c) s'
  end.

Definition FNV1a32 (s : string) : Z := fnv1a32_from fnv_offset32 s.

(** ** fmt: integers in decimal and in upper-case hexadecimal *)

Definition digit_char (d : N) : ascii :=
  match d with
  | 0 => "0" | 1 => "1" | 2 => "2" | 3 => "3" | 4 => "4"
  | 5 => "5" | 6 => "6" | 7 => "7" | 8 => "8" | 9 => "9"
  | 10 => "A" | 11 => "B" | 12 => "C" | 13 => "D" | 14 => "E"
  | _ => "F"
  end%N%char.

(** Digits of [n] in [base], most significant first, in front of [acc]. *)
Fixpoint digits_go (base : N) (fuel : nat) (n : N) (acc : string) : string :=
  let acc' := String (digit_char (n mod base)) acc in
  match fuel with
  | O => acc'
  | S fuel' => if (n <? base)%N then acc' else digits_go base fuel' (n / base) acc'
  end.

Definition digits (base : N) (n : N) : string :=
  digits_go base (N.size_nat n) n EmptyString.

Fixpoint zero_pad (width : nat) (s : string) : string :=
  match width with
  | O => s
  | S w => if (String.length s <? S w)%nat then zero_pad w (String "0" s) else s
  end.

(** [fmt.Sprintf("%d", z)]. *)
Definition fmt_d (z : Z) : string :=
  if z <? 0 then String "-" (digits 10 (Z.to_N (- z))) else digits 10 (Z.to_N z).

(** [fmt.Sprintf("%02X", z)]: the sign takes one column of the width. *)
Definition fmt_02X (z : Z) : string :=
  if z <? 0 then String "-" (zero_pad 1 (digits 16 (Z.to_N (- z))))
  else zero_pad 2 (digits 16 (Z.to_N z)).

(** ** fmt.Sscanf with the verb [%02X]

    Leading blanks are skipped, a sign is accepted, then at most [width]
    characters (sign included) of hexadecimal digits in either case are
    read; no digit is an error.  Text after the number is left unread. *)

Definition hex_val (c : ascii) : option Z :=
  let n := byte_val c in
  if (48 <=? n) && (n <=? 57) then Some (n - 48)
  else if (65 <=? n) && (n <=? 70) then Some (n - 55)
  else if (97 <=? n) && (n <=? 102) then Some (n - 87)
  else None.

Definition is_blank (c : ascii) : bool :=
  let n := byte_val c in
  (n =? 32) || (n =? 9) || (n =? 11) || (n =? 12) || (n =? 13).

Fixpoint skip_blanks (s : string) : string :=
  match s with
  | String c s' => if is_blank c then skip_blanks s' else s
  | EmptyString => s
  end.

(** Reads up to [width] hex digits; [None] when there is none. *)
Fixpoint scan_hex_digits (width : nat) (s : string) (acc : option Z) : option Z :=
  match width, s with
  | S w, String c s' =>
      match hex_val c with
      | Some d => scan_hex_digits w s' (Some (16 * default 0 acc + d))
      | None => acc
      end
  | _, _ => acc
  end.

Definition Sscanf_02X (s : string) : option Z :=
  match skip_blanks s with
  | String "-" s' => Z.opp <$> scan_hex_digits 1 s' None
  | String "+" s' => scan_hex_digits 1 s' None
  | s' => scan_hex_digits 2 s' None
  end.

(** ** Tenant to bridge, and the tenant MAC (multibridge.go) *)

(** [GetBridgeForWorkspace]: [None] is the divide-by-zero panic of a manager
    configured with no bridge. *)
Definition GetBridgeForWorkspace (bridgeCount : Z) (workspaceID : string) : option Z :=
  go_rem (FNV1a32 workspaceID) bridgeCount.

Inductive mac_error : Type :=
| ErrRandomDevice
| ErrMACLength
| ErrMACNotTenantFormat
| ErrMACBridgeNumber.

(** [GenerateTenantMAC]; [rnd] is what [rand.Read] delivered, [None] when
    the random device failed. *)
Definition GenerateTenantMAC (bridgeCount : Z) (workspaceID : string)
    (rnd : option (ascii * ascii * ascii)) : result mac_error string :=
  match GetBridgeForWorkspace bridgeCount workspaceID with
  | None => Panic
  | Some bridgeNumber =>
      let oui := "02:" +:+ fmt_02X bridgeNumber +:+ ":4B" in
      match rnd with
      | None => Err ErrRandomDevice
      | Some (d0, d1, d2) =>
          let deviceID :=
            fmt_02X (byte_val d0) +:+ ":" +:+ fmt_02X (byte_val d1) +:+ ":"
              +:+ fmt_02X (byte_val d2) in
          Ok (oui +:+ ":" +:+ deviceID)
      end
  end.

(** [GenerateSequentialTenantMAC]. *)
Definition GenerateSequentialTenantMAC (bridgeCount : Z) (workspaceID : string)
    (vmIndex : Z) : option string :=
  match GetBridgeForWorkspace bridgeCount workspaceID with
  | None => None
  | Some bridgeNumber =>
      let oui := "02:" +:+ fmt_02X bridgeNumber +:+ ":4B" in
      let deviceID :=
        fmt_02X (Z.land (Z.shiftr vmIndex 16) 255) +:+ ":"
          +:+ fmt_02X (Z.land (Z.shiftr vmIndex 8) 255) +:+ ":"
          +:+ fmt_02X (Z.land vmIndex 255) in
      Some (oui +:+ ":" +:+ deviceID)
  end.

(** [ParseTenantFromMAC]. *)
Definition ParseTenantFromMAC (macAddr : string) : result mac_error Z :=
  if negb (String.length macAddr =? 17)%nat then Err ErrMACLength
  else if negb (String.eqb (substring 0 2 macAddr) "02")
          || negb (String.eqb (substring 6 2 macAddr) "4B")
  then Err ErrMACNotTenantFormat
  else match Sscanf_02X (substring 3 2 macAddr) with
       | None => Err ErrMACBridgeNumber
       | Some bridgeNum => Ok bridgeNum
       end.

Inductive validate_mac_error : Type :=
| ErrInvalidTenantMAC (e : mac_error)
| ErrMACBridgeMismatch (actual expected : Z).

(** [ValidateTenantMAC]. *)
Definition ValidateTenantMAC (bridgeCount : Z) (workspaceID macAddr : string)
    : result validate_mac_error unit :=
  match GetBridgeForWorkspace bridgeCount workspaceID with
  | None => Panic
  | Some expectedBridge =>
      match ParseTenantFromMAC macAddr with
      | Err e => Err (ErrInvalidTenantMAC e)
      | Panic => Panic
      | Ok actualBridge =>
          if negb (actualBridge =? expectedBridge)
          then Err (ErrMACBridgeMismatch actualBridge expectedBridge)
          else Ok tt
      end
  end.

(** The two upper-case hex digits of a byte. *)
Definition hex_pair (z : Z) : string :=
  String (digit_char (Z.to_N (z / 16)))
    (String (digit_char (Z.to_N (z mod 16))) EmptyString).


(** ** net: addresses, masks and CIDR text *)

(** [net.IP] and [net.IPMask] are byte slices; [nil] is the empty list. *)
Definition IP : Type := list Z.
Definition IPMask : Type := list Z.

Record IPNet : Type := mkIPNet { net_IP : IP; net_Mask : IPMask }.

Definition v4InV6Prefix : list Z := [0; 0; 0; 0; 0; 0; 0; 0; 0; 0; 255; 255].

Definition list_Z_eqb (a b : list Z) : bool := bool_decide (a = b).

(** [IP.To4]: the 4-byte form of an IPv4 or IPv4-mapped address, else nil. *)
Definition To4 (ip : IP) : IP :=
  if (length ip =? 4)%nat then ip
  else if (length ip =? 16)%nat && list_Z_eqb (take 12 ip) v4InV6Prefix then drop 12 ip
  else [].

(** [net.CIDRMask(ones, bits)]; nil when [ones] is out of range. *)
Fixpoint mask_bytes (nbytes : nat) (ones : Z) : IPMask :=
  match nbytes with
  | O => []
  | S n =>
      (if 8 <=? ones then 255
       else if ones <=? 0 then 0
       else 255 - (2 ^ (8 - ones) - 1)) :: mask_bytes n (ones - 8)
  end.

Definition CIDRMask (ones bits : Z) : IPMask :=
  if negb ((bits =? 32) || (bits =? 128)) then []
  else if (ones <? 0) || (bits <? ones) then []
  else mask_bytes (Z.to_nat (bits / 8)) ones.

Fixpoint and_bytes (a b : list Z) : list Z :=
  match a, b with
  | x :: a', y :: b' => Z.land x y :: and_bytes a' b'
  | _, _ => []
  end.

(** [networkNumberAndMask] of net/ip.go. *)
Definition networkNumberAndMask (n : IPNet) : option (IP * IPMask) :=
  let ip4 := To4 (net_IP n) in
  let ip := if (length ip4 =? 0)%nat then net_IP n else ip4 in
  if (length ip4 =? 0)%nat && negb (length ip =? 16)%nat then None
  else
    let m := net_Mask n in
    if (length m =? length ip)%nat then Some (ip, m)
    else if (length m =? 16)%nat && (length ip =? 4)%nat then Some (ip, drop 12 m)
    else None.

(** [IPNet.Contains]. *)
Definition Contains (n : IPNet) (ip : IP) : bool :=
  let '(nn, m) := default ([], []) (networkNumberAndMask n) in
  let x := To4 ip in
  let ip := if (length x =? 0)%nat then ip else x in
  if negb (length ip =? length nn)%nat then false
  else list_Z_eqb (and_bytes nn m) (and_bytes ip m).

Definition is_digit (c : ascii) : bool :=
  let n := byte_val c in (48 <=? n) && (n <=? 57).

Definition is_empty_string (s : string) : bool :=
  match s with EmptyString => true | _ => false end.

(** [parseIPv4Fields] of net/netip: one pass over the text, [val] and
    [digLen] describe the octet being read, [fields] the octets done. *)
Fixpoint parseIPv4Fields (s : string) (val : Z) (digLen : nat) (fields : list Z)
    : option (list Z) :=
  match s with
  | EmptyString =>
      if (length fields <? 3)%nat then None else Some (fields ++ [val])
  | String c s' =>
      if is_digit c then
        if (digLen =? 1)%nat && (val =? 0) then None
        else
          let val' := val * 10 + (byte_val c - 48) in
          if 255 <? val' then None
          else parseIPv4Fields s' val' (S digLen) fields
      else if Ascii.eqb c "." then
        if (digLen =? 0)%nat || is_empty_string s' then None
        else if (length fields =? 3)%nat then None
        else parseIPv4Fields s' 0 O (fields ++ [val])
      else None
  end.

Inductive addr_kind : Type := AddrV4 | AddrV6 | AddrBad.

(** The dispatch of [netip.ParseAddr] on the first of [.], [:] and [%]. *)
Fixpoint addr_dispatch (s : string) : addr_kind :=
  match s with
  | EmptyString => AddrBad
  | String c s' =>
      if Ascii.eqb c "." then AddrV4
      else if Ascii.eqb c ":" then AddrV6
      else if Ascii.eqb c "%" then AddrBad
      else addr_dispatch s'
  end.

(** [dtoi] of package net: decimal digits, capped below 0xFFFFFF. *)
Fixpoint dtoi_go (s : string) (n : Z) (i : nat) : option (Z * nat) :=
  match s with
  | String c s' =>
      if is_digit c then
        let n' := n * 10 + (byte_val c - 48) in
        if 16777215 <=? n' then None else dtoi_go s' n' (S i)
      else if (i =? 0)%nat then None else Some (n, i)
  | EmptyString => if (i =? 0)%nat then None else Some (n, i)
  end.

Definition dtoi (s : string) : option (Z * nat) := dtoi_go s 0 O.

(** Splits at the first [/]. *)
Fixpoint split_slash (s : string) : option (string * string) :=
  match s with
  | EmptyString => None
  | String c s' =>
      if Ascii.eqb c "/" then Some (EmptyString, s')
      else match split_slash s' with
           | Some (a, m) => Some (String c a, m)
           | None => None
           end
  end.

(** ** Records of the fabric (multibridge.go) *)

Record ProjectVLAN : Type := mkProjectVLAN {
  ProjectID : string;
  VLANNumber : Z;
  SubnetCIDR : string;
  NextVMIndex : Z;
  VLANCreatedAt : string
}.

Record WorkspaceAllocation : Type := mkWorkspaceAllocation {
  WorkspaceID : string;
  BridgeNumber : Z;
  BridgeName : string;
  ProjectVLANs : gmap string ProjectVLAN;
  CreatedAt : string;
  VMCount : Z
}.

(** The decoded form of a persisted allocation: JSON [null] can stand where
    Go has a map or a pointer, which [validateState] checks for. *)
Record WorkspaceAllocationJSON : Type := mkWorkspaceAllocationJSON {
  jWorkspaceID : string;
  jBridgeNumber : Z;
  jBridgeName : string;
  jProjectVLANs : option (gmap string (option ProjectVLAN));
  jCreatedAt : string;
  jVMCount : Z
}.

(** [MultiBridgeState]; [LastSaved] is the wall-clock reading. *)
Record MultiBridgeState : Type := mkMultiBridgeState {
  Workspaces : option (gmap string (option WorkspaceAllocationJSON));
  BridgeUsage : option (gmap Z (option (gmap string bool)));
  LastSaved : Z;
  Checksum : string
}.

(** [MultiBridgeManager]; the mutex and the logger carry no state that the
    results depend on. *)
Record MultiBridgeManager : Type := mkMultiBridgeManager {
  bridgeCount : Z;
  bridgePrefix : string;
  workspaces : gmap string WorkspaceAllocation;
  bridgeUsage : gmap Z (gmap string bool);
  vlanRangeStart : Z;
  vlanRangeEnd : Z
}.

(** What the standard library supplies and this development does not
    compute: JSON encoding, SHA-256, RFC 3339 parsing, and the text forms of
    addresses that are not IPv4 and of masks. *)
Class Library : Type := mkLibrary {
  json_Marshal : MultiBridgeState -> option string;
  json_MarshalIndent : MultiBridgeState -> option string;
  json_Unmarshal : string -> option MultiBridgeState;
  sha256_hex : string -> string;
  time_Parse_RFC3339 : string -> bool;
  ParseCIDR_v6 : string -> option (IP * IPNet);
  IP_String_other : IP -> string;
  IPMask_String : IPMask -> string
}.

(** The state file and its temporary sibling. *)
Record disk : Type := mkDisk {
  state_file : option string;
  tmp_file : option string
}.

(** Which file-system call of [saveState] fails, if any. *)
Inductive save_fault : Type := NoFault | MkdirFails | WriteFails | RenameFails.

(** What one call reads from its environment: the clock, as unix time and as
    RFC 3339 text, and the fate of the file-system calls. *)
Record env : Type := mkEnv {
  now : Z;
  now_rfc3339 : string;
  fault : save_fault;
  read_fails : bool
}.

Section WithLibrary.
Context `{L : Library}.

(** [net.ParseCIDR]: the address and the network it lies in. *)
Definition ParseCIDR (s : string) : option (IP * IPNet) :=
  match split_slash s with
  | None => None
  | Some (addr, mask) =>
      match addr_dispatch addr with
      | AddrBad => None
      | AddrV6 => ParseCIDR_v6 s
      | AddrV4 =>
          match parseIPv4Fields addr 0 O [], dtoi mask with
          | Some ip4, Some (n, i) =>
              if negb (i =? String.length mask)%nat || (32 <? n) then None
              else
                let m := CIDRMask n 32 in
                Some (v4InV6Prefix ++ ip4, mkIPNet (and_bytes ip4 m) m)
          | _, _ => None
          end
      end
  end.

Definition byte_at (ip : list Z) (i : nat) : Z := default 0 (ip !! i).

Definition dotted_quad (ip4 : IP) : string :=
  fmt_d (byte_at ip4 0) +:+ "." +:+ fmt_d (byte_at ip4 1) +:+ "."
    +:+ fmt_d (byte_at ip4 2) +:+ "." +:+ fmt_d (byte_at ip4 3).

(** [IP.String]. *)
Definition IP_String (ip : IP) : string :=
  if (length ip =? 0)%nat then "<nil>"
  else if (length (To4 ip) =? 4)%nat && ((length ip =? 4)%nat || (length ip =? 16)%nat)
  then dotted_quad (To4 ip)
  else IP_String_other ip.

(** ** Errors of the fabric manager, one constructor per [fmt.Errorf] *)

Inductive mb_error : Type :=
| ErrBridgeNumberOutOfRange (bridge count : Z)
| ErrWorkspaceIDEmpty
| ErrVMCountNegative (n : Z)
| ErrVMCountExceedsCapacity (n : Z)
| ErrBridgeNameMismatch (expected got : string)
| ErrSubnetBaseNotAligned (base : Z)
| ErrSubnetBaseOutOfRange (base : Z)
| ErrVMIPOutsideRange (vmIP lo hi : Z)
| ErrVMIPMismatch (vmIP expected : Z)
| ErrVMCountInvalid (n : Z)
| ErrParseWorkspaceSubnet (cidr : string)
| ErrIPNotWithinWorkspaceSubnet (cidr : string)
| ErrInvalidIPv4NetworkIP
| ErrIPNotIPv4
| ErrIPNotInUsableRange (cidr : string)
| ErrInvalidBridgeSubnet (cidr : string)
| ErrWorkspaceSubnetFull (workspaceID : string)
| ErrIPOutsideBridgeSubnet (cidr : string)
| ErrWorkspaceNotFound (workspaceID : string)
| ErrCreateStateDirectory
| ErrMarshalForChecksum
| ErrMarshalState
| ErrWriteStateFile
| ErrRenameStateFile
| ErrReadStateFile
| ErrUnmarshalState
| ErrChecksumMismatch (stored calculated : string)
| ErrWorkspaceNil
| ErrWorkspaceIDMismatch (key field : string)
| ErrProjectVLANsNil
| ErrCreatedAtEmpty
| ErrCreatedAtInvalid (text : string)
| ErrProjectVLANNil
| ErrProjectIDMismatch (key field : string)
| ErrVLANNumberOutOfRange (n : Z)
| ErrSubnetCIDREmpty
| ErrSubnetCIDRInvalid (cidr : string)
| ErrNextVMIndexNegative (n : Z)
| ErrNextVMIndexExceedsCapacity (n : Z)
| ErrBridgeUsageNil
| ErrBridgeUsageInvalidBridge (bridge : Z)
| ErrBridgeUsageCountMismatch (bridge : Z)
| ErrBridgeUsageUnexpectedWorkspace (bridge : Z) (workspaceID : string)
| ErrBridgeUsageMissing (bridge : Z)
| ErrInvalidVLANSubnet (cidr : string)
| ErrProjectVLANFull (projectID : string)
| ErrProjectVLANIsFull (projectID : string)
| ErrIPOutsideVLANSubnet (cidr : string)
(* wrapping with %w *)
| ErrBridgeAllocationValidationFailed (cause : mb_error)
| ErrVMIPAllocationValidationFailed (cause : mb_error)
| ErrIPSubnetValidationFailed (cause : mb_error)
| ErrPersistIPAllocation (cause : mb_error)
| ErrPersistIPRelease (cause : mb_error)
| ErrCalculateStateChecksum (cause : mb_error)
| ErrCalculateExpectedChecksum (cause : mb_error)
| ErrChecksumVerificationFailed (cause : mb_error)
| ErrCorruptedStateFile (cause : mb_error)
| ErrWorkspaceValidationFailed (workspaceID : string) (cause : mb_error)
| ErrProjectVLANValidationFailed (projectID : string) (cause : mb_error)
| ErrBridgeUsageValidationFailed (cause : mb_error)
| ErrSaveAfterIPAllocation (cause : mb_error).

(** [fmt.Sprintf("%s-%d", prefix, n)]. *)
Definition bridge_name (prefix : string) (n : Z) : string :=
  prefix +:+ "-" +:+ fmt_d n.

(** [validateBridgeAllocation] (multibridge.go); [None] is the nil error. *)
Definition validateBridgeAllocation (mbm : MultiBridgeManager)
    (allocation : WorkspaceAllocation) : option mb_error :=
  if (BridgeNumber allocation <? 0) || (bridgeCount mbm <=? BridgeNumber allocation)
  then Some (ErrBridgeNumberOutOfRange (BridgeNumber allocation) (bridgeCount mbm))
  else if String.eqb (WorkspaceID allocation) "" then Some ErrWorkspaceIDEmpty
  else if VMCount allocation <? 0 then Some (ErrVMCountNegative (VMCount allocation))
  else if 5 <=? VMCount allocation
  then Some (ErrVMCountExceedsCapacity (VMCount allocation))
  else
    let expectedBridgeName := bridge_name (bridgePrefix mbm) (BridgeNumber allocation) in
    if negb (String.eqb (BridgeName allocation) expectedBridgeName)
    then Some (ErrBridgeNameMismatch expectedBridgeName (BridgeName allocation))
    else None.

(** [validateVMIPAllocation] (multibridge.go). *)
Definition validateVMIPAllocation (workspaceID : string)
    (workspaceSubnetBase vmIP vmCount : Z) : option mb_error :=
  if negb (Z.rem workspaceSubnetBase 8 =? 0)
  then Some (ErrSubnetBaseNotAligned workspaceSubnetBase)
  else if (workspaceSubnetBase <? 0) || (248 <? workspaceSubnetBase)
  then Some (ErrSubnetBaseOutOfRange workspaceSubnetBase)
  else
    let expectedVMIPMin := workspaceSubnetBase + 2 in
    let expectedVMIPMax := workspaceSubnetBase + 6 in
    if (vmIP <? expectedVMIPMin) || (expectedVMIPMax <? vmIP)
    then Some (ErrVMIPOutsideRange vmIP expectedVMIPMin expectedVMIPMax)
    else
      let expectedVMIP := wrap64 (workspaceSubnetBase + 2 + vmCount) in
      if negb (vmIP =? expectedVMIP) then Some (ErrVMIPMismatch vmIP expectedVMIP)
      else if (vmCount <? 0) || (5 <=? vmCount) then Some (ErrVMCountInvalid vmCount)
      else None.

(** [ip[i] += b] on bytes. *)
Definition add_byte_at (ip : list Z) (i : nat) (b : Z) : list Z :=
  <[i := byte_of (byte_at ip i + b)]> ip.

Definition workspace_subnet_text (bridgeNumber workspaceSubnetBase : Z) : string :=
  "172.16." +:+ fmt_d bridgeNumber +:+ "." +:+ fmt_d workspaceSubnetBase +:+ "/29".

(** [validateIPWithinWorkspaceSubnet] (multibridge.go). *)
Definition validateIPWithinWorkspaceSubnet (ip : IP)
    (bridgeNumber workspaceSubnetBase : Z) : option mb_error :=
  let workspaceSubnet := workspace_subnet_text bridgeNumber workspaceSubnetBase in
  match ParseCIDR workspaceSubnet with
  | None => Some (ErrParseWorkspaceSubnet workspaceSubnet)
  | Some (_, workspaceNet) =>
      if negb (Contains workspaceNet ip)
      then Some (ErrIPNotWithinWorkspaceSubnet workspaceSubnet)
      else
        let networkIP := To4 (net_IP workspaceNet) in
        if (length networkIP =? 0)%nat then Some ErrInvalidIPv4NetworkIP
        else
          let firstUsable := add_byte_at networkIP 3 2 in
          let lastUsable := add_byte_at networkIP 3 6 in
          let ipv4 := To4 ip in
          if (length ipv4 =? 0)%nat then Some ErrIPNotIPv4
          else if (byte_at ipv4 3 <? byte_at firstUsable 3)
                  || (byte_at lastUsable 3 <? byte_at ipv4 3)
          then Some (ErrIPNotInUsableRange workspaceSubnet)
          else None
  end.

(** ** Persistence (multibridge.go, multibridge_persistence.go) *)

Definition to_json (a : WorkspaceAllocation) : WorkspaceAllocationJSON :=
  mkWorkspaceAllocationJSON (WorkspaceID a) (BridgeNumber a) (BridgeName a)
    (Some (Some <$> ProjectVLANs a)) (CreatedAt a) (VMCount a).

Definition of_json (j : WorkspaceAllocationJSON) : WorkspaceAllocation :=
  mkWorkspaceAllocation (jWorkspaceID j) (jBridgeNumber j) (jBridgeName j)
    (omap id (default ∅ (jProjectVLANs j))) (jCreatedAt j) (jVMCount j).

(** [calculateStateChecksum]: the digest of the state marshalled with its
    checksum field left empty; [None] when marshalling fails. *)
Definition calculateStateChecksum (state : MultiBridgeState) : option string :=
  let stateForHashing :=
    mkMultiBridgeState (Workspaces state) (BridgeUsage state) (LastSaved state) "" in
  match json_Marshal stateForHashing with
  | None => None
  | Some data => Some (sha256_hex data)
  end.

(** [verifyStateChecksum]. *)
Definition verifyStateChecksum (state : MultiBridgeState) : option mb_error :=
  if String.eqb (Checksum state) "" then None
  else match calculateStateChecksum state with
       | None => Some (ErrCalculateExpectedChecksum ErrMarshalForChecksum)
       | Some expectedChecksum =>
           if negb (String.eqb (Checksum state) expectedChecksum)
           then Some (ErrChecksumMismatch (Checksum state) expectedChecksum)
           else None
       end.

(** The document [saveState] builds from the manager, before the checksum. *)
Definition state_of (mbm : MultiBridgeManager) (e : env) : MultiBridgeState :=
  mkMultiBridgeState (Some ((fun a => Some (to_json a)) <$> workspaces mbm))
    (Some (Some <$> bridgeUsage mbm)) (now e) "".

Definition with_checksum (state : MultiBridgeState) (checksum : string) : MultiBridgeState :=
  mkMultiBridgeState (Workspaces state) (BridgeUsage state) (LastSaved state) checksum.

(** [saveState]: the error, if any, and the files afterwards. *)
Definition saveState (mbm : MultiBridgeManager) (e : env) (d : disk)
    : option mb_error * disk :=
  match fault e with
  | MkdirFails => (Some ErrCreateStateDirectory, d)
  | flt =>
      let state := state_of mbm e in
      match calculateStateChecksum state with
      | None => (Some (ErrCalculateStateChecksum ErrMarshalForChecksum), d)
      | Some checksum =>
          match json_MarshalIndent (with_checksum state checksum) with
          | None => (Some ErrMarshalState, d)
          | Some data =>
              match flt with
              | WriteFails => (Some ErrWriteStateFile, d)
              | RenameFails => (Some ErrRenameStateFile, mkDisk (state_file d) (Some data))
              | _ => (None, mkDisk (Some data) None)
              end
          end
      end
  end.
(** The first error a check reports over the entries of a map, if any.
    Go ranges over a map in no fixed order: which error comes first may
    differ, whether there is one does not. *)
Definition first_error {K A} `{Countable K} (check : K -> A -> option mb_error)
    (m : gmap K A) : option mb_error :=
  map_fold (fun k a acc => match acc with Some e => Some e | None => check k a end) None m.

(** [validateProjectVLAN]. *)
Definition validateProjectVLAN (mbm : MultiBridgeManager) (projID : string)
    (vlan : option ProjectVLAN) : option mb_error :=
  match vlan with
  | None => Some ErrProjectVLANNil
  | Some vlan =>
      if negb (String.eqb (ProjectID vlan) projID)
      then Some (ErrProjectIDMismatch projID (ProjectID vlan))
      else if (VLANNumber vlan <? vlanRangeStart mbm) || (vlanRangeEnd mbm <? VLANNumber vlan)
      then Some (ErrVLANNumberOutOfRange (VLANNumber vlan))
      else if String.eqb (SubnetCIDR vlan) "" then Some ErrSubnetCIDREmpty
      else if negb (bool_decide (is_Some (ParseCIDR (SubnetCIDR vlan))))
      then Some (ErrSubnetCIDRInvalid (SubnetCIDR vlan))
      else if NextVMIndex vlan <? 0 then Some (ErrNextVMIndexNegative (NextVMIndex vlan))
      else if 30 <? NextVMIndex vlan
      then Some (ErrNextVMIndexExceedsCapacity (NextVMIndex vlan))
      else None
  end.

(** [validateWorkspace]. *)
Definition validateWorkspace (mbm : MultiBridgeManager) (wsID : string)
    (ws : option WorkspaceAllocationJSON) : option mb_error :=
  match ws with
  | None => Some ErrWorkspaceNil
  | Some ws =>
      if negb (String.eqb (jWorkspaceID ws) wsID)
      then Some (ErrWorkspaceIDMismatch wsID (jWorkspaceID ws))
      else if (jBridgeNumber ws <? 0) || (bridgeCount mbm <=? jBridgeNumber ws)
      then Some (ErrBridgeNumberOutOfRange (jBridgeNumber ws) (bridgeCount mbm))
      else
        let expectedBridgeName := bridge_name (bridgePrefix mbm) (jBridgeNumber ws) in
        if negb (String.eqb (jBridgeName ws) expectedBridgeName)
        then Some (ErrBridgeNameMismatch expectedBridgeName (jBridgeName ws))
        else if jVMCount ws <? 0 then Some (ErrVMCountNegative (jVMCount ws))
        else match jProjectVLANs ws with
             | None => Some ErrProjectVLANsNil
             | Some vlans =>
                 match first_error
                         (fun projID vlan =>
                            ErrProjectVLANValidationFailed projID
                              <$> validateProjectVLAN mbm projID vlan) vlans with
                 | Some e => Some e
                 | None =>
                     if String.eqb (jCreatedAt ws) "" then Some ErrCreatedAtEmpty
                     else if negb (time_Parse_RFC3339 (jCreatedAt ws))
                     then Some (ErrCreatedAtInvalid (jCreatedAt ws))
                     else None
                 end
             end
  end.

(** The usage [validateBridgeUsage] expects, built from the workspaces. *)
Definition expectedUsage (wss : gmap string (option WorkspaceAllocationJSON))
    : gmap Z (gmap string bool) :=
  map_fold
    (fun wsID ws acc =>
       match ws with
       | None => acc
       | Some ws =>
           let bridgeNum := jBridgeNumber ws in
           <[bridgeNum := <[wsID := true]> (default ∅ (acc !! bridgeNum))]> acc
       end) ∅ wss.

Definition usage_size (u : option (gmap string bool)) : nat :=
  size (default ∅ u).

(** [validateBridgeUsage]. *)
Definition validateBridgeUsage (mbm : MultiBridgeManager) (state : MultiBridgeState)
    : option mb_error :=
  match BridgeUsage state with
  | None => Some ErrBridgeUsageNil
  | Some bu =>
      let expectedUsage := expectedUsage (default ∅ (Workspaces state)) in
      match first_error
              (fun bridgeNum usage =>
                 if (bridgeNum <? 0) || (bridgeCount mbm <=? bridgeNum)
                 then Some (ErrBridgeUsageInvalidBridge bridgeNum)
                 else
                   let expected := default ∅ (expectedUsage !! bridgeNum) in
                   if negb (usage_size usage =? size expected)%nat
                   then Some (ErrBridgeUsageCountMismatch bridgeNum)
                   else first_error
                          (fun wsID (_ : bool) =>
                             if negb (default false (expected !! wsID))
                             then Some (ErrBridgeUsageUnexpectedWorkspace bridgeNum wsID)
                             else None) (default ∅ usage)) bu with
      | Some e => Some e
      | None =>
          first_error
            (fun bridgeNum expected =>
               if negb (usage_size (default None (bu !! bridgeNum)) =? size expected)%nat
               then Some (ErrBridgeUsageMissing bridgeNum)
               else None) expectedUsage
      end
  end.

(** [validateState]. *)
Definition validateState (mbm : MultiBridgeManager) (state : MultiBridgeState)
    : option mb_error :=
  match first_error
          (fun wsID ws => ErrWorkspaceValidationFailed wsID <$> validateWorkspace mbm wsID ws)
          (default ∅ (Workspaces state)) with
  | Some e => Some e
  | None => ErrBridgeUsageValidationFailed <$> validateBridgeUsage mbm state
  end.

Definition with_maps (mbm : MultiBridgeManager)
    (ws : gmap string WorkspaceAllocation) (bu : gmap Z (gmap string bool))
    : MultiBridgeManager :=
  mkMultiBridgeManager (bridgeCount mbm) (bridgePrefix mbm) ws bu
    (vlanRangeStart mbm) (vlanRangeEnd mbm).

(** [loadState]: a missing file is a first run; otherwise the file is read,
    decoded, checked and, when valid, becomes the manager's state, with nil
    maps replaced by empty ones. *)
Definition loadState (mbm : MultiBridgeManager) (e : env) (d : disk)
    : option mb_error * MultiBridgeManager :=
  match state_file d with
  | None => (None, mbm)
  | Some data =>
      if read_fails e then (Some ErrReadStateFile, mbm)
      else match json_Unmarshal data with
           | None => (Some ErrUnmarshalState, mbm)
           | Some state =>
               match verifyStateChecksum state with
               | Some c => (Some (ErrChecksumVerificationFailed c), mbm)
               | None =>
                   match validateState mbm state with
                   | Some c => (Some (ErrCorruptedStateFile c), mbm)
                   | None =>
                       (None,
                        with_maps mbm
                          (omap (fmap of_json) (default ∅ (Workspaces state)))
                          (default ∅ <$> default ∅ (BridgeUsage state)))
                   end
               end
           end
  end.
End WithLibrary.

(** ** Allocation (multibridge.go) *)

Section Allocation.
Context `{L : Library}.

Definition set_VMCount (a : WorkspaceAllocation) (n : Z) : WorkspaceAllocation :=
  mkWorkspaceAllocation (WorkspaceID a) (BridgeNumber a) (BridgeName a)
    (ProjectVLANs a) (CreatedAt a) n.

Definition set_BridgeName (a : WorkspaceAllocation) (name : string) : WorkspaceAllocation :=
  mkWorkspaceAllocation (WorkspaceID a) (BridgeNumber a) name
    (ProjectVLANs a) (CreatedAt a) (VMCount a).

Definition set_ProjectVLANs (a : WorkspaceAllocation) (vlans : gmap string ProjectVLAN)
    : WorkspaceAllocation :=
  mkWorkspaceAllocation (WorkspaceID a) (BridgeNumber a) (BridgeName a)
    vlans (CreatedAt a) (VMCount a).

Definition set_NextVMIndex (v : ProjectVLAN) (n : Z) : ProjectVLAN :=
  mkProjectVLAN (ProjectID v) (VLANNumber v) (SubnetCIDR v) n (VLANCreatedAt v).

(** [mbm.workspaces[workspaceID] = allocation], also the effect of a write
    through the pointer stored under that key. *)
Definition set_workspace (mbm : MultiBridgeManager) (workspaceID : string)
    (allocation : WorkspaceAllocation) : MultiBridgeManager :=
  with_maps mbm (<[workspaceID := allocation]> (workspaces mbm)) (bridgeUsage mbm).

(** [mbm.bridgeUsage[bridgeNumber][workspaceID] = true], the inner map made
    first when it is missing. *)
Definition mark_usage (bu : gmap Z (gmap string bool)) (bridgeNumber : Z)
    (workspaceID : string) : gmap Z (gmap string bool) :=
  <[bridgeNumber := <[workspaceID := true]> (default ∅ (bu !! bridgeNumber))]> bu.

Definition track_bridge_usage (mbm : MultiBridgeManager) (bridgeNumber : Z)
    (workspaceID : string) : MultiBridgeManager :=
  with_maps mbm (workspaces mbm) (mark_usage (bridgeUsage mbm) bridgeNumber workspaceID).

Definition bridge_subnet_text (bridgeNumber : Z) : string :=
  "172.16." +:+ fmt_d bridgeNumber +:+ ".0/24".

Definition outcome (A : Type) : Type := result mb_error A * MultiBridgeManager * disk.

(** [AllocateIPForWorkspace]: the address and bridge name or the error, the
    manager afterwards and the files afterwards. *)
Definition AllocateIPForWorkspace (mbm : MultiBridgeManager) (workspaceID : string)
    (e : env) (d : disk) : outcome (IP * string) :=
  match
    match workspaces mbm !! workspaceID with
    | Some allocation => Some (mbm, allocation)
    | None =>
        match GetBridgeForWorkspace (bridgeCount mbm) workspaceID with
        | None => None
        | Some bridgeNumber =>
            let bridgeName := bridge_name (bridgePrefix mbm) bridgeNumber in
            let allocation :=
              mkWorkspaceAllocation workspaceID bridgeNumber bridgeName ∅ (now_rfc3339 e) 0 in
            Some (track_bridge_usage (set_workspace mbm workspaceID allocation)
                    bridgeNumber workspaceID, allocation)
        end
    end
  with
  | None => (Panic, mbm, d)
  | Some (mbm1, allocation) =>
      match validateBridgeAllocation mbm1 allocation with
      | Some c => (Err (ErrBridgeAllocationValidationFailed c), mbm1, d)
      | None =>
          let bridgeSubnet := bridge_subnet_text (BridgeNumber allocation) in
          match ParseCIDR bridgeSubnet with
          | None => (Err (ErrInvalidBridgeSubnet bridgeSubnet), mbm1, d)
          | Some (_, network) =>
              let workspaceSubnetIndex := FNV1a32 workspaceID mod 32 in
              let workspaceSubnetBase := workspaceSubnetIndex * 8 in
              let vmIP := wrap64 (workspaceSubnetBase + 2 + VMCount allocation) in
              if 5 <=? VMCount allocation
              then (Err (ErrWorkspaceSubnetFull workspaceID), mbm1, d)
              else
                match validateVMIPAllocation workspaceID workspaceSubnetBase vmIP
                        (VMCount allocation) with
                | Some c => (Err (ErrVMIPAllocationValidationFailed c), mbm1, d)
                | None =>
                    let allocation' :=
                      set_VMCount allocation (wrap64 (VMCount allocation + 1)) in
                    let mbm2 := set_workspace mbm1 workspaceID allocation' in
                    match length (net_IP network) with
                    | O => (Panic, mbm2, d)
                    | S last =>
                        let ip := add_byte_at (net_IP network) last (byte_of vmIP) in
                        if negb (Contains network ip)
                        then (Err (ErrIPOutsideBridgeSubnet bridgeSubnet), mbm2, d)
                        else
                          match validateIPWithinWorkspaceSubnet ip
                                  (BridgeNumber allocation') workspaceSubnetBase with
                          | Some c => (Err (ErrIPSubnetValidationFailed c), mbm2, d)
                          | None =>
                              match saveState mbm2 e d with
                              | (Some c, d') =>
                                  (Err (ErrPersistIPAllocation c),
                                   set_workspace mbm2 workspaceID
                                     (set_VMCount allocation'
                                        (wrap64 (VMCount allocation' - 1))), d')
                              | (None, d') => (Ok (ip, BridgeName allocation'), mbm2, d')
                              end
                          end
                    end
                end
          end
      end
  end.

(** [ReleaseIPForWorkspace]. *)
Definition ReleaseIPForWorkspace (mbm : MultiBridgeManager) (workspaceID : string)
    (ip : IP) (e : env) (d : disk) : outcome unit :=
  match workspaces mbm !! workspaceID with
  | None => (Err (ErrWorkspaceNotFound workspaceID), mbm, d)
  | Some allocation =>
      let allocation' :=
        if 0 <? VMCount allocation
        then set_VMCount allocation (wrap64 (VMCount allocation - 1))
        else allocation in
      let mbm1 := set_workspace mbm workspaceID allocation' in
      match saveState mbm1 e d with
      | (Some c, d') =>
          (Err (ErrPersistIPRelease c),
           set_workspace mbm1 workspaceID
             (set_VMCount allocation' (wrap64 (VMCount allocation' + 1))), d')
      | (None, d') => (Ok tt, mbm1, d')
      end
  end.

(** ** Repair after load (multibridge.go, multibridge_validation.go) *)

(** State of the repair loops: the two maps and the [repaired] flag. *)
Record repair_state : Type := mkRepair {
  r_workspaces : gmap string WorkspaceAllocation;
  r_bridgeUsage : gmap Z (gmap string bool);
  r_repaired : bool
}.

(** One turn of the loop over [mbm.workspaces]. *)
Definition repair_workspace (mbm : MultiBridgeManager) (workspaceID : string)
    (allocation : WorkspaceAllocation) (st : repair_state) : repair_state :=
  if (BridgeNumber allocation <? 0) || (bridgeCount mbm <=? BridgeNumber allocation)
  then mkRepair (delete workspaceID (r_workspaces st)) (r_bridgeUsage st) true
  else
    let '(allocation1, repaired1) :=
      if 5 <? VMCount allocation then (set_VMCount allocation 0, true)
      else (allocation, r_repaired st) in
    let expectedBridgeName := bridge_name (bridgePrefix mbm) (BridgeNumber allocation1) in
    let '(allocation2, repaired2) :=
      if negb (String.eqb (BridgeName allocation1) expectedBridgeName)
      then (set_BridgeName allocation1 expectedBridgeName, true)
      else (allocation1, repaired1) in
    mkRepair (<[workspaceID := allocation2]> (r_workspaces st))
      (mark_usage (r_bridgeUsage st) (BridgeNumber allocation2) workspaceID)
      repaired2.

(** The inner loop over one bridge's usage: entries of workspaces that no
    longer exist are deleted. *)
Definition prune_usage (ws : gmap string WorkspaceAllocation) (workspaceMap : gmap string bool)
    (repaired : bool) : gmap string bool * bool :=
  map_fold
    (fun workspaceID (_ : bool) acc =>
       match ws !! workspaceID with
       | None => (delete workspaceID (fst acc), true)
       | Some _ => acc
       end) (workspaceMap, repaired) workspaceMap.

(** One turn of the loop over [mbm.bridgeUsage]. *)
Definition repair_usage (bridgeNum : Z) (workspaceMap : gmap string bool)
    (st : repair_state) : repair_state :=
  let '(workspaceMap', repaired') :=
    prune_usage (r_workspaces st) workspaceMap (r_repaired st) in
  if (size workspaceMap' =? 0)%nat
  then mkRepair (r_workspaces st) (delete bridgeNum (r_bridgeUsage st)) repaired'
  else mkRepair (r_workspaces st) (<[bridgeNum := workspaceMap']> (r_bridgeUsage st)) repaired'.

Definition repair_loops (mbm : MultiBridgeManager) : repair_state :=
  let st1 :=
    map_fold (repair_workspace mbm)
      (mkRepair (workspaces mbm) (bridgeUsage mbm) false) (workspaces mbm) in
  map_fold repair_usage st1 (r_bridgeUsage st1).

(** [validateAndRepairState]: whether anything was repaired, the manager
    afterwards and the files afterwards (a failed save is only logged). *)
Definition validateAndRepairState (mbm : MultiBridgeManager) (e : env) (d : disk)
    : bool * MultiBridgeManager * disk :=
  let st := repair_loops mbm in
  let mbm' := with_maps mbm (r_workspaces st) (r_bridgeUsage st) in
  if r_repaired st then (true, mbm', snd (saveState mbm' e d))
  else (false, mbm', d).

(** [NewMultiBridgeManager]: [e_load] serves the load, [e_save] the save of
    a repaired state. *)
Definition NewMultiBridgeManager (bridgeCount : Z) (bridgePrefix : string)
    (e_load e_save : env) (d : disk) : MultiBridgeManager * disk :=
  let mbm := mkMultiBridgeManager bridgeCount bridgePrefix ∅ ∅ 100 4000 in
  match loadState mbm e_load d with
  | (Some _, mbm') => (mbm', d)
  | (None, mbm') =>
      let '(_, mbm'', d') := validateAndRepairState mbm' e_save d in (mbm'', d')
  end.
End Allocation.

(** ** Project VLANs (multibridge.go) *)

Section ProjectVLANs.
Context `{L : Library}.

(** [GetVLANForProject] of multibridge.go: the remainder is taken on
    [uint32]; [None] is the panic of an empty VLAN range. *)
Definition GetVLANForProject (mbm : MultiBridgeManager) (projectID : string) : option Z :=
  let vlanRange := wrap64 (wrap64 (vlanRangeEnd mbm - vlanRangeStart mbm) + 1) in
  match go_rem (FNV1a32 projectID) (uint32_of vlanRange) with
  | None => None
  | Some r => Some (wrap64 (r + vlanRangeStart mbm))
  end.

(** [calculateVLANSubnet]. *)
Definition calculateVLANSubnet (bridgeNumber vlanNumber : Z) : string :=
  let vlanOffset := Z.rem vlanNumber 8 * 32 in
  "172.16." +:+ fmt_d bridgeNumber +:+ "." +:+ fmt_d vlanOffset +:+ "/27".

Definition set_project_vlan (mbm : MultiBridgeManager) (workspaceID projectID : string)
    (workspace : WorkspaceAllocation) (vlan : ProjectVLAN) : MultiBridgeManager :=
  set_workspace mbm workspaceID
    (set_ProjectVLANs workspace (<[projectID := vlan]> (ProjectVLANs workspace))).

(** [GetOrCreateProjectVLAN] of multibridge.go: the manager afterwards, the
    VLAN and the workspace; [None] is a panic, the error is always nil.  The
    workspace returned is the record as the call leaves it. *)
Definition GetOrCreateProjectVLAN (mbm : MultiBridgeManager)
    (workspaceID projectID : string)
    : option (MultiBridgeManager * ProjectVLAN * WorkspaceAllocation) :=
  match
    match workspaces mbm !! workspaceID with
    | Some workspace => Some (mbm, workspace)
    | None =>
        match GetBridgeForWorkspace (bridgeCount mbm) workspaceID with
        | None => None
        | Some bridgeNum =>
            let workspace :=
              mkWorkspaceAllocation workspaceID bridgeNum
                (bridge_name (bridgePrefix mbm) bridgeNum) ∅ "2025-08-13T22:00:00Z" 0 in
            Some (track_bridge_usage (set_workspace mbm workspaceID workspace)
                    bridgeNum workspaceID, workspace)
        end
    end
  with
  | None => None
  | Some (mbm1, workspace) =>
      match ProjectVLANs workspace !! projectID with
      | Some projectVLAN => Some (mbm1, projectVLAN, workspace)
      | None =>
          match GetVLANForProject mbm1 projectID with
          | None => None
          | Some vlanNumber =>
              let subnetCIDR := calculateVLANSubnet (BridgeNumber workspace) vlanNumber in
              let projectVLAN :=
                mkProjectVLAN projectID vlanNumber subnetCIDR 0 "2025-08-13T22:00:00Z" in
              Some (set_project_vlan mbm1 workspaceID projectID workspace projectVLAN,
                    projectVLAN,
                    set_ProjectVLANs workspace
                      (<[projectID := projectVLAN]> (ProjectVLANs workspace)))
          end
      end
  end.

(** [AllocateVMIP] of multibridge.go: nothing is persisted. *)
Definition AllocateVMIP (mbm : MultiBridgeManager) (workspaceID projectID : string)
    : result mb_error (IP * string) * MultiBridgeManager :=
  match GetOrCreateProjectVLAN mbm workspaceID projectID with
  | None => (Panic, mbm)
  | Some (mbm1, projectVLAN, workspace) =>
      match ParseCIDR (SubnetCIDR projectVLAN) with
      | None => (Err (ErrInvalidVLANSubnet (SubnetCIDR projectVLAN)), mbm1)
      | Some (_, network) =>
          let nextIP := wrap64 (2 + NextVMIndex projectVLAN) in
          if 30 <? nextIP then (Err (ErrProjectVLANFull projectID), mbm1)
          else
            match length (net_IP network) with
            | O => (Panic, mbm1)
            | S last =>
                let ip := add_byte_at (net_IP network) last (byte_of nextIP) in
                if negb (Contains network ip)
                then (Err (ErrIPOutsideVLANSubnet (SubnetCIDR projectVLAN)), mbm1)
                else
                  (Ok (ip, BridgeName workspace),
                   set_project_vlan mbm1 workspaceID projectID workspace
                     (set_NextVMIndex projectVLAN (wrap64 (NextVMIndex projectVLAN + 1))))
            end
      end
  end.
End ProjectVLANs.

(** ** Queries (multibridge.go) *)

(** The field-by-field copy of a VLAN record. *)
Definition copy_vlan (v : ProjectVLAN) : ProjectVLAN :=
  mkProjectVLAN (ProjectID v) (VLANNumber v) (SubnetCIDR v) (NextVMIndex v)
    (VLANCreatedAt v).

(** [GetWorkspaceInfo] of multibridge.go: the copy is built without the VM
    count, which is left at zero. *)
Definition GetWorkspaceInfo (mbm : MultiBridgeManager) (workspaceID : string)
    : result mb_error WorkspaceAllocation :=
  match workspaces mbm !! workspaceID with
  | None => Err (ErrWorkspaceNotFound workspaceID)
  | Some workspace =>
      Ok (mkWorkspaceAllocation (WorkspaceID workspace) (BridgeNumber workspace)
            (BridgeName workspace) (copy_vlan <$> ProjectVLANs workspace)
            (CreatedAt workspace) 0)
  end.

(** [ListWorkspaces]: the stored records themselves, in no fixed order. *)
Definition ListWorkspaces (mbm : MultiBridgeManager) : list WorkspaceAllocation :=
  snd <$> map_to_list (workspaces mbm).

(** ** The same query with the pointers kept

    [MultiBridgeManager.workspaces] maps an id to a pointer to a record whose
    [ProjectVLANs] maps an id to a pointer to a VLAN record.  Here the
    records live in a heap, and a query returns a pointer. *)

Module Heap.

Definition loc : Type := positive.

Record WorkspaceCell : Type := mkCell {
  cWorkspaceID : string;
  cBridgeNumber : Z;
  cBridgeName : string;
  cProjectVLANs : gmap string loc;
  cCreatedAt : string;
  cVMCount : Z
}.

Record heap : Type := mkHeap {
  cells : gmap loc WorkspaceCell;
  vlan_cells : gmap loc ProjectVLAN
}.

(** The VLAN records a map of pointers leads to. *)
Definition read_vlans (vl : gmap loc ProjectVLAN) (pv : gmap string loc)
    : gmap string ProjectVLAN :=
  omap (fun l => vl !! l) pv.

(** The record a pointer leads to, with the records it points to. *)
Definition read_workspace (h : heap) (l : loc) : option WorkspaceAllocation :=
  match cells h !! l with
  | None => None
  | Some c =>
      Some (mkWorkspaceAllocation (cWorkspaceID c) (cBridgeNumber c) (cBridgeName c)
              (read_vlans (vlan_cells h) (cProjectVLANs c)) (cCreatedAt c) (cVMCount c))
  end.

(** The manager's [workspaces] map as the pointers of [ws] show it. *)
Definition view (h : heap) (ws : gmap string loc) : gmap string WorkspaceAllocation :=
  omap (read_workspace h) ws.

(** A write through a pointer to a workspace record, and through a pointer
    to a VLAN record. *)
Definition store_cell (h : heap) (l : loc) (c : WorkspaceCell) : heap :=
  mkHeap (<[l := c]> (cells h)) (vlan_cells h).

Definition store_vlan (h : heap) (l : loc) (v : ProjectVLAN) : heap :=
  mkHeap (cells h) (<[l := v]> (vlan_cells h)).

(** One turn of the loop over [workspace.ProjectVLANs]: a new VLAN record
    is allocated for the copy.  (A pointer to nothing cannot occur; the turn
    then does nothing.) *)
Definition copy_vlan_step (projectID : string) (l : loc)
    (acc : gmap string loc * gmap loc ProjectVLAN)
    : gmap string loc * gmap loc ProjectVLAN :=
  match acc.2 !! l with
  | None => acc
  | Some v =>
      let l' := fresh (dom acc.2) in
      (<[projectID := l']> acc.1, <[l' := copy_vlan v]> acc.2)
  end.

(** [GetWorkspaceInfo] of multibridge.go: a pointer to a new record. *)
Definition GetWorkspaceInfo (h : heap) (ws : gmap string loc) (workspaceID : string)
    : result mb_error loc * heap :=
  match ws !! workspaceID with
  | None => (Err (ErrWorkspaceNotFound workspaceID), h)
  | Some l =>
      match cells h !! l with
      | None => (Panic, h)
      | Some workspace =>
          let l' := fresh (dom (cells h)) in
          let '(copy, vl) :=
            map_fold copy_vlan_step (∅, vlan_cells h) (cProjectVLANs workspace) in
          (Ok l',
           mkHeap
             (<[l' := mkCell (cWorkspaceID workspace) (cBridgeNumber workspace)
                        (cBridgeName workspace) copy (cCreatedAt workspace) 0]>
                (cells h))
             vl)
      end
  end.

(** [ListWorkspaces]: the stored pointers. *)
Definition ListWorkspaces (ws : gmap string loc) : list loc :=
  snd <$> map_to_list ws.

(** No pointer of the manager dangles. *)
Definition wf (h : heap) (ws : gmap string loc) : Prop :=
  forall w l, ws !! w = Some l ->
    exists c, cells h !! l = Some c
              /\ forall p lv, cProjectVLANs c !! p = Some lv -> is_Some (vlan_cells h !! lv).

(** ws_A with three VMs and one project VLAN, at pointers 1 and 1. *)
Definition example_cell : WorkspaceCell :=
  mkCell "ws_A" 3 "br-vms-3" {[ "p" := 1%positive ]} "2025-01-01T00:00:00Z" 3.

Definition example_heap : heap :=
  mkHeap {[ 1%positive := example_cell ]}
    {[ 1%positive :=
         mkProjectVLAN "p" 101 "172.16.3.160/27" 4 "2025-01-01T00:00:00Z" ]}.

Definition example_workspaces : gmap string loc := {[ "ws_A" := 1%positive ]}.

End Heap.

(** ** The manager as split over files: multibridge_manager.go and the
    allocation file (unnamed/part_007) *)

Module Split.
Section Split.
Context `{L : Library}.

(** [GetVLANForProject] of multibridge_manager.go: the remainder is taken on
    [int]. *)
Definition GetVLANForProject (mbm : MultiBridgeManager) (projectID : string) : option Z :=
  let vlanRange := wrap64 (wrap64 (vlanRangeEnd mbm - vlanRangeStart mbm) + 1) in
  match go_rem (FNV1a32 projectID) vlanRange with
  | None => None
  | Some r => Some (wrap64 (vlanRangeStart mbm + r))
  end.

(** [GetOrCreateProjectVLAN] of multibridge_manager.go: records carry the
    time of creation, and a new VLAN is saved, a failed save being logged. *)
Definition GetOrCreateProjectVLAN (mbm : MultiBridgeManager)
    (workspaceID projectID : string) (e : env) (d : disk)
    : option (MultiBridgeManager * ProjectVLAN * WorkspaceAllocation * disk) :=
  match
    match workspaces mbm !! workspaceID with
    | Some workspace => Some (mbm, workspace)
    | None =>
        match GetBridgeForWorkspace (bridgeCount mbm) workspaceID with
        | None => None
        | Some bridgeNum =>
            let workspace :=
              mkWorkspaceAllocation workspaceID bridgeNum
                (bridge_name (bridgePrefix mbm) bridgeNum) ∅ (now_rfc3339 e) 0 in
            Some (track_bridge_usage (set_workspace mbm workspaceID workspace)
                    bridgeNum workspaceID, workspace)
        end
    end
  with
  | None => None
  | Some (mbm1, workspace) =>
      match ProjectVLANs workspace !! projectID with
      | Some projectVLAN => Some (mbm1, projectVLAN, workspace, d)
      | None =>
          match GetVLANForProject mbm1 projectID with
          | None => None
          | Some vlanNum =>
              let subnetCIDR := calculateVLANSubnet (BridgeNumber workspace) vlanNum in
              let projectVLAN :=
                mkProjectVLAN projectID vlanNum subnetCIDR 0 (now_rfc3339 e) in
              let mbm2 := set_project_vlan mbm1 workspaceID projectID workspace projectVLAN in
              Some (mbm2, projectVLAN,
                    set_ProjectVLANs workspace
                      (<[projectID := projectVLAN]> (ProjectVLANs workspace)),
                    snd (saveState mbm2 e d))
          end
      end
  end.

(** [AllocateVMIP] of unnamed/part_007: the new index is saved and rolled
    back when the save fails; [e1] serves the lookup, [e2] the save.  The
    address is not checked against the subnet, and the error of a full VLAN
    has a message of its own. *)
Definition AllocateVMIP (mbm : MultiBridgeManager) (workspaceID projectID : string)
    (e1 e2 : env) (d : disk) : outcome (IP * string) :=
  match GetOrCreateProjectVLAN mbm workspaceID projectID e1 d with
  | None => (Panic, mbm, d)
  | Some (mbm1, vlan, workspace, d1) =>
      match ParseCIDR (SubnetCIDR vlan) with
      | None => (Err (ErrInvalidVLANSubnet (SubnetCIDR vlan)), mbm1, d1)
      | Some (_, vlanNet) =>
          let vmOffset := wrap64 (NextVMIndex vlan + 2) in
          if 30 <=? vmOffset then (Err (ErrProjectVLANIsFull projectID), mbm1, d1)
          else
            match length (net_IP vlanNet) with
            | O => (Panic, mbm1, d1)
            | S last =>
                let ip := add_byte_at (net_IP vlanNet) last (byte_of vmOffset) in
                let vlan' := set_NextVMIndex vlan (wrap64 (NextVMIndex vlan + 1)) in
                let mbm2 := set_project_vlan mbm1 workspaceID projectID workspace vlan' in
                match saveState mbm2 e2 d1 with
                | (Some c, d2) =>
                    (Err (ErrSaveAfterIPAllocation c),
                     set_project_vlan mbm1 workspaceID projectID workspace
                       (set_NextVMIndex vlan' (wrap64 (NextVMIndex vlan' - 1))), d2)
                | (None, d2) => (Ok (ip, BridgeName workspace), mbm2, d2)
                end
            end
      end
  end.
(** [GetWorkspaceInfo] of multibridge_manager.go: the VM count is copied. *)
Definition GetWorkspaceInfo (mbm : MultiBridgeManager) (workspaceID : string)
    : result mb_error WorkspaceAllocation :=
  match workspaces mbm !! workspaceID with
  | None => Err (ErrWorkspaceNotFound workspaceID)
  | Some workspace =>
      Ok (mkWorkspaceAllocation (WorkspaceID workspace) (BridgeNumber workspace)
            (BridgeName workspace) (copy_vlan <$> ProjectVLANs workspace)
            (CreatedAt workspace) (VMCount workspace))
  end.
End Split.
End Split.

(** ** Host side of a VM's /29 (vm_device_setup.go) *)

(** [calculateVMSubnet]; [None] is the index-out-of-range panic of an
    address shorter than four bytes. *)
Definition calculateVMSubnet (ip : IP) : option string :=
  if (length ip <? 4)%nat then None
  else
    let lastOctet := byte_at ip 3 in
    let base := byte_of ((lastOctet / 8) * 8) in
    Some (fmt_d (byte_at ip 0) +:+ "." +:+ fmt_d (byte_at ip 1) +:+ "."
            +:+ fmt_d (byte_at ip 2) +:+ "." +:+ fmt_d base +:+ "/29").

(** [calculateVethHostIP] of vm_device_setup.go: the first address of the
    /29, which [setupVMNetworking] puts on the host side of the veth pair. *)
Definition calculateVethHostIP (vmIP : IP) : option string :=
  if (length vmIP <? 4)%nat then None
  else
    let lastOctet := byte_at vmIP 3 in
    let base := byte_of ((lastOctet / 8) * 8) in
    Some (fmt_d (byte_at vmIP 0) +:+ "." +:+ fmt_d (byte_at vmIP 1) +:+ "."
            +:+ fmt_d (byte_at vmIP 2) +:+ "." +:+ fmt_d (byte_of (base + 1))).

(** ** The network binding of a VM (unnamed/part_008) *)

Record Route : Type := mkRoute {
  Destination : option IPNet;
  RouteGateway : IP;
  Metric : Z
}.

(** [VMNetwork]; a nil address or mask is the empty list. *)
Record VMNetwork : Type := mkVMNetwork {
  VMID : string;
  NetworkID : string;
  vmWorkspaceID : string;
  Namespace : string;
  TapDevice : string;
  IPAddress : IP;
  Netmask : IPMask;
  Gateway : IP;
  MacAddress : string;
  DNSServers : list string;
  vmCreatedAt : Z;
  VLANID : Z;
  IPv6Address : IP;
  Routes : list Route
}.

Section KernelArgs.
Context `{L : Library}.

(** [VMNetwork.calculateVethHostIP] of unnamed/part_008: the guest address
    minus one. *)
Definition VMNetwork_calculateVethHostIP (n : VMNetwork) : string :=
  if (length (IPAddress n) =? 0)%nat then ""
  else
    let ip := To4 (IPAddress n) in
    if (length ip =? 0)%nat then ""
    else IP_String (<[3%nat := byte_of (byte_at ip 3 - 1)]> ip).

(** [VMNetwork.formatNetmask]. *)
Definition formatNetmask (n : VMNetwork) : string :=
  let m := Netmask n in
  if (length m =? 0)%nat then "255.255.255.0"
  else if (length m =? 4)%nat then dotted_quad m
  else if (length m =? 16)%nat then dotted_quad (drop 12 m)
  else
    let maskStr := IP_String m in
    if (0 <? String.length maskStr)%nat && negb (String.eqb maskStr "<nil>")
    then maskStr
    else "255.255.255.0".

(** [VMNetwork.KernelCmdlineArgs]: the token ip=G::T:GM::GI:off. *)
Definition KernelCmdlineArgs (n : VMNetwork) : string :=
  if (length (IPAddress n) =? 0)%nat then ""
  else
    let tapIP := VMNetwork_calculateVethHostIP n in
    let netmaskStr := formatNetmask n in
    let guestInterface := "eth0" in
    "ip=" +:+ IP_String (IPAddress n) +:+ "::" +:+ tapIP +:+ ":" +:+ netmaskStr
      +:+ ":" +:+ guestInterface +:+ ":off".

(** ** The network part of the kernel command line (unnamed/part_000) *)

(** The leading one bits of a byte and what is left after shifting them
    out, as [simpleMaskLength] counts them. *)
Fixpoint leading_ones (fuel : nat) (v : Z) (n : Z) : Z * Z :=
  match fuel with
  | O => (n, v)
  | S fuel' =>
      if negb (Z.land v 128 =? 0) then leading_ones fuel' (byte_of (Z.shiftl v 1)) (n + 1)
      else (n, v)
  end.

(** [simpleMaskLength] of package net; -1 when the mask is not a run of
    ones followed by zeros. *)
Fixpoint simpleMaskLength_from (mask : IPMask) (n : Z) : Z :=
  match mask with
  | [] => n
  | v :: rest =>
      if v =? 255 then simpleMaskLength_from rest (n + 8)
      else
        let '(n', v') := leading_ones 8 v n in
        if negb (v' =? 0) then -1
        else if forallb (fun x => x =? 0) rest then n' else -1
  end.

Definition simpleMaskLength (mask : IPMask) : Z := simpleMaskLength_from mask 0.

(** [IPNet.String]. *)
Definition IPNet_String (n : option IPNet) : string :=
  match n with
  | None => "<nil>"
  | Some n =>
      match networkNumberAndMask n with
      | None => "<nil>"
      | Some (nn, m) =>
          let l := simpleMaskLength m in
          if l =? -1 then IP_String nn +:+ "/" +:+ IPMask_String m
          else IP_String nn +:+ "/" +:+ fmt_d l
      end
  end.

(** [IP.IsUnspecified]. *)
Definition IsUnspecified (ip : IP) : bool :=
  list_Z_eqb ip [0; 0; 0; 0]
  || list_Z_eqb ip (v4InV6Prefix ++ [0; 0; 0; 0])
  || list_Z_eqb ip (replicate 16 0).

Definition routeArg (route : Route) : string :=
  "route=" +:+ IPNet_String (Destination route) +:+ "," +:+ IP_String (RouteGateway route)
    +:+ "," +:+ fmt_d (Metric route).

(** The loop over [networkInfo.Routes], from index [i] on: a route that has
    a destination and a gateway is appended, and the loop is left after an
    append at an index of 5 or more. *)
Fixpoint route_args (i : Z) (routes : list Route) : list string :=
  match routes with
  | [] => []
  | route :: rest =>
      if bool_decide (is_Some (Destination route)) && negb (length (RouteGateway route) =? 0)%nat
      then routeArg route :: (if 5 <=? i then [] else route_args (i + 1) rest)
      else route_args (i + 1) rest
  end.

(** [buildNetworkKernelArgs]; [None] is the nil [networkInfo]. *)
Definition buildNetworkKernelArgs (networkInfo : option VMNetwork) : list string :=
  match networkInfo with
  | None => []
  | Some networkInfo =>
      let ipArg := KernelCmdlineArgs networkInfo in
      (if negb (String.eqb ipArg "") then [ipArg] else [])
      ++ match DNSServers networkInfo with
         | [] => []
         | [dns0] => ["nameserver=" +:+ dns0]
         | dns0 :: dns1 :: _ => ["nameserver=" +:+ dns0; "nameserver1=" +:+ dns1]
         end
      ++ route_args 0 (Routes networkInfo)
      ++ (if negb (length (IPv6Address networkInfo) =? 0)%nat
             && negb (IsUnspecified (IPv6Address networkInfo))
          then ["ipv6=" +:+ IP_String (IPv6Address networkInfo)] else [])
      ++ (if 0 <? VLANID networkInfo then ["vlan=" +:+ fmt_d (VLANID networkInfo)] else [])
  end.

(** The tokens of a command line that set a route. *)
Definition route_tokens (args : list string) : list string :=
  List.filter (String.prefix "route=") args.
End KernelArgs.

(** * The VM lifecycle engine (unnamed/part_000, [SDKClientV4]) *)

Module Lifecycle.

(** The states the engine tests and sets. *)
Inductive VmState : Type :=
| VM_STATE_CREATED
| VM_STATE_RUNNING
| VM_STATE_PAUSED
| VM_STATE_SHUTDOWN.

#[global] Instance VmState_eq_dec : EqDecision VmState.
Proof. solve_decision. Defined.

(** The handle [*sdk.Machine] of a VMM process, named by the VM whose
    directory holds its control socket. *)
Inductive machine : Type := machine_of (vmID : string).

(** [sdkV4VM], with the fields the VMM calls depend on; [CancelFunc] is
    whether the function is set. Config, AssetMapping, AssetPaths and
    PortMappings take no part in a VMM call and are left out. *)
Record sdkV4VM : Type := mkVM {
  ID : string;
  State : VmState;
  Machine : option machine;
  NetworkInfo : option VMNetwork;
  CancelFunc : bool
}.

Definition set_State (vm : sdkV4VM) (st : VmState) : sdkV4VM :=
  mkVM (ID vm) st (Machine vm) (NetworkInfo vm) (CancelFunc vm).

Definition set_Machine (vm : sdkV4VM) (m : option machine) : sdkV4VM :=
  mkVM (ID vm) (State vm) m (NetworkInfo vm) (CancelFunc vm).

Definition set_NetworkInfo (vm : sdkV4VM) (n : option VMNetwork) : sdkV4VM :=
  mkVM (ID vm) (State vm) (Machine vm) n (CancelFunc vm).

Definition set_CancelFunc (vm : sdkV4VM) (f : bool) : sdkV4VM :=
  mkVM (ID vm) (State vm) (Machine vm) (NetworkInfo vm) f.

(** [c.vmRegistry]: the engine holds each record by pointer under its id,
    so a write to a record is a write to the registry entry. *)
Definition vmRegistry : Type := gmap string sdkV4VM.

(** The calls the engine issues on the VMM SDK and on the per-VM context,
    each with the id of the VM it is issued for. *)
Inductive vmm_call : Type :=
| Call_NewMachine (vmID : string)
| Call_Start (vmID : string)
| Call_PauseVM (vmID : string)
| Call_ResumeVM (vmID : string)
| Call_StopVMM (vmID : string)
| Call_Cancel (vmID : string).

#[global] Instance vmm_call_eq_dec : EqDecision vmm_call.
Proof. solve_decision. Defined.

(** A row of the VM table, as [restoreVMsFromDatabase] reads it. *)
Record db_vm : Type := mkDbVM {
  db_ID : string;
  db_State : VmState;
  db_Config_decodes : bool
}.

(** What the host answers during one operation: the random id, the VM
    table, the network manager, the asset and file system steps, and the
    outcome of each kind of VMM call. An error of [StopVMM] is only logged
    and has no answer here. *)
Record host : Type := mkHost {
  rand_id : option string;
  db_list : option (list db_vm);
  create_network : string -> option VMNetwork;
  prepare_assets_ok : bool;
  mkdir_ok : bool;
  log_create_ok : bool;
  socket_exists : string -> bool;
  attach_ok : string -> bool;
  new_machine_ok : bool;
  start_ok : bool;
  pause_ok : bool;
  resume_ok : bool
}.

(** One constructor per [fmt.Errorf] of the lifecycle operations. *)
Inductive vm_error : Type :=
| ErrVMNotFound (vmID : string)
| ErrBootState (vmID : string) (st : VmState)
| ErrShutdownState (vmID : string) (st : VmState)
| ErrPauseState (vmID : string) (st : VmState)
| ErrResumeState (vmID : string) (st : VmState)
| ErrProcessNotAvailable (vmID : string)
| ErrGenerateID
| ErrAllocateNetwork
| ErrPrepareAssets
| ErrCreateVMDirectory
| ErrCreateLogFile
| ErrCreateMachine
| ErrStartMachine
| ErrForceShutdown
| ErrShutdown
| ErrPause
| ErrResume
| ErrSocketNotFound
| ErrMachineForSocket
| ErrRecreatePrepareAssets
| ErrRecreateVMDirectory
| ErrRecreateNetwork
| ErrRecreateMachine
| ErrRecreateStart
| ErrRecreateForResume (e : vm_error)
| ErrShutdownForReboot (e : vm_error)
| ErrBootAfterShutdown (e : vm_error)
| ErrQueryVMs
| ErrRestoreVMs (e : vm_error).

(** The error returned, the registry left behind and the calls issued. *)
Definition outcome : Type := option vm_error * vmRegistry * list vmm_call.


(** [reconnectToFirecracker]: a machine handle on the existing socket. *)
Definition reconnectToFirecracker (h : host) (vm : sdkV4VM)
    : option vm_error * sdkV4VM * list vmm_call :=
  if negb (socket_exists h (ID vm)) then (Some ErrSocketNotFound, vm, [])
  else if negb (attach_ok h (ID vm))
  then (Some ErrMachineForSocket, vm, [Call_NewMachine (ID vm)])
  else (None, set_Machine vm (Some (machine_of (ID vm))), [Call_NewMachine (ID vm)]).

(** [recreateVMForResume]: a new VMM process, started and paused at once;
    an error of that pause is only logged. *)
Definition recreateVMForResume (h : host) (vm : sdkV4VM)
    : option vm_error * sdkV4VM * list vmm_call :=
  if negb (prepare_assets_ok h) then (Some ErrRecreatePrepareAssets, vm, [])
  else if negb (mkdir_ok h) then (Some ErrRecreateVMDirectory, vm, [])
  else
    match create_network h (ID vm) with
    | None => (Some ErrRecreateNetwork, vm, [])
    | Some networkInfo =>
        let vm := set_NetworkInfo vm (Some networkInfo) in
        if negb (new_machine_ok h)
        then (Some ErrRecreateMachine, vm, [Call_NewMachine (ID vm)])
        else if negb (start_ok h)
        then (Some ErrRecreateStart, vm, [Call_NewMachine (ID vm); Call_Start (ID vm)])
        else (None, set_Machine vm (Some (machine_of (ID vm))),
              [Call_NewMachine (ID vm); Call_Start (ID vm); Call_PauseVM (ID vm)])
    end.

(** One row of the loop of [restoreVMsFromDatabase]. *)
Definition restore_row (h : host) (acc : vmRegistry * list vmm_call) (dbVM : db_vm)
    : vmRegistry * list vmm_call :=
  let '(c, tr) := acc in
  if bool_decide (db_State dbVM = VM_STATE_CREATED) then (c, tr)
  else if negb (db_Config_decodes dbVM) then (c, tr)
  else
    let vm := mkVM (db_ID dbVM) (db_State dbVM) None None false in
    if bool_decide (db_State dbVM = VM_STATE_RUNNING)
    then let '(_, vm', tr') := reconnectToFirecracker h vm in
         (<[db_ID dbVM := vm']> c, tr ++ tr')
    else (<[db_ID dbVM := vm]> c, tr).

Definition restoreVMsFromDatabase (c : vmRegistry) (h : host) : outcome :=
  match db_list h with
  | None => (Some ErrQueryVMs, c, [])
  | Some dbVMs =>
      let '(c', tr) := fold_left (restore_row h) dbVMs (c, []) in
      (None, c', tr)
  end.

Definition Initialize (c : vmRegistry) (h : host) : outcome :=
  match restoreVMsFromDatabase c h with
  | (Some e, c', tr) => (Some (ErrRestoreVMs e), c', tr)
  | (None, c', tr) => (None, c', tr)
  end.

(** [CreateVM]: the record is registered in CREATED state with no machine
    and no cancel function; no VMM call is issued. *)
Definition CreateVM (c : vmRegistry) (h : host) : result vm_error string * vmRegistry
                                                   * list vmm_call :=
  match rand_id h with
  | None => (Err ErrGenerateID, c, [])
  | Some vmID =>
      match create_network h vmID with
      | None => (Err ErrAllocateNetwork, c, [])
      | Some networkInfo =>
          if negb (prepare_assets_ok h) then (Err ErrPrepareAssets, c, [])
          else if negb (mkdir_ok h) then (Err ErrCreateVMDirectory, c, [])
          else (Ok vmID,
                <[vmID := mkVM vmID VM_STATE_CREATED None (Some networkInfo) false]> c,
                [])
      end
  end.

(** [BootVM]: the cancel function is stored before the machine is made and
    is called when making or starting it fails. *)
Definition BootVM (c : vmRegistry) (h : host) (vmID : string) : outcome :=
  match c !! vmID with
  | None => (Some (ErrVMNotFound vmID), c, [])
  | Some vm =>
      if negb (bool_decide (State vm = VM_STATE_CREATED))
      then (Some (ErrBootState vmID (State vm)), c, [])
      else if negb (log_create_ok h) then (Some ErrCreateLogFile, c, [])
      else
        let vm := set_CancelFunc vm true in
        if negb (new_machine_ok h)
        then (Some ErrCreateMachine, <[vmID := vm]> c,
              [Call_NewMachine vmID; Call_Cancel vmID])
        else if negb (start_ok h)
        then (Some ErrStartMachine, <[vmID := vm]> c,
              [Call_NewMachine vmID; Call_Start vmID; Call_Cancel vmID])
        else (None,
              <[vmID := set_State (set_Machine vm (Some (machine_of vmID))) VM_STATE_RUNNING]> c,
              [Call_NewMachine vmID; Call_Start vmID])
  end.

(** [DeleteVM]; an error of [StopVMM] is only logged. *)
Definition DeleteVM (c : vmRegistry) (h : host) (vmID : string) : outcome :=
  match c !! vmID with
  | None => (Some (ErrVMNotFound vmID), c, [])
  | Some vm =>
      (None, delete vmID c,
       match Machine vm with
       | Some _ => Call_StopVMM vmID :: (if CancelFunc vm then [Call_Cancel vmID] else [])
       | None => []
       end)
  end.

(** [ShutdownVMWithOptions]; both branches of the test of [force] pause the
    VMM and differ in the error they wrap. *)
Definition ShutdownVMWithOptions (c : vmRegistry) (h : host) (vmID : string)
    (force : bool) (timeoutSeconds : Z) : outcome :=
  match c !! vmID with
  | None => (Some (ErrVMNotFound vmID), c, [])
  | Some vm =>
      if negb (bool_decide (State vm = VM_STATE_RUNNING))
      then (Some (ErrShutdownState vmID (State vm)), c, [])
      else
        match Machine vm with
        | None => (Some (ErrProcessNotAvailable vmID), c, [])
        | Some _ =>
            if force then
              if negb (pause_ok h) then (Some ErrForceShutdown, c, [Call_PauseVM vmID])
              else (None, <[vmID := set_State vm VM_STATE_SHUTDOWN]> c, [Call_PauseVM vmID])
            else
              if negb (pause_ok h) then (Some ErrShutdown, c, [Call_PauseVM vmID])
              else (None, <[vmID := set_State vm VM_STATE_SHUTDOWN]> c, [Call_PauseVM vmID])
        end
  end.

Definition ShutdownVM (c : vmRegistry) (h : host) (vmID : string) : outcome :=
  ShutdownVMWithOptions c h vmID false 30.

Definition PauseVM (c : vmRegistry) (h : host) (vmID : string) : outcome :=
  match c !! vmID with
  | None => (Some (ErrVMNotFound vmID), c, [])
  | Some vm =>
      if negb (bool_decide (State vm = VM_STATE_RUNNING))
      then (Some (ErrPauseState vmID (State vm)), c, [])
      else
        match Machine vm with
        | None => (Some (ErrProcessNotAvailable vmID), c, [])
        | Some _ =>
            if negb (pause_ok h) then (Some ErrPause, c, [Call_PauseVM vmID])
            else (None, <[vmID := set_State vm VM_STATE_PAUSED]> c, [Call_PauseVM vmID])
        end
  end.

(** The machine of a record that has none: reconnect, and when that fails
    recreate. *)
Definition machine_for_resume (h : host) (vm : sdkV4VM)
    : option vm_error * sdkV4VM * list vmm_call :=
  match Machine vm with
  | Some _ => (None, vm, [])
  | None =>
      match reconnectToFirecracker h vm with
      | (None, vm', tr) => (None, vm', tr)
      | (Some _, vm', tr) =>
          match recreateVMForResume h vm' with
          | (Some e, vm'', tr') => (Some (ErrRecreateForResume e), vm'', tr ++ tr')
          | (None, vm'', tr') => (None, vm'', tr ++ tr')
          end
      end
  end.

Definition ResumeVM (c : vmRegistry) (h : host) (vmID : string) : outcome :=
  match c !! vmID with
  | None => (Some (ErrVMNotFound vmID), c, [])
  | Some vm =>
      if negb (bool_decide (State vm = VM_STATE_PAUSED))
         && negb (bool_decide (State vm = VM_STATE_SHUTDOWN))
      then (Some (ErrResumeState vmID (State vm)), c, [])
      else
        match machine_for_resume h vm with
        | (Some e, vm', tr) => (Some e, <[vmID := vm']> c, tr)
        | (None, vm', tr) =>
            if negb (resume_ok h)
            then (Some ErrResume, <[vmID := vm']> c, tr ++ [Call_ResumeVM vmID])
            else (None, <[vmID := set_State vm' VM_STATE_RUNNING]> c,
                  tr ++ [Call_ResumeVM vmID])
        end
  end.

Definition RebootVM (c : vmRegistry) (h : host) (vmID : string) : outcome :=
  match ShutdownVMWithOptions c h vmID false 30 with
  | (Some e, c', tr) => (Some (ErrShutdownForReboot e), c', tr)
  | (None, c', tr) =>
      match BootVM c' h vmID with
      | (Some e, c'', tr') => (Some (ErrBootAfterShutdown e), c'', tr ++ tr')
      | (None, c'', tr') => (None, c'', tr ++ tr')
      end
  end.

(** The calls of the backend [Shutdown] for one registry entry. *)
Definition shutdown_entry (kv : string * sdkV4VM) : list vmm_call :=
  match Machine kv.2 with
  | Some _ => Call_StopVMM kv.1 :: (if CancelFunc kv.2 then [Call_Cancel kv.1] else [])
  | None => []
  end.

(** The backend [Shutdown]: every record with a machine has its VMM stopped
    and its context cancelled; the records stay. Go ranges over the map in
    no fixed order, for which the order of [map_to_list] stands. *)
Definition Shutdown (c : vmRegistry) (h : host) : outcome :=
  (None, c, map_to_list c ≫= shutdown_entry).

(** The operations of the engine that reach the VMM. *)
Inductive operation : Type :=
| OpInitialize
| OpCreateVM
| OpBootVM (vmID : string)
| OpDeleteVM (vmID : string)
| OpShutdownVM (vmID : string)
| OpShutdownVMWithOptions (vmID : string) (force : bool) (timeoutSeconds : Z)
| OpPauseVM (vmID : string)
| OpResumeVM (vmID : string)
| OpRebootVM (vmID : string)
| OpShutdown.

(** One step of the engine: an operation under the answers of the host. *)
Definition step (c : vmRegistry) (h : host) (op : operation) : outcome :=
  match op with
  | OpInitialize => Initialize c h
  | OpCreateVM =>
      let '(r, c', tr) := CreateVM c h in
      (match r with Err e => Some e | _ => None end, c', tr)
  | OpBootVM vmID => BootVM c h vmID
  | OpDeleteVM vmID => DeleteVM c h vmID
  | OpShutdownVM vmID => ShutdownVM c h vmID
  | OpShutdownVMWithOptions vmID force timeoutSeconds =>
      ShutdownVMWithOptions c h vmID force timeoutSeconds
  | OpPauseVM vmID => PauseVM c h vmID
  | OpResumeVM vmID => ResumeVM c h vmID
  | OpRebootVM vmID => RebootVM c h vmID
  | OpShutdown => Shutdown c h
  end.

(** A sequence of steps, each under its own answers of the host: the
    registry at the end and all the calls issued. *)
Fixpoint run (c : vmRegistry) (script : list (host * operation))
    : vmRegistry * list vmm_call :=
  match script with
  | [] => (c, [])
  | (h, op) :: rest =>
      let '(_, c', tr) := step c h op in
      let '(c'', tr') := run c' rest in
      (c'', tr ++ tr')
  end.


(** A host on which every step succeeds and that hands out the id
    ud-0123456789abcdef. *)
Definition calm_host : host :=
  mkHost (Some "ud-0123456789abcdef") (Some [])
    (fun _ => Some (mkVMNetwork "ud-0123456789abcdef" "0a1b2c3d" "ws_A" "vn_0a1b2c3d"
                      "tap_0a1b2c3d" [172; 16; 3; 154] (CIDRMask 29 32) [172; 16; 3; 153]
                      "02:03:4B:61:62:63" ["8.8.8.8"; "1.1.1.1"] 1700000000 0 [] []))
    true true true (fun _ => true) (fun _ => true) true true true true.

(** The record of that VM once it is booted. *)
Definition booted_vm : sdkV4VM :=
  mkVM "ud-0123456789abcdef" VM_STATE_RUNNING (Some (machine_of "ud-0123456789abcdef"))
    (create_network calm_host "ud-0123456789abcdef") true.

(** The registry after a VM was created and booted. *)
Definition running_registry : vmRegistry :=
  (run ∅ [(calm_host, OpCreateVM); (calm_host, OpBootVM "ud-0123456789abcdef")]).1.

End Lifecycle.

(** A library double for examples: the encodings print the workspace ids
    with bridge number and VM count, the time and the checksum; decoding
    knows the documents of [fixtures]; the digest is the text it is given. *)
Definition render_workspace (kv : string * option WorkspaceAllocationJSON) : string :=
  match kv.2 with
  | None => kv.1 +:+ ":null;"
  | Some j => kv.1 +:+ ":" +:+ fmt_d (jBridgeNumber j) +:+ "," +:+ jBridgeName j
                +:+ "," +:+ fmt_d (jVMCount j) +:+ ";"
  end.

Definition render_state (sep : string) (s : MultiBridgeState) : string :=
  foldr String.append EmptyString
    (render_workspace <$> map_to_list (default ∅ (Workspaces s)))
    +:+ sep +:+ fmt_d (LastSaved s) +:+ sep +:+ Checksum s.

Definition fixture_library (fixtures : list MultiBridgeState) : Library :=
  mkLibrary
    (fun s => Some (render_state "|" s))
    (fun s => Some (render_state " | " s))
    (fun text => List.find (fun s => String.eqb (render_state " | " s) text) fixtures)
    (fun data => "sha256:" +:+ data)
    (fun text => negb (String.eqb text ""))
    (fun _ => None)
    (fun _ => "?")
    (fun _ => "?").

(** ** Vocabulary of the statements about allocation *)

(** What the call does about the allocation record before it validates:
    the stored record is used as it is; a missing one is created on the
    hashed bridge with no VM. *)
Definition allocation_in_use (mbm : MultiBridgeManager) (w : string) (e : env)
    (a : WorkspaceAllocation) : Prop :=
  match workspaces mbm !! w with
  | Some stored => a = stored
  | None =>
      exists b, GetBridgeForWorkspace (bridgeCount mbm) w = Some b
                /\ a = mkWorkspaceAllocation w b (bridge_name (bridgePrefix mbm) b) ∅
                         (now_rfc3339 e) 0
  end.

(** The bridge number [b] and the VM count [k] an allocation call starts
    from: those of the stored record, or the hashed bridge and no VM when
    the call creates the record. *)
Definition bridge_and_count (mbm : MultiBridgeManager) (w : string) (b k : Z) : Prop :=
  match workspaces mbm !! w with
  | Some stored => b = BridgeNumber stored /\ k = VMCount stored
  | None => b = FNV1a32 w mod bridgeCount mbm /\ k = 0
  end.

(** Every stored record sits on the bridge its workspace hashes to, as in
    a manager whose records were all created by [AllocateIPForWorkspace]
    under the present bridge count. *)
Definition hashed_bridges (mbm : MultiBridgeManager) : Prop :=
  forall w a, workspaces mbm !! w = Some a ->
    GetBridgeForWorkspace (bridgeCount mbm) w = Some (BridgeNumber a).

(** ** Fixtures of the examples *)

Definition example_library : Library := fixture_library [].

(** A manager as [NewMultiBridgeManager] makes it with no state file:
    eight bridges named br-vms-0 .. br-vms-7. *)
Definition example_manager : MultiBridgeManager :=
  mkMultiBridgeManager 8 "br-vms" ∅ ∅ 100 4000.

Definition example_env : env := mkEnv 1700000000 "2025-01-01T00:00:00Z" NoFault false.

Definition example_disk : disk := mkDisk None None.

(** A manager that holds ws_A on bridge 0, as a state file written under
    another bridge count leaves it: ws_A hashes to bridge 3 of 8. *)
Definition reloaded_manager : MultiBridgeManager :=
  mkMultiBridgeManager 8 "br-vms"
    {[ "ws_A" := mkWorkspaceAllocation "ws_A" 0 "br-vms-0" ∅ "2025-01-01T00:00:00Z" 0 ]}
    {[ 0 := {[ "ws_A" := true ]} ]} 100 4000.

(** ws_A with its five VMs. *)
Definition full_allocation : WorkspaceAllocation :=
  mkWorkspaceAllocation "ws_A" 3 "br-vms-3" ∅ "2025-01-01T00:00:00Z" 5.

Definition full_manager : MultiBridgeManager :=
  mkMultiBridgeManager 8 "br-vms" {[ "ws_A" := full_allocation ]}
    {[ 3 := {[ "ws_A" := true ]} ]} 100 4000.

(** ** Fixtures of the statements about the kernel command line *)

(** The manager after the first address of ws_A was issued. *)
Definition one_vm_manager : MultiBridgeManager :=
  (AllocateIPForWorkspace (L := example_library)
     example_manager "ws_A" example_env example_disk).1.2.

(** The binding of the second VM of ws_A, in the tenant slot
    172.16.3.152/29 of bridge 3. *)
Definition second_vm : VMNetwork :=
  mkVMNetwork "ud-0123456789abcdef" "0a1b2c3d" "ws_A" "vn_0a1b2c3d" "tap_0a1b2c3d"
    [172; 16; 3; 155] (CIDRMask 29 32) [172; 16; 3; 153] "02:03:4B:61:62:63"
    ["8.8.8.8"; "1.1.1.1"] 1700000000 0 [] [].

Definition route_to (third : Z) : Route :=
  mkRoute (Some (mkIPNet [10; third; 0; 0] (CIDRMask 16 32))) [172; 16; 3; 153] 100.

(** The same VM with six static routes. *)
Definition six_route_vm : VMNetwork :=
  mkVMNetwork "ud-0123456789abcdef" "0a1b2c3d" "ws_A" "vn_0a1b2c3d" "tap_0a1b2c3d"
    [172; 16; 3; 155] (CIDRMask 29 32) [172; 16; 3; 153] "02:03:4B:61:62:63"
    ["8.8.8.8"; "1.1.1.1"] 1700000000 0 []
    [route_to 1; route_to 2; route_to 3; route_to 4; route_to 5; route_to 6].

(** ** Vocabulary of the statements about persistence *)

(** The document [saveState] writes: the manager's state with its checksum. *)
Definition saved_state `{L : Library} (mbm : MultiBridgeManager) (e : env)
    : option MultiBridgeState :=
  with_checksum (state_of mbm e) <$> calculateStateChecksum (state_of mbm e).


(** The document of [full_manager] at the time of [example_env], and a copy
    whose checksum field was altered. *)
Definition full_state : MultiBridgeState :=
  default (state_of full_manager example_env)
    (saved_state (L := example_library) full_manager example_env).

Definition tampered_state : MultiBridgeState :=
  with_checksum full_state "0000".

Definition persistence_library : Library :=
  fixture_library [full_state; tampered_state].


(** ** Vocabulary of the statements about repair *)

(** Workspace [w] is listed under bridge [b] in a bridge-usage map. *)
Definition usage_has (bu : gmap Z (gmap string bool)) (b : Z) (w : string) : Prop :=
  is_Some (default ∅ (bu !! b) !! w).

(** What the repair pass makes of one stored allocation: nothing when its
    bridge number is out of range; otherwise the allocation with a VM count
    above 5 set to 0 and with the bridge name its number calls for. *)
Definition repaired_allocation (mbm : MultiBridgeManager) (a : WorkspaceAllocation)
    : option WorkspaceAllocation :=
  if (BridgeNumber a <? 0) || (bridgeCount mbm <=? BridgeNumber a) then None
  else Some (set_BridgeName (if 5 <? VMCount a then set_VMCount a 0 else a)
               (bridge_name (bridgePrefix mbm) (BridgeNumber a))).

(** The state of the repair test: a tenant with 25 VMs on bridge 2, one on
    bridge 10 of 8, one with an old bridge name, and a usage entry of a
    workspace that does not exist. *)
Definition corrupted_manager : MultiBridgeManager :=
  mkMultiBridgeManager 8 "br-tenant"
    {[ "T" := mkWorkspaceAllocation "T" 2 "br-tenant-2" ∅ "2025-01-01T00:00:00Z" 25;
       "invalid-bridge-workspace" :=
         mkWorkspaceAllocation "invalid-bridge-workspace" 10 "br-tenant-10" ∅
           "2025-01-01T00:00:00Z" 2;
       "wrong-name-workspace" :=
         mkWorkspaceAllocation "wrong-name-workspace" 3 "old-bridge-name" ∅
           "2025-01-01T00:00:00Z" 2 ]}
    {[ 2 := {[ "T" := true ]}; 5 := {[ "nonexistent-workspace" := true ]} ]} 100 4000.

(** ** Vocabulary of the statements about project VLANs *)


(** ws_A on bridge 3 with project p on VLAN 101 (172.16.3.160/27) after 28
    addresses were issued. *)
Definition vlan_at_28 : ProjectVLAN :=
  mkProjectVLAN "p" 101 (calculateVLANSubnet 3 101) 28 "2025-01-01T00:00:00Z".

Definition vlan_manager : MultiBridgeManager :=
  mkMultiBridgeManager 8 "br-vms"
    {[ "ws_A" := mkWorkspaceAllocation "ws_A" 3 "br-vms-3" {[ "p" := vlan_at_28 ]}
                   "2025-01-01T00:00:00Z" 0 ]}
    {[ 3 := {[ "ws_A" := true ]} ]} 100 4000.



(** A VLAN record with a /30 where the manager writes a /27, as a state file
    can hold it: [validateProjectVLAN] asks only that the subnet parses. *)
Definition narrow_vlan : ProjectVLAN :=
  mkProjectVLAN "p" 101 "172.16.3.160/30" 2 "2025-01-01T00:00:00Z".

Definition narrow_vlan_manager : MultiBridgeManager :=
  mkMultiBridgeManager 8 "br-vms"
    {[ "ws_A" := mkWorkspaceAllocation "ws_A" 3 "br-vms-3" {[ "p" := narrow_vlan ]}
                   "2025-01-01T00:00:00Z" 0 ]}
    {[ 3 := {[ "ws_A" := true ]} ]} 100 4000.

(** ** Fixtures of the statements about a full tenant *)

(** A tenant with the empty id and five VMs, as a state file can hold it:
    [validateWorkspace] asks only that the id is the key. *)
Definition empty_id_allocation : WorkspaceAllocation :=
  mkWorkspaceAllocation "" 5 "br-vms-5" ∅ "2025-01-01T00:00:00Z" 5.

Definition empty_id_manager : MultiBridgeManager :=
  mkMultiBridgeManager 8 "br-vms" {[ "" := empty_id_allocation ]}
    {[ 5 := {[ "" := true ]} ]} 100 4000.

(** ** A library double that loses invalid UTF-8 as encoding/json does

    encoding/json writes a byte that is not part of a valid UTF-8 sequence
    as the escape \ufffd and reads that escape as the character U+FFFD,
    which it then writes as it is, in three bytes: decoding what was encoded
    gives the text with U+FFFD where the invalid byte was.  The double does
    this for the bytes that no UTF-8 sequence holds (0xC0, 0xC1 and
    0xF5..0xFF), in the texts it prints. *)














(** * Vocabulary of the statements about the lifecycle engine *)

(** Every record in Running state holds a VMM handle. *)
Definition running_have_machine (c : Lifecycle.vmRegistry) : Prop :=
  forall vmID vm,
    c !! vmID = Some vm -> Lifecycle.State vm = Lifecycle.VM_STATE_RUNNING ->
    is_Some (Lifecycle.Machine vm).

(** The VM an operation is called for, if it is called for one. *)
Definition target (op : Lifecycle.operation) : option string :=
  match op with
  | Lifecycle.OpBootVM vmID | Lifecycle.OpDeleteVM vmID | Lifecycle.OpShutdownVM vmID
  | Lifecycle.OpShutdownVMWithOptions vmID _ _ | Lifecycle.OpPauseVM vmID
  | Lifecycle.OpResumeVM vmID | Lifecycle.OpRebootVM vmID => Some vmID
  | _ => None
  end.

(** A script that never restores from the database. *)
Definition no_restore (script : list (Lifecycle.host * Lifecycle.operation)) : Prop :=
  forall h, (h, Lifecycle.OpInitialize) ∉ script.

(** A row of the VM table that the restore registers: it is not in Created
    state and its configuration decodes. *)
Definition restorable (dbVM : Lifecycle.db_vm) : bool :=
  negb (bool_decide (Lifecycle.db_State dbVM = Lifecycle.VM_STATE_CREATED))
  && Lifecycle.db_Config_decodes dbVM.

(** The record a restored row is expected to leave: the id and state of
    the row, no network binding, no cancel function, and a VMM handle only
    for a Running row whose socket exists and can be attached to. *)
Definition restored_record (h : Lifecycle.host) (dbVM : Lifecycle.db_vm)
    : Lifecycle.sdkV4VM :=
  Lifecycle.mkVM (Lifecycle.db_ID dbVM) (Lifecycle.db_State dbVM)
    (if bool_decide (Lifecycle.db_State dbVM = Lifecycle.VM_STATE_RUNNING)
        && Lifecycle.socket_exists h (Lifecycle.db_ID dbVM)
        && Lifecycle.attach_ok h (Lifecycle.db_ID dbVM)
     then Some (Lifecycle.machine_of (Lifecycle.db_ID dbVM)) else None)
    None false.

(** * Vocabulary of the statements about sequences of allocations *)

Section AllocationVocabulary.
Context `{L : Library}.

(** [n] calls of [AllocateIPForWorkspace] for one workspace, one after the
    other: what each returned, and the manager and the files at the end. *)
Fixpoint allocate_times (n : nat) (mbm : MultiBridgeManager) (w : string)
    (e : env) (d : disk)
    : list (result mb_error (IP * string)) * MultiBridgeManager * disk :=
  match n with
  | O => ([], mbm, d)
  | S n' =>
      let '(r, mbm1, d1) := AllocateIPForWorkspace mbm w e d in
      let '(rs, mbm2, d2) := allocate_times n' mbm1 w e d1 in
      (r :: rs, mbm2, d2)
  end.

(** The state can be saved, whatever it is. *)
Definition saves (e : env) : Prop :=
  forall mbm d, (saveState mbm e d).1 = None.
End AllocationVocabulary.

(** Every stored VM count lies between 0 and 5. *)
Definition counts_in_range (mbm : MultiBridgeManager) : Prop :=
  forall w a, workspaces mbm !! w = Some a -> 0 <= VMCount a <= 5.

(** The address of VM [k] of the tenant slot [s] on bridge [b]. *)
Definition slot_address (b s k : Z) : IP := [172; 16; b; s * 8 + 2 + k].

(** * Validation of VLAN ids and device names (unnamed/part_006) *)

(** One constructor per [fmt.Errorf]; the message for a character that is
    not allowed also prints that character. *)
Inductive device_error : Type :=
| ErrInvalidVLANID (vlanID : Z)
| ErrDeviceNameEmpty
| ErrDeviceNameTooLong (name : string)
| ErrDeviceNameInvalidCharacter (name : string)
| ErrDeviceNameStartsWithDot (name : string).

(** [validateVLANID]. *)
Definition validateVLANID (vlanID : Z) : option device_error :=
  if (vlanID <? 1) || (4094 <? vlanID) then Some (ErrInvalidVLANID vlanID) else None.

(** The characters a device name may hold: letters, digits, [-], [_], [.]. *)
Definition device_name_char (c : ascii) : bool :=
  let r := byte_val c in
  ((97 <=? r) && (r <=? 122)) || ((65 <=? r) && (r <=? 90))
  || ((48 <=? r) && (r <=? 57)) || (r =? 45) || (r =? 95) || (r =? 46).

(** The loop over the runes of the name: whether one is not allowed.  The
    characters allowed are ASCII, so a rune that is not allowed shows as a
    byte that is not allowed: every byte of a multi-byte or broken encoding
    is such a byte. *)
Fixpoint has_bad_char (s : string) : bool :=
  match s with
  | EmptyString => false
  | String c s' => if device_name_char c then has_bad_char s' else true
  end.

(** [validateNetworkDeviceName]; [len] counts bytes. *)
Definition validateNetworkDeviceName (name : string) : option device_error :=
  match name with
  | EmptyString => Some ErrDeviceNameEmpty
  | String c0 _ =>
      if (15 <? String.length name)%nat then Some (ErrDeviceNameTooLong name)
      else if has_bad_char name then Some (ErrDeviceNameInvalidCharacter name)
      else if Ascii.eqb c0 "." then Some (ErrDeviceNameStartsWithDot name)
      else None
  end.

(** * Bridge usage statistics (multibridge.go) *)

(** [GetBridgeUsageStats]: for each bridge number below the bridge count,
    the number of tenants listed under it. *)
Definition GetBridgeUsageStats (mbm : MultiBridgeManager) : gmap Z Z :=
  foldl (fun stats bridgeNum =>
           match bridgeUsage mbm !! bridgeNum with
           | Some usage => <[bridgeNum := Z.of_nat (size usage)]> stats
           | None => <[bridgeNum := 0]> stats
           end)
    ∅ (seqZ 0 (bridgeCount mbm)).

(** * Vocabulary of the statements about the state of the fabric *)

(** The tenants stored on bridge [b]. *)
Definition tenants_on (mbm : MultiBridgeManager) (b : Z)
    : gmap string WorkspaceAllocation :=
  filter (fun kv => BridgeNumber kv.2 = b) (workspaces mbm).

(** The bridge-usage map lists each tenant under the bridge of its record
    and nowhere else, and has no entry for a bridge out of range. *)
Definition usage_exact (mbm : MultiBridgeManager) : Prop :=
  (forall b w, usage_has (bridgeUsage mbm) b w
               <-> exists a, workspaces mbm !! w = Some a /\ BridgeNumber a = b)
  /\ (forall b u, bridgeUsage mbm !! b = Some u -> 0 <= b < bridgeCount mbm).

Section FabricVocabulary.
Context `{L : Library}.

(** A VLAN record that [validateProjectVLAN] accepts under project [p]. *)
Definition vlan_ok (mbm : MultiBridgeManager) (p : string) (vlan : ProjectVLAN) : Prop :=
  ProjectID vlan = p
  /\ vlanRangeStart mbm <= VLANNumber vlan <= vlanRangeEnd mbm
  /\ SubnetCIDR vlan <> ""
  /\ is_Some (ParseCIDR (SubnetCIDR vlan))
  /\ 0 <= NextVMIndex vlan <= 30.

(** A record as the manager makes and keeps it under tenant [w]. *)
Definition record_ok (mbm : MultiBridgeManager) (w : string) (a : WorkspaceAllocation)
    : Prop :=
  WorkspaceID a = w
  /\ 0 <= BridgeNumber a < bridgeCount mbm
  /\ BridgeName a = bridge_name (bridgePrefix mbm) (BridgeNumber a)
  /\ 0 <= VMCount a
  /\ (forall p vlan, ProjectVLANs a !! p = Some vlan -> vlan_ok mbm p vlan)
  /\ CreatedAt a <> ""
  /\ time_Parse_RFC3339 (CreatedAt a) = true.

Definition well_formed (mbm : MultiBridgeManager) : Prop :=
  (forall w a, workspaces mbm !! w = Some a -> record_ok mbm w a)
  /\ usage_exact mbm.

(** The clock text of a call is one [time.Parse] reads back. *)
Definition clock_ok (e : env) : Prop :=
  now_rfc3339 e <> "" /\ time_Parse_RFC3339 (now_rfc3339 e) = true.

(** encoding/json reads back the document [saveState] writes. *)
Definition json_round_trip (mbm : MultiBridgeManager) (e : env) : Prop :=
  forall state data,
    saved_state mbm e = Some state ->
    json_MarshalIndent state = Some data ->
    json_Unmarshal data = Some state.
End FabricVocabulary.

(** * VM ids and port forwarding (unnamed/part_000) *)

Module PortForwarding.

(** The fields of [network.PortMapping] that the code reads. *)
Record PortMapping : Type := mkPortMapping {
  Protocol : string;
  HostPort : Z;
  ContainerPort : Z
}.

(** One constructor per [fmt.Errorf]. *)
#[warnings="-register-all"] Inductive port_error : Type :=
| ErrGenerateRandomID
| ErrInvalidIPAddress (ip : string)
| ErrInvalidPortNumber (port : Z)
| ErrInvalidProtocol (protocol : string)
| ErrInvalidVMIDLength (vmID : string)
| ErrInvalidVMIDFormat (vmID : string)
| ErrInvalidVMID (cause : port_error)
| ErrInvalidVMIP (cause : port_error)
| ErrInvalidProtocolInMapping (cause : port_error)
| ErrInvalidHostPortInMapping (cause : port_error)
| ErrInvalidContainerPortInMapping (cause : port_error)
| ErrAddDNATRule
| ErrAddFORWARDRule
| ErrRemoveDNATRule (port : Z)
| ErrRemoveFORWARDRule (port : Z)
| ErrRemovePortForwardingRules (errors : list port_error).

(** ** encoding/hex *)

Definition hex_digit (d : N) : ascii :=
  match d with
  | 0 => "0" | 1 => "1" | 2 => "2" | 3 => "3" | 4 => "4"
  | 5 => "5" | 6 => "6" | 7 => "7" | 8 => "8" | 9 => "9"
  | 10 => "a" | 11 => "b" | 12 => "c" | 13 => "d" | 14 => "e"
  | _ => "f"
  end%N%char.

(** [hex.EncodeToString]: two lower-case digits per byte. *)
Fixpoint hex_EncodeToString (bytes : string) : string :=
  match bytes with
  | EmptyString => EmptyString
  | String b rest =>
      String (hex_digit (N_of_ascii b / 16))
        (String (hex_digit (N_of_ascii b mod 16)) (hex_EncodeToString rest))
  end.

(** [generateV4VMID]; [random] is what [rand.Read] made of the buffer of
    eight bytes, [None] when it failed. *)
Definition generateV4VMID (random : option string) : result port_error string :=
  match random with
  | None => Err ErrGenerateRandomID
  | Some bytes => Ok ("ud-" +:+ hex_EncodeToString bytes)
  end.

(** ** Validation of what goes on an iptables command line *)

(** [validatePortNumber]. *)
Definition validatePortNumber (port : Z) : option port_error :=
  if (port <? 1) || (65535 <? port) then Some (ErrInvalidPortNumber port) else None.

Definition validProtocols : gmap string bool :=
  {[ "tcp" := true; "udp" := true; "icmp" := true ]}.

(** [validateProtocol]. *)
Definition validateProtocol (protocol : string) : option port_error :=
  if negb (default false (validProtocols !! protocol))
  then Some (ErrInvalidProtocol protocol)
  else None.

(** The class [a-zA-Z0-9\-_]. *)
Definition vmid_char (c : ascii) : bool :=
  let r := byte_val c in
  ((97 <=? r) && (r <=? 122)) || ((65 <=? r) && (r <=? 90))
  || ((48 <=? r) && (r <=? 57)) || (r =? 45) || (r =? 95).

(** Whether every character is of the class: with the length test before
    it, the match of the pattern [^[a-zA-Z0-9\-_]+$].  The class is ASCII,
    so a text with a rune outside it has a byte outside it. *)
Fixpoint all_vmid_chars (s : string) : bool :=
  match s with
  | EmptyString => true
  | String c s' => vmid_char c && all_vmid_chars s'
  end.

(** [validateVMID]; [len] counts bytes. *)
Definition validateVMID (vmID : string) : option port_error :=
  if (String.length vmID =? 0)%nat || (64 <? String.length vmID)%nat
  then Some (ErrInvalidVMIDLength vmID)
  else if negb (all_vmid_chars vmID) then Some (ErrInvalidVMIDFormat vmID)
  else None.

(** A command line, and the commands a call ran with whether each
    succeeded. *)
Definition command : Type := list string.
Definition trace : Type := list (command * bool).

(** The commands that succeeded. *)
Definition succeeded (tr : trace) : list command :=
  fst <$> List.filter snd tr.

(** The rule that forwards the host port to the VM port, and the rule that
    lets the traffic pass; [action] is [-A] or [-D]. *)
Definition dnat_rule (action vmIP : string) (mapping : PortMapping) : command :=
  [ "iptables"; "-t"; "nat"; action; "PREROUTING"; "-p"; Protocol mapping;
    "--dport"; fmt_d (HostPort mapping); "-j"; "DNAT";
    "--to-destination"; vmIP +:+ ":" +:+ fmt_d (ContainerPort mapping) ].

Definition forward_rule (action vmIP : string) (mapping : PortMapping) : command :=
  [ "iptables"; action; "FORWARD"; "-p"; Protocol mapping; "-d"; vmIP;
    "--dport"; fmt_d (ContainerPort mapping); "-j"; "ACCEPT" ].

Section Host.

(** What the host decides: how netip reads a text with a colon as an IPv6
    address without zone, and whether the n-th command that a call runs
    succeeds. *)
Variable parse_v6 : string -> option IP.
Variable run : nat -> command -> bool.

(** [net.ParseIP]: the 16-byte form of the address, [None] for nil. *)
Definition ParseIP (s : string) : option IP :=
  match addr_dispatch s with
  | AddrBad => None
  | AddrV6 => parse_v6 s
  | AddrV4 => (fun ip4 => v4InV6Prefix ++ ip4) <$> parseIPv4Fields s 0 O []
  end.

(** [validateIPAddress]. *)
Definition validateIPAddress (ip : string) : option port_error :=
  match ParseIP ip with
  | None => Some (ErrInvalidIPAddress ip)
  | Some _ => None
  end.

(** The loop of [configurePortForwarding]; [n] commands were run before. *)
Fixpoint configure_mappings (vmIP : string) (mappings : list PortMapping) (n : nat)
    : option port_error * trace :=
  match mappings with
  | [] => (None, [])
  | mapping :: rest =>
      match validateProtocol (Protocol mapping) with
      | Some c => (Some (ErrInvalidProtocolInMapping c), [])
      | None =>
          match validatePortNumber (HostPort mapping) with
          | Some c => (Some (ErrInvalidHostPortInMapping c), [])
          | None =>
              match validatePortNumber (ContainerPort mapping) with
              | Some c => (Some (ErrInvalidContainerPortInMapping c), [])
              | None =>
                  let dnatCmd := dnat_rule "-A" vmIP mapping in
                  if negb (run n dnatCmd)
                  then (Some ErrAddDNATRule, [(dnatCmd, false)])
                  else
                    let forwardCmd := forward_rule "-A" vmIP mapping in
                    if negb (run (S n) forwardCmd)
                    then (Some ErrAddFORWARDRule, [(dnatCmd, true); (forwardCmd, false)])
                    else
                      let '(err, tr) := configure_mappings vmIP rest (S (S n)) in
                      (err, (dnatCmd, true) :: (forwardCmd, true) :: tr)
              end
          end
      end
  end.

(** [configurePortForwarding]: the error, if any, and the commands run. *)
Definition configurePortForwarding (vmID vmIP : string) (mappings : list PortMapping)
    : option port_error * trace :=
  match validateVMID vmID with
  | Some c => (Some (ErrInvalidVMID c), [])
  | None =>
      match validateIPAddress vmIP with
      | Some c => (Some (ErrInvalidVMIP c), [])
      | None =>
          if (length mappings =? 0)%nat then (None, [])
          else configure_mappings vmIP mappings 0
      end
  end.

(** The loop of [removePortForwarding]; [errors] is the slice of errors
    collected before. *)
Fixpoint remove_mappings (vmIP : string) (mappings : list PortMapping) (n : nat)
    (errors : list port_error) : list port_error * trace :=
  match mappings with
  | [] => (errors, [])
  | mapping :: rest =>
      match validateProtocol (Protocol mapping) with
      | Some c =>
          remove_mappings vmIP rest n (errors ++ [ErrInvalidProtocolInMapping c])
      | None =>
          match validatePortNumber (HostPort mapping) with
          | Some c =>
              remove_mappings vmIP rest n (errors ++ [ErrInvalidHostPortInMapping c])
          | None =>
              match validatePortNumber (ContainerPort mapping) with
              | Some c =>
                  remove_mappings vmIP rest n
                    (errors ++ [ErrInvalidContainerPortInMapping c])
              | None =>
                  let dnatCmd := dnat_rule "-D" vmIP mapping in
                  let dnatOk := run n dnatCmd in
                  let errors1 :=
                    if negb dnatOk
                    then errors ++ [ErrRemoveDNATRule (HostPort mapping)]
                    else errors in
                  let forwardCmd := forward_rule "-D" vmIP mapping in
                  let forwardOk := run (S n) forwardCmd in
                  let errors2 :=
                    if negb forwardOk
                    then errors1 ++ [ErrRemoveFORWARDRule (ContainerPort mapping)]
                    else errors1 in
                  let '(errs, tr) := remove_mappings vmIP rest (S (S n)) errors2 in
                  (errs, (dnatCmd, dnatOk) :: (forwardCmd, forwardOk) :: tr)
              end
          end
      end
  end.

(** [removePortForwarding]: the error, if any, and the commands run. *)
Definition removePortForwarding (vmID vmIP : string) (mappings : list PortMapping)
    : option port_error * trace :=
  match validateVMID vmID with
  | Some c => (Some (ErrInvalidVMID c), [])
  | None =>
      match validateIPAddress vmIP with
      | Some c => (Some (ErrInvalidVMIP c), [])
      | None =>
          let '(errors, tr) := remove_mappings vmIP mappings 0 [] in
          if (0 <? length errors)%nat
          then (Some (ErrRemovePortForwardingRules errors), tr)
          else (None, tr)
      end
  end.
End Host.

(** ** Vocabulary of the statements about port forwarding *)

(** A mapping whose protocol and ports pass validation. *)
Definition valid_mapping (mapping : PortMapping) : Prop :=
  validateProtocol (Protocol mapping) = None
  /\ validatePortNumber (HostPort mapping) = None
  /\ validatePortNumber (ContainerPort mapping) = None.

#[export] Instance valid_mapping_dec mapping : Decision (valid_mapping mapping).
Proof. unfold valid_mapping. apply _. Defined.

(** The two commands of a mapping. *)
Definition rules (action vmIP : string) (mapping : PortMapping) : list command :=
  [dnat_rule action vmIP mapping; forward_rule action vmIP mapping].

(** A host on which every command succeeds. *)
Definition always_ok (n : nat) (cmd : command) : bool := true.

(** Reads no text as an IPv6 address. *)
Definition no_v6 (s : string) : option IP := None.

(** A host on which the first command of a call fails. *)
Definition first_fails (n : nat) (cmd : command) : bool := negb (n =? 0)%nat.

(** Examples: web and DNS forwards, and one mapping with a protocol that is
    not allowed. *)
Definition example_mappings : list PortMapping :=
  [mkPortMapping "tcp" 8080 80; mkPortMapping "udp" 5353 53].

Definition mixed_mappings : list PortMapping :=
  [mkPortMapping "tcp" 8080 80; mkPortMapping "sctp" 9000 9000;
   mkPortMapping "udp" 5353 53].

End PortForwarding.

(** * Validation of a create request (service/vm.go) *)

Module VMConfig.

(** The fields of the request messages that [validateVMConfig] reads; a nil
    message is [None], and a getter on a nil message gives the zero
    value. *)
Record CpuConfig : Type := mkCpuConfig { VcpuCount : Z; MaxVcpuCount : Z }.
Record MemoryConfig : Type := mkMemoryConfig { SizeBytes : Z }.
Record BootConfig : Type := mkBootConfig { KernelPath : string }.
Record StorageDevice : Type := mkStorageDevice { Path : string; IsRootDevice : bool }.

Record VmConfig : Type := mkVmConfig {
  Cpu : option CpuConfig;
  Memory : option MemoryConfig;
  Boot : option BootConfig;
  Storage : list (option StorageDevice)
}.

Definition GetCpu (config : option VmConfig) : option CpuConfig := config ≫= Cpu.
Definition GetMemory (config : option VmConfig) : option MemoryConfig := config ≫= Memory.
Definition GetBoot (config : option VmConfig) : option BootConfig := config ≫= Boot.
Definition GetStorage (config : option VmConfig) : list (option StorageDevice) :=
  from_option Storage [] config.
Definition GetVcpuCount (cpu : option CpuConfig) : Z := from_option VcpuCount 0 cpu.
Definition GetMaxVcpuCount (cpu : option CpuConfig) : Z := from_option MaxVcpuCount 0 cpu.
Definition GetSizeBytes (memory : option MemoryConfig) : Z := from_option SizeBytes 0 memory.
Definition GetKernelPath (boot : option BootConfig) : string :=
  from_option KernelPath EmptyString boot.
Definition GetPath (storage : option StorageDevice) : string :=
  from_option Path EmptyString storage.
Definition GetIsRootDevice (storage : option StorageDevice) : bool :=
  from_option IsRootDevice false storage.

(** One constructor per [fmt.Errorf]. *)
Inductive config_error : Type :=
| ErrCpuRequired
| ErrMemoryRequired
| ErrBootRequired
| ErrVcpuCountNotPositive
| ErrMaxVcpuCountBelowVcpuCount
| ErrMemorySizeNotPositive
| ErrKernelPathRequired
| ErrStorageRequired
| ErrStoragePathRequired (i : nat)
| ErrRootDeviceRequired.

(** The loop over the storage devices from index [i] on: the error of the
    first device without a path, or [hasRootDevice] at the end. *)
Fixpoint storage_loop (i : nat) (devices : list (option StorageDevice))
    (hasRootDevice : bool) : config_error + bool :=
  match devices with
  | [] => inr hasRootDevice
  | storage :: rest =>
      if String.eqb (GetPath storage) "" then inl (ErrStoragePathRequired i)
      else
        storage_loop (S i) rest
          (if GetIsRootDevice storage || (i =? 0)%nat then true else hasRootDevice)
  end.

(** [validateVMConfig]. *)
Definition validateVMConfig (config : option VmConfig) : option config_error :=
  if bool_decide (GetCpu config = None) then Some ErrCpuRequired
  else if bool_decide (GetMemory config = None) then Some ErrMemoryRequired
  else if bool_decide (GetBoot config = None) then Some ErrBootRequired
  else
    let cpu := GetCpu config in
    if GetVcpuCount cpu <=? 0 then Some ErrVcpuCountNotPositive
    else if (0 <? GetMaxVcpuCount cpu) && (GetMaxVcpuCount cpu <? GetVcpuCount cpu)
    then Some ErrMaxVcpuCountBelowVcpuCount
    else
      let memory := GetMemory config in
      if GetSizeBytes memory <=? 0 then Some ErrMemorySizeNotPositive
      else
        let boot := GetBoot config in
        if String.eqb (GetKernelPath boot) "" then Some ErrKernelPathRequired
        else if (length (GetStorage config) =? 0)%nat then Some ErrStorageRequired
        else
          match storage_loop 0 (GetStorage config) false with
          | inl err => Some err
          | inr hasRootDevice =>
              if negb hasRootDevice then Some ErrRootDeviceRequired else None
          end.

(** A request that names its root device last, and one that marks none. *)
Definition example_config (markRoot : bool) : VmConfig :=
  mkVmConfig (Some (mkCpuConfig 2 4)) (Some (mkMemoryConfig 536870912))
    (Some (mkBootConfig "/opt/vm-assets/vmlinux"))
    [Some (mkStorageDevice "/opt/vm-assets/data.ext4" false);
     Some (mkStorageDevice "/opt/vm-assets/rootfs.ext4" markRoot)].

End VMConfig.
(** * Proofs *)

(** ** Integers and hashing *)

Lemma wrap64_id z : in_int64 z -> wrap64 z = z.
Proof.
  unfold in_int64, wrap64. intros H.
  rewrite Z.mod_small by lia. lia.
Qed.

Lemma fnv1a32_from_range h s : 0 <= h < 2 ^ 32 -> 0 <= fnv1a32_from h s < 2 ^ 32.
Proof.
  revert h. induction s as [|c s IH]; intros h Hh; simpl; [exact Hh|].
  apply IH. unfold fnv1a32_step. apply Z.mod_pos_bound. lia.
Qed.

Lemma FNV1a32_range s : 0 <= FNV1a32 s < 2 ^ 32.
Proof. apply fnv1a32_from_range. unfold fnv_offset32. lia. Qed.

(** ** Tenant MAC *)

Lemma forallb_seqZ (f : Z -> bool) (n : Z) :
  forallb f (seqZ 0 n) = true -> forall z, 0 <= z < n -> f z = true.
Proof.
  intros H z Hz. rewrite forallb_forall in H. apply H.
  apply list_elem_of_In, elem_of_seqZ. lia.
Qed.

Lemma fmt_02X_byte z : 0 <= z < 256 -> fmt_02X z = hex_pair z.
Proof.
  intros Hz.
  apply String.eqb_eq.
  revert z Hz. apply (forallb_seqZ (fun z => String.eqb (fmt_02X z) (hex_pair z))).
  vm_compute. reflexivity.
Qed.

Lemma Sscanf_02X_hex_pair z : 0 <= z < 256 -> Sscanf_02X (hex_pair z) = Some z.
Proof.
  intros Hz.
  assert (H : (if Sscanf_02X (hex_pair z) is Some r then r =? z else false) = true).
  { revert z Hz.
    apply (forallb_seqZ
      (fun z => if Sscanf_02X (hex_pair z) is Some r then r =? z else false)).
    vm_compute. reflexivity. }
  destruct (Sscanf_02X (hex_pair z)) as [r|]; [|discriminate].
  apply Z.eqb_eq in H. by subst.
Qed.

Lemma byte_val_range c : 0 <= byte_val c < 256.
Proof.
  unfold byte_val. pose proof (N_ascii_bounded c). lia.
Qed.

Lemma GetBridgeForWorkspace_range bridgeCount w :
  0 < bridgeCount ->
  exists b, GetBridgeForWorkspace bridgeCount w = Some b
            /\ b = FNV1a32 w mod bridgeCount /\ 0 <= b < bridgeCount.
Proof.
  intros Hpos. unfold GetBridgeForWorkspace, go_rem.
  destruct (Z.eqb_spec bridgeCount 0) as [->|_]; [lia|].
  pose proof (FNV1a32_range w) as Hh.
  exists (FNV1a32 w mod bridgeCount). split; [|split; [done|]].
  - f_equal. apply Z.rem_mod_nonneg; lia.
  - apply Z.mod_pos_bound. lia.
Qed.

Lemma ParseTenantFromMAC_shape (h l a1 a2 a3 a4 a5 a6 : ascii) :
  ParseTenantFromMAC
    (("02:" +:+ String h (String l EmptyString) +:+ ":4B") +:+ ":"
       +:+ (String a1 (String a2 EmptyString) +:+ ":"
            +:+ String a3 (String a4 EmptyString) +:+ ":"
            +:+ String a5 (String a6 EmptyString)))
  = match Sscanf_02X (String h (String l EmptyString)) with
    | None => Err ErrMACBridgeNumber
    | Some bridgeNum => Ok bridgeNum
    end.
Proof. reflexivity. Qed.

Lemma ParseTenantFromMAC_tenant_format b d0 d1 d2 :
  0 <= b < 256 ->
  ParseTenantFromMAC
    (("02:" +:+ hex_pair b +:+ ":4B") +:+ ":"
       +:+ (hex_pair d0 +:+ ":" +:+ hex_pair d1 +:+ ":" +:+ hex_pair d2))
  = Ok b.
Proof.
  intros Hb. pose proof (Sscanf_02X_hex_pair b Hb) as Hscan.
  unfold hex_pair in *. rewrite ParseTenantFromMAC_shape. by rewrite Hscan.
Qed.

(** C3.  With between 1 and 256 bridges configured, and whatever three bytes
    the random device delivers, [GenerateTenantMAC] returns the text
    [02:<bridge as two hex digits>:4B:<three bytes as hex pairs>], and
    [ParseTenantFromMAC] of that text is the bridge index
    [GetBridgeForWorkspace] assigns to the workspace. *)
Theorem ParseTenantFromMAC_GenerateTenantMAC
    (bridgeCount : Z) (x : string) (d0 d1 d2 : ascii) :
  0 < bridgeCount <= 256 ->
  exists mac b,
    GenerateTenantMAC bridgeCount x (Some (d0, d1, d2)) = Ok mac
    /\ GetBridgeForWorkspace bridgeCount x = Some b
    /\ b = FNV1a32 x mod bridgeCount
    /\ mac = "02:" +:+ hex_pair b +:+ ":4B:" +:+ hex_pair (byte_val d0) +:+ ":"
               +:+ hex_pair (byte_val d1) +:+ ":" +:+ hex_pair (byte_val d2)
    /\ ParseTenantFromMAC mac = Ok b.
Proof.
  intros [Hpos Hle].
  destruct (GetBridgeForWorkspace_range bridgeCount x Hpos) as (b & Hb & Hmod & Hrange).
  pose proof (byte_val_range d0) as H0.
  pose proof (byte_val_range d1) as H1.
  pose proof (byte_val_range d2) as H2.
  eexists _, b. unfold GenerateTenantMAC. rewrite Hb.
  rewrite !fmt_02X_byte by lia.
  split; [reflexivity|]. split; [reflexivity|]. split; [exact Hmod|].
  split; [reflexivity|].
  apply ParseTenantFromMAC_tenant_format; lia.
Qed.

Lemma ParseTenantFromMAC_GenerateTenantMAC_witness :
  exists mac b,
    GenerateTenantMAC 8 "ws_A" (Some ("a", "b", "c")%char) = Ok mac
    /\ GetBridgeForWorkspace 8 "ws_A" = Some b
    /\ b = FNV1a32 "ws_A" mod 8
    /\ mac = "02:" +:+ hex_pair b +:+ ":4B:" +:+ hex_pair (byte_val "a") +:+ ":"
               +:+ hex_pair (byte_val "b") +:+ ":" +:+ hex_pair (byte_val "c")
    /\ ParseTenantFromMAC mac = Ok b.
Proof.
  apply (ParseTenantFromMAC_GenerateTenantMAC 8 "ws_A" "a" "b" "c"). lia.
Defined.

(** ** Decimal text and the IPv4 reader *)

Lemma digits_go_app base fuel n acc r :
  digits_go base fuel n acc +:+ r = digits_go base fuel n (acc +:+ r).
Proof.
  revert n acc. induction fuel as [|fuel IH]; intros n acc; simpl; [done|].
  destruct (n <? base)%N; [done|]. by rewrite IH.
Qed.

Lemma digit_char_dec m :
  (m < 10)%N -> is_digit (digit_char m) = true /\ byte_val (digit_char m) - 48 = Z.of_N m.
Proof.
  intros Hm.
  assert (Hc : m = 0%N \/ m = 1%N \/ m = 2%N \/ m = 3%N \/ m = 4%N \/ m = 5%N
               \/ m = 6%N \/ m = 7%N \/ m = 8%N \/ m = 9%N) by lia.
  repeat (destruct Hc as [->|Hc]; [by vm_compute|]). subst. by vm_compute.
Qed.

Lemma digit_char_not_special m :
  (m < 10)%N ->
  Ascii.eqb (digit_char m) "/" = false /\ Ascii.eqb (digit_char m) "." = false.
Proof.
  intros Hm.
  assert (Hc : m = 0%N \/ m = 1%N \/ m = 2%N \/ m = 3%N \/ m = 4%N \/ m = 5%N
               \/ m = 6%N \/ m = 7%N \/ m = 8%N \/ m = 9%N) by lia.
  repeat (destruct Hc as [->|Hc]; [by vm_compute|]). subst. by vm_compute.
Qed.

Lemma size_nat_div10 n fuel :
  (10 <= n)%N -> (N.size_nat n <= S fuel)%nat -> (N.size_nat (n / 10) <= fuel)%nat.
Proof.
  intros Hn Hs.
  assert (Hlt : (N.size_nat (n / 10) < N.size_nat n)%nat); [|lia].
  assert (Hd : (n / 10 <= n / 2)%N).
  { apply N.div_le_compat_l. lia. }
  assert (Hh : (N.size_nat (n / 2) < N.size_nat n)%nat).
  { rewrite <- N.div2_div. destruct n as [|p]; [lia|]. destruct p; simpl; lia. }
  assert (Hm : forall a b, (a <= b)%N -> (N.size_nat a <= N.size_nat b)%nat).
  { intros a b Hab. destruct a as [|a]; [simpl; lia|]. destruct b as [|b]; [lia|].
    simpl. revert b Hab. induction a as [a IH|a IH|]; intros b Hab; destruct b as [b|b|];
      simpl; try lia; try (apply le_n_S, IH; lia). }
  specialize (Hm _ _ Hd). lia.
Qed.

(** Reading the decimal text of [n] where an octet starts leaves the reader
    with [n] as the octet's value, or fails when [n] is above 255. *)
Lemma parseIPv4Fields_digits fuel n acc fields :
  (N.size_nat n <= fuel)%nat ->
  exists digLen,
    (1 <= digLen)%nat
    /\ parseIPv4Fields (digits_go 10 fuel n acc) 0 O fields
       = if (n <=? 255)%N then parseIPv4Fields acc (Z.of_N n) digLen fields else None.
Proof.
  revert n acc. induction fuel as [|fuel IH]; intros n acc Hs.
  - assert (n = 0%N) as -> by (destruct n; simpl in *; [done|destruct p; simpl in *; lia]).
    exists 1%nat. split; [lia|]. reflexivity.
  - simpl digits_go. destruct (N.ltb_spec n 10) as [Hlt|Hge].
    + exists 1%nat. split; [lia|].
      rewrite N.mod_small by lia.
      destruct (digit_char_dec n Hlt) as [Hd Hv].
      cbn [parseIPv4Fields]. rewrite Hd, Hv.
      cbn [Nat.eqb andb]. rewrite Z.mul_0_l, Z.add_0_l.
      destruct (Z.ltb_spec 255 (Z.of_N n)); [lia|].
      destruct (N.leb_spec n 255); [done|lia].
    + destruct (IH (n / 10)%N (String (digit_char (n mod 10)) acc)) as (dl & Hdl & Heq).
      { by apply size_nat_div10. }
      exists (S dl). split; [lia|]. rewrite Heq. clear Heq IH.
      assert (Hm : (n mod 10 < 10)%N) by (apply N.mod_lt; lia).
      destruct (digit_char_dec _ Hm) as [Hd Hv].
      pose proof (N.div_mod n 10 ltac:(lia)) as Hdm.
      destruct (N.leb_spec (n / 10) 255) as [Hq|Hq].
      * cbn [parseIPv4Fields]. rewrite Hd, Hv.
        assert (Hnz : (Z.of_N (n / 10) =? 0) = false).
        { apply Z.eqb_neq. assert (1 <= n / 10)%N; [|lia].
          apply N.div_le_lower_bound; lia. }
        rewrite Hnz, andb_false_r.
        assert (Hval : Z.of_N (n / 10) * 10 + Z.of_N (n mod 10) = Z.of_N n) by lia.
        rewrite Hval.
        destruct (Z.ltb_spec 255 (Z.of_N n)); destruct (N.leb_spec n 255); try lia; done.
      * destruct (N.leb_spec n 255); [|done]. exfalso.
        assert (n / 10 <= n)%N by (apply N.Div0.div_le_upper_bound; lia). lia.
Qed.

Lemma split_slash_digits fuel n acc :
  split_slash (digits_go 10 fuel n acc)
  = match split_slash acc with
    | Some (a, m) => Some (digits_go 10 fuel n a, m)
    | None => None
    end.
Proof.
  assert (Hstep : forall m rest, (m < 10)%N ->
    split_slash (String (digit_char m) rest)
    = match split_slash rest with
      | Some (a, mk) => Some (String (digit_char m) a, mk)
      | None => None
      end).
  { intros m rest Hm. cbn [split_slash].
    destruct (digit_char_not_special m Hm) as [-> _]. done. }
  revert n acc. induction fuel as [|fuel IH]; intros n acc.
  - cbn [digits_go]. rewrite Hstep by (apply N.mod_lt; lia).
    by destruct (split_slash acc) as [[??]|].
  - cbn [digits_go]. destruct (n <? 10)%N.
    + rewrite Hstep by (apply N.mod_lt; lia). by destruct (split_slash acc) as [[??]|].
    + rewrite IH, Hstep by (apply N.mod_lt; lia). by destruct (split_slash acc) as [[??]|].
Qed.

Lemma fmt_d_nonneg z : 0 <= z -> fmt_d z = digits 10 (Z.to_N z).
Proof. intros Hz. unfold fmt_d. destruct (Z.ltb_spec z 0); [lia|done]. Qed.

Section CIDR.
Context `{L : Library}.

Lemma land_byte z : 0 <= z <= 255 -> Z.land z 255 = z.
Proof.
  intros Hz. change 255 with (Z.ones 8). rewrite Z.land_ones by lia.
  apply Z.mod_small. lia.
Qed.

Lemma append_String c s r : String c s +:+ r = String c (s +:+ r).
Proof. reflexivity. Qed.

Lemma append_Empty r : EmptyString +:+ r = r.
Proof. reflexivity. Qed.

Lemma digits_go_nonempty base fuel n acc :
  is_empty_string (digits_go base fuel n acc) = false.
Proof.
  revert n acc. induction fuel as [|fuel IH]; intros n acc; simpl; [done|].
  destruct (n <? base)%N; [done|]. apply IH.
Qed.

Lemma parseIPv4Fields_bridge_prefix rest :
  is_empty_string rest = false ->
  parseIPv4Fields ("172.16." +:+ rest) 0 O [] = parseIPv4Fields rest 0 O [172; 16].
Proof. intros Hne. rewrite !append_String, append_Empty. simpl. by rewrite Hne. Qed.

Lemma split_slash_bridge_prefix rest :
  split_slash ("172.16." +:+ rest)
  = match split_slash rest with
    | Some (a, m) => Some ("172.16." +:+ a, m)
    | None => None
    end.
Proof.
  rewrite !append_String, append_Empty. simpl.
  by destruct (split_slash rest) as [[??]|].
Qed.

Lemma parseIPv4Fields_last_octet fuel n suffix d fields :
  (N.size_nat n <= fuel)%nat -> length fields = 2%nat ->
  parseIPv4Fields suffix 0 O [] = None ->
  (forall v dl, (1 <= dl)%nat ->
     parseIPv4Fields suffix v dl fields = Some (fields ++ [v; d])) ->
  parseIPv4Fields (digits_go 10 fuel n suffix) 0 O fields
  = if (n <=? 255)%N then Some (fields ++ [Z.of_N n; d]) else None.
Proof.
  intros Hs Hlen _ Hsuffix.
  destruct (parseIPv4Fields_digits fuel n suffix fields Hs) as (dl & Hdl & ->).
  destruct (n <=? 255)%N; [|done]. by apply Hsuffix.
Qed.

Lemma addr_dispatch_bridge_prefix rest : addr_dispatch ("172.16." +:+ rest) = AddrV4.
Proof. reflexivity. Qed.

Lemma ParseCIDR_bridge_subnet b :
  0 <= b ->
  ParseCIDR (bridge_subnet_text b)
  = if b <=? 255
    then Some (v4InV6Prefix ++ [172; 16; b; 0],
               mkIPNet [172; 16; b; 0] [255; 255; 255; 0])
    else None.
Proof.
  intros Hb. unfold ParseCIDR, bridge_subnet_text.
  rewrite fmt_d_nonneg by done. unfold digits. rewrite digits_go_app, append_Empty.
  rewrite split_slash_bridge_prefix, split_slash_digits.
  change (split_slash ".0/24") with (Some (".0", "24")). cbv iota.
  rewrite addr_dispatch_bridge_prefix.
  rewrite parseIPv4Fields_bridge_prefix by apply digits_go_nonempty.
  rewrite (parseIPv4Fields_last_octet _ _ ".0" 0 [172; 16]); [|lia|done|done|].
  - rewrite Z2N.id by done.
    destruct (Z.leb_spec b 255); destruct (N.leb_spec (Z.to_N b) 255); try lia; [|done].
    change (dtoi "24") with (Some (24, 2%nat)). cbn beta iota.
    change (CIDRMask 24 32) with [255; 255; 255; 0].
    cbn [String.length Nat.eqb negb orb Z.ltb Z.compare Pos.compare Pos.compare_cont
         and_bytes app].
    rewrite (land_byte b) by lia. reflexivity.
  - intros v [|dl] Hdl; [lia|]. reflexivity.
Qed.
End CIDR.

Section CIDR2.
Context `{L : Library}.

Lemma split_slash_fmt_d z r :
  split_slash (fmt_d z +:+ r)
  = match split_slash r with
    | Some (a, m) => Some (fmt_d z +:+ a, m)
    | None => None
    end.
Proof.
  unfold fmt_d, digits. destruct (z <? 0).
  - rewrite !append_String, !digits_go_app, !append_Empty. cbn [split_slash].
    change (Ascii.eqb "-" "/") with false. cbv iota.
    rewrite split_slash_digits. destruct (split_slash r) as [[a m]|]; [|done].
    by rewrite append_String, digits_go_app, append_Empty.
  - rewrite !digits_go_app, !append_Empty. rewrite split_slash_digits.
    destruct (split_slash r) as [[a m]|]; [|done].
    by rewrite digits_go_app, append_Empty.
Qed.

Lemma fmt_d_nonempty z r : is_empty_string (fmt_d z +:+ r) = false.
Proof.
  unfold fmt_d, digits. destruct (z <? 0); [done|].
  rewrite digits_go_app. apply digits_go_nonempty.
Qed.

(** Reading the decimal text of [z] as an octet, then going on with [r]. *)
Lemma parseIPv4Fields_fmt_d z r fields K :
  (forall dl, (1 <= dl)%nat -> parseIPv4Fields r z dl fields = K) ->
  parseIPv4Fields (fmt_d z +:+ r) 0 O fields
  = if (0 <=? z) && (z <=? 255) then K else None.
Proof.
  intros HK. unfold fmt_d, digits. destruct (Z.ltb_spec z 0) as [Hneg|Hpos].
  - destruct (Z.leb_spec 0 z); [lia|]. reflexivity.
  - rewrite digits_go_app, append_Empty.
    destruct (parseIPv4Fields_digits (N.size_nat (Z.to_N z)) (Z.to_N z) r fields)
      as (dl & Hdl & ->); [lia|].
    rewrite Z2N.id by done.
    destruct (Z.leb_spec 0 z); [|lia]. cbn [andb].
    destruct (Z.leb_spec z 255); destruct (N.leb_spec (Z.to_N z) 255); try lia; [|done].
    by apply HK.
Qed.

Lemma ParseCIDR_172_16 b x mask n :
  dtoi mask = Some (n, String.length mask) -> n <= 32 ->
  ParseCIDR ("172.16." +:+ fmt_d b +:+ "." +:+ fmt_d x +:+ "/" +:+ mask)
  = if (0 <=? b) && (b <=? 255) && ((0 <=? x) && (x <=? 255))
    then Some (v4InV6Prefix ++ [172; 16; b; x],
               mkIPNet (and_bytes [172; 16; b; x] (CIDRMask n 32)) (CIDRMask n 32))
    else None.
Proof.
  intros Hmask Hn. unfold ParseCIDR.
  rewrite split_slash_bridge_prefix, split_slash_fmt_d.
  rewrite (append_String "." EmptyString), append_Empty.
  cbn [split_slash]. change (Ascii.eqb "." "/") with false. cbv iota.
  rewrite split_slash_fmt_d.
  rewrite (append_String "/" EmptyString), append_Empty.
  cbn [split_slash]. change (Ascii.eqb "/" "/") with true. cbv iota.
  rewrite addr_dispatch_bridge_prefix.
  rewrite parseIPv4Fields_bridge_prefix by apply fmt_d_nonempty.
  rewrite (parseIPv4Fields_fmt_d b _ _
             (if (0 <=? x) && (x <=? 255) then Some [172; 16; b; x] else None)).
  - destruct ((0 <=? b) && (b <=? 255)); [|done]. cbn [andb].
    destruct ((0 <=? x) && (x <=? 255)); [|done].
    rewrite Hmask, Nat.eqb_refl. cbn [negb orb].
    destruct (Z.ltb_spec 32 n); [lia|]. reflexivity.
  - intros dl Hdl. cbn [parseIPv4Fields].
    change (is_digit ".") with false. change (Ascii.eqb "." ".") with true. cbv iota.
    destruct dl as [|dl]; [lia|]. cbn [Nat.eqb orb].
    rewrite fmt_d_nonempty. cbn [length Nat.eqb app].
    rewrite (parseIPv4Fields_fmt_d x EmptyString _ (Some [172; 16; b; x])); [done|].
    intros dl' _. reflexivity.
Qed.
End CIDR2.

(** ** Allocation inside the tenant /29 *)

Section AllocationProofs.
Context `{L : Library}.

Lemma validateBridgeAllocation_None mbm a :
  validateBridgeAllocation mbm a = None ->
  0 <= BridgeNumber a < bridgeCount mbm
  /\ WorkspaceID a <> ""
  /\ 0 <= VMCount a < 5
  /\ BridgeName a = bridge_name (bridgePrefix mbm) (BridgeNumber a).
Proof.
  unfold validateBridgeAllocation. intros H.
  destruct (Z.ltb_spec (BridgeNumber a) 0); [done|].
  destruct (Z.leb_spec (bridgeCount mbm) (BridgeNumber a)); [done|].
  cbn [orb] in H.
  destruct (String.eqb_spec (WorkspaceID a) ""); [done|].
  destruct (Z.ltb_spec (VMCount a) 0); [done|].
  destruct (Z.leb_spec 5 (VMCount a)); [done|].
  destruct (String.eqb_spec (BridgeName a)
              (bridge_name (bridgePrefix mbm) (BridgeNumber a))); [|done].
  repeat split; try lia; done.
Qed.

Lemma slot_base_range w : 0 <= FNV1a32 w mod 32 * 8 <= 248.
Proof. pose proof (Z.mod_pos_bound (FNV1a32 w) 32). lia. Qed.

Lemma dotted_quad_4 a b c d :
  dotted_quad [a; b; c; d] = fmt_d a +:+ "." +:+ fmt_d b +:+ "." +:+ fmt_d c +:+ "." +:+ fmt_d d.
Proof. reflexivity. Qed.

Lemma AllocateIPForWorkspace_Ok_inv mbm w e d ip name mbm' d' :
  AllocateIPForWorkspace mbm w e d = (Ok (ip, name), mbm', d') ->
  exists a,
    allocation_in_use mbm w e a
    /\ 0 <= BridgeNumber a < bridgeCount mbm
    /\ BridgeNumber a <= 255
    /\ 0 <= VMCount a < 5
    /\ WorkspaceID a <> ""
    /\ name = bridge_name (bridgePrefix mbm) (BridgeNumber a)
    /\ ip = [172; 16; BridgeNumber a; FNV1a32 w mod 32 * 8 + 2 + VMCount a]
    /\ workspaces mbm' !! w = Some (set_VMCount a (VMCount a + 1))
    /\ fst (saveState mbm' e d) = None /\ d' = snd (saveState mbm' e d).
Proof.
  unfold AllocateIPForWorkspace.
  destruct (match workspaces mbm !! w with
            | Some allocation => Some (mbm, allocation)
            | None => _ end) as [[mbm1 a]|] eqn:Hpre; [|discriminate].
  assert (Hin : allocation_in_use mbm w e a
                /\ bridgeCount mbm1 = bridgeCount mbm
                /\ bridgePrefix mbm1 = bridgePrefix mbm).
  { unfold allocation_in_use. destruct (workspaces mbm !! w) as [stored|].
    - by simplify_eq.
    - destruct (GetBridgeForWorkspace (bridgeCount mbm) w) as [b|]; [|discriminate].
      simplify_eq. split; [|done]. by exists b. }
  destruct Hin as (Hin & Hcount & Hprefix). clear Hpre.
  destruct (validateBridgeAllocation mbm1 a) eqn:Hv; [discriminate|].
  apply validateBridgeAllocation_None in Hv as (Hbn & Hid & Hk & Hname).
  rewrite Hcount in Hbn. rewrite Hprefix in Hname.
  rewrite ParseCIDR_bridge_subnet by lia.
  destruct (Z.leb_spec (BridgeNumber a) 255) as [Hb255|]; [|discriminate].
  destruct (Z.leb_spec 5 (VMCount a)); [lia|].
  pose proof (slot_base_range w) as Hbase.
  rewrite (wrap64_id (FNV1a32 w mod 32 * 8 + 2 + VMCount a)) by (unfold in_int64; lia).
  rewrite (wrap64_id (VMCount a + 1)) by (unfold in_int64; lia).
  destruct (validateVMIPAllocation _ _ _ _); [discriminate|].
  cbn [net_IP length].
  destruct (Contains _ _); [|discriminate]. cbn [negb].
  destruct (validateIPWithinWorkspaceSubnet _ _ _); [discriminate|].
  destruct (saveState _ e d) as [[c|] d''] eqn:Hsave; [discriminate|].
  intros Heq. injection Heq as <- <- <- <-.
  exists a. rewrite Hsave. repeat split; try done; try lia.
  - unfold add_byte_at, byte_at, byte_of. cbn [lookup list_lookup default insert list_insert].
    f_equal. f_equal. f_equal. f_equal.
    rewrite Z.add_0_l, Z.mod_mod by lia. apply Z.mod_small. lia.
  - unfold set_workspace, with_maps. cbn [workspaces]. apply lookup_insert_eq.
Qed.
End AllocationProofs.

Section AllocationAddress.
Context `{L : Library}.

Lemma slot_div8 s r : 0 <= r < 8 -> (s * 8 + r) / 8 * 8 = s * 8.
Proof.
  intros Hr. rewrite Z.div_add_l by lia. rewrite (Z.div_small r 8) by lia. lia.
Qed.

(** C1 (as amended).  When [AllocateIPForWorkspace] returns an address for
    workspace [w], the address is 172.16.b.(s*8+2+k) with [s] the FNV-1a
    hash of [w] modulo 32, [k] the VM count from before the call
    (0 <= k < 5) and [b] the bridge number of the workspace's allocation
    record: the number stored in the record when there is one, the hash
    modulo the bridge count when the call creates it.  Hence the last
    octet lies in base+2 .. base+6 of its /29, base being the last octet
    rounded down to a multiple of 8; the gateway, on the host side of the
    veth pair, is base+1 and the subnet text ends in /29. *)
Theorem AllocateIPForWorkspace_address mbm w e d ip name mbm' d' :
  AllocateIPForWorkspace mbm w e d = (Ok (ip, name), mbm', d') ->
  exists b k,
    bridge_and_count mbm w b k
    /\ 0 <= k < 5
    /\ 0 <= b < bridgeCount mbm
    /\ let base := FNV1a32 w mod 32 * 8 in
       ip = [172; 16; b; base + 2 + k]
       /\ byte_at ip 3 / 8 * 8 = base
       /\ base + 2 <= byte_at ip 3 <= base + 6
       /\ calculateVethHostIP ip = Some (dotted_quad [172; 16; b; base + 1])
       /\ calculateVMSubnet ip = Some (workspace_subnet_text b base).
Proof.
  intros Hcall.
  apply AllocateIPForWorkspace_Ok_inv in Hcall
    as (a & Hin & Hbn & Hb255 & Hk & _ & _ & -> & _).
  exists (BridgeNumber a), (VMCount a).
  pose proof (slot_base_range w) as Hbase.
  assert (Hdiv : (FNV1a32 w mod 32 * 8 + 2 + VMCount a) / 8 * 8 = FNV1a32 w mod 32 * 8).
  { rewrite <- Z.add_assoc. apply slot_div8. lia. }
  split; [|split; [done|split; [done|]]].
  - unfold bridge_and_count, allocation_in_use in *.
    destruct (workspaces mbm !! w) as [stored|]; [by subst|].
    destruct Hin as (b & Hb & ->). cbn [BridgeNumber VMCount] in *.
    split; [|done].
    unfold GetBridgeForWorkspace, go_rem in Hb.
    destruct (bridgeCount mbm =? 0); [done|]. injection Hb as <-.
    pose proof (FNV1a32_range w). apply Z.rem_mod_nonneg; lia.
  - cbn zeta. unfold calculateVethHostIP, calculateVMSubnet, byte_of.
    change (byte_at [?a; ?b; ?c; ?x] 3) with x.
    change (byte_at [?a; ?b; ?c; ?x] 2) with c.
    change (byte_at [?a; ?b; ?c; ?x] 1) with b.
    change (byte_at [?a; ?b; ?c; ?x] 0) with a.
    cbn [length Nat.ltb Nat.leb].
    rewrite Hdiv.
    rewrite (Z.mod_small (FNV1a32 w mod 32 * 8) 256) by lia.
    rewrite (Z.mod_small (FNV1a32 w mod 32 * 8 + 1) 256) by lia.
    repeat split; try reflexivity; lia.
Qed.

End AllocationAddress.

Lemma AllocateIPForWorkspace_address_witness :
  AllocateIPForWorkspace (L := example_library)
    example_manager "ws_A" example_env example_disk
  = (Ok ([172; 16; 3; 154], "br-vms-3"),
     (AllocateIPForWorkspace (L := example_library)
        example_manager "ws_A" example_env example_disk).1.2,
     (AllocateIPForWorkspace (L := example_library)
        example_manager "ws_A" example_env example_disk).2)
  /\ exists b k,
       bridge_and_count example_manager "ws_A" b k
       /\ 0 <= k < 5
       /\ 0 <= b < 8
       /\ let base := FNV1a32 "ws_A" mod 32 * 8 in
          [172; 16; 3; 154] = [172; 16; b; base + 2 + k]
          /\ byte_at [172; 16; 3; 154] 3 / 8 * 8 = base
          /\ base + 2 <= byte_at [172; 16; 3; 154] 3 <= base + 6
          /\ calculateVethHostIP [172; 16; 3; 154]
             = Some (dotted_quad [172; 16; b; base + 1])
          /\ calculateVMSubnet [172; 16; 3; 154] = Some (workspace_subnet_text b base).
Proof.
  assert (Hcall :
    AllocateIPForWorkspace (L := example_library)
      example_manager "ws_A" example_env example_disk
    = (Ok ([172; 16; 3; 154], "br-vms-3"),
       (AllocateIPForWorkspace (L := example_library)
          example_manager "ws_A" example_env example_disk).1.2,
       (AllocateIPForWorkspace (L := example_library)
          example_manager "ws_A" example_env example_disk).2)).
  { vm_compute. reflexivity. }
  split; [exact Hcall|].
  exact (AllocateIPForWorkspace_address (L := example_library) _ _ _ _ _ _ _ _ Hcall).
Defined.

(** The address follows the bridge number of the stored record, not the
    hash: [reloaded_manager] holds ws_A on bridge 0 of 8, while ws_A hashes
    to bridge 3. *)
Lemma AllocateIPForWorkspace_stored_bridge :
  exists ip name mbm' d',
    AllocateIPForWorkspace (L := example_library)
      reloaded_manager "ws_A" example_env example_disk
    = (Ok (ip, name), mbm', d')
    /\ (VMCount <$> workspaces reloaded_manager !! "ws_A") = Some 0
    /\ ip <> [172; 16; FNV1a32 "ws_A" mod bridgeCount reloaded_manager;
              FNV1a32 "ws_A" mod 32 * 8 + 2 + 0].
Proof.
  eexists _, _, _, _. split; [vm_compute; reflexivity|].
  split; [vm_compute; reflexivity|]. vm_compute. discriminate.
Qed.

(** [loadState] accepts the state [reloaded_manager] holds: range, name and
    usage are consistent, and no check compares the bridge with the hash. *)
Lemma reloaded_manager_loads :
  validateState (L := example_library) example_manager
    (state_of reloaded_manager example_env) = None.
Proof. vm_compute. reflexivity. Qed.

Section FullSubnet.
Context `{L : Library}.

(** C2 (as amended).  For a workspace whose stored VM count is 5,
    [AllocateIPForWorkspace] returns the error of [validateBridgeAllocation],
    wrapped as a failed bridge allocation validation, and leaves the
    manager, hence the VM count, and the state file as they were.  The
    cause is the capacity error for a count of 5 when the stored bridge
    number is in range and the stored workspace id is not empty; a bridge
    number out of range or an empty id is reported instead, being checked
    before the count.  The error of the later test for a full /29 is not
    returned. *)
Theorem AllocateIPForWorkspace_subnet_full mbm w e d a :
  workspaces mbm !! w = Some a ->
  VMCount a = 5 ->
  AllocateIPForWorkspace mbm w e d
  = (Err (ErrBridgeAllocationValidationFailed
            (if (BridgeNumber a <? 0) || (bridgeCount mbm <=? BridgeNumber a)
             then ErrBridgeNumberOutOfRange (BridgeNumber a) (bridgeCount mbm)
             else if String.eqb (WorkspaceID a) "" then ErrWorkspaceIDEmpty
             else ErrVMCountExceedsCapacity 5)),
     mbm, d)
  /\ (AllocateIPForWorkspace mbm w e d).1.1 <> Err (ErrWorkspaceSubnetFull w).
Proof.
  intros Hw Hk.
  assert (Hcall : AllocateIPForWorkspace mbm w e d
                  = (Err (ErrBridgeAllocationValidationFailed
                            (if (BridgeNumber a <? 0) || (bridgeCount mbm <=? BridgeNumber a)
                             then ErrBridgeNumberOutOfRange (BridgeNumber a) (bridgeCount mbm)
                             else if String.eqb (WorkspaceID a) "" then ErrWorkspaceIDEmpty
                             else ErrVMCountExceedsCapacity 5)),
                     mbm, d)).
  { unfold AllocateIPForWorkspace. rewrite Hw.
    unfold validateBridgeAllocation. rewrite Hk.
    destruct ((BridgeNumber a <? 0) || (bridgeCount mbm <=? BridgeNumber a)); [done|].
    destruct (String.eqb (WorkspaceID a) ""); [done|]. reflexivity. }
  split; [exact Hcall|]. rewrite Hcall. discriminate.
Qed.
End FullSubnet.

Lemma AllocateIPForWorkspace_subnet_full_witness :
  workspaces full_manager !! "ws_A" = Some full_allocation
  /\ VMCount full_allocation = 5
  /\ AllocateIPForWorkspace (L := example_library)
       full_manager "ws_A" example_env example_disk
     = (Err (ErrBridgeAllocationValidationFailed (ErrVMCountExceedsCapacity 5)),
        full_manager, example_disk).
Proof.
  assert (Hw : workspaces full_manager !! "ws_A" = Some full_allocation)
    by (vm_compute; reflexivity).
  assert (Hk : VMCount full_allocation = 5) by reflexivity.
  split; [exact Hw|]. split; [exact Hk|].
  exact (proj1 (AllocateIPForWorkspace_subnet_full (L := example_library)
                  full_manager "ws_A" example_env example_disk full_allocation Hw Hk)).
Defined.

(** A tenant with five VMs is not always told that its subnet is full: for
    the tenant with the empty id, which [validateState] accepts, the call
    reports the empty id. *)
Lemma AllocateIPForWorkspace_empty_id_at_five :
  validateState (L := example_library) example_manager
    (state_of empty_id_manager example_env) = None
  /\ VMCount <$> workspaces empty_id_manager !! "" = Some 5
  /\ AllocateIPForWorkspace (L := example_library)
       empty_id_manager "" example_env example_disk
     = (Err (ErrBridgeAllocationValidationFailed ErrWorkspaceIDEmpty),
        empty_id_manager, example_disk).
Proof. vm_compute. repeat split; reflexivity. Qed.

(** ** Persistence and the checksum *)

Section Persistence.
Context `{L : Library}.

Lemma saveState_written mbm e d d' :
  saveState mbm e d = (None, d') ->
  exists state data,
    saved_state mbm e = Some state
    /\ json_MarshalIndent state = Some data
    /\ d' = mkDisk (Some data) None.
Proof.
  unfold saveState, saved_state.
  destruct (fault e) eqn:Hf;
    destruct (calculateStateChecksum (state_of mbm e)) as [checksum|]; try discriminate;
    destruct (json_MarshalIndent (with_checksum (state_of mbm e) checksum)) as [data|] eqn:Hm;
    try discriminate.
  intros [= <-]. by exists (with_checksum (state_of mbm e) checksum), data.
Qed.

Lemma saved_state_checksum mbm e state :
  saved_state mbm e = Some state ->
  exists data,
    json_Marshal (with_checksum state "") = Some data
    /\ Checksum state = sha256_hex data
    /\ calculateStateChecksum state = Some (Checksum state).
Proof.
  unfold saved_state.
  destruct (calculateStateChecksum (state_of mbm e)) as [c|] eqn:Hc; [|discriminate].
  intros [= <-]. unfold calculateStateChecksum in *.
  destruct (json_Marshal _) as [data|] eqn:Hm in Hc; [|discriminate].
  injection Hc as <-. exists data.
  split; [exact Hm|]. split; [reflexivity|].
  change (json_Marshal _) with
    (json_Marshal
       (mkMultiBridgeState (Workspaces (state_of mbm e)) (BridgeUsage (state_of mbm e))
          (LastSaved (state_of mbm e)) "")).
  by rewrite Hm.
Qed.

Lemma verifyStateChecksum_matches state :
  calculateStateChecksum state = Some (Checksum state) -> verifyStateChecksum state = None.
Proof.
  unfold verifyStateChecksum. intros ->.
  destruct (String.eqb _ ""); [done|]. by rewrite String.eqb_refl.
Qed.

Lemma calculateStateChecksum_with_checksum state c :
  calculateStateChecksum (with_checksum state c) = calculateStateChecksum state.
Proof. reflexivity. Qed.

End Persistence.




(** ** Repair of a loaded state *)

Section Repair.
Context `{L : Library}.

Lemma set_BridgeName_same a : set_BridgeName a (BridgeName a) = a.
Proof. by destruct a. Qed.

Lemma usage_has_mark bu b w : usage_has (mark_usage bu b w) b w.
Proof.
  unfold usage_has, mark_usage. rewrite lookup_insert_eq. cbn.
  rewrite lookup_insert_eq. by eexists.
Qed.

Lemma usage_has_mark_mono bu b w b' w' :
  usage_has bu b' w' -> usage_has (mark_usage bu b w) b' w'.
Proof.
  unfold usage_has, mark_usage. intros H.
  destruct (decide (b = b')) as [->|Hne].
  - rewrite lookup_insert_eq. cbn.
    destruct (decide (w = w')) as [->|Hw].
    + rewrite lookup_insert_eq. by eexists.
    + by rewrite lookup_insert_ne.
  - by rewrite lookup_insert_ne.
Qed.

Lemma repair_workspace_spec mbm w a st :
  repair_workspace mbm w a st
  = match repaired_allocation mbm a with
    | None => mkRepair (delete w (r_workspaces st)) (r_bridgeUsage st) true
    | Some a' =>
        mkRepair (<[w := a']> (r_workspaces st))
          (mark_usage (r_bridgeUsage st) (BridgeNumber a') w)
          (r_repaired (repair_workspace mbm w a st))
    end.
Proof.
  unfold repair_workspace, repaired_allocation.
  destruct a as [id bn name vlans created count].
  cbn [BridgeNumber VMCount BridgeName set_VMCount set_BridgeName].
  destruct ((bn <? 0) || (bridgeCount mbm <=? bn)); [done|].
  destruct (5 <? count);
    cbn [BridgeNumber VMCount BridgeName set_VMCount set_BridgeName];
    destruct (String.eqb_spec name (bridge_name (bridgePrefix mbm) bn)) as [->|Hne];
    cbn [negb r_repaired BridgeNumber set_BridgeName]; done.
Qed.

(** The first loop, seen after the entries of [m] have been visited. *)
Lemma repair_first_loop mbm st0 m :
  let st := map_fold (repair_workspace mbm) st0 m in
  (forall w, r_workspaces st !! w
             = match m !! w with
               | Some a => repaired_allocation mbm a
               | None => r_workspaces st0 !! w
               end)
  /\ (forall w a a', m !! w = Some a -> repaired_allocation mbm a = Some a' ->
        usage_has (r_bridgeUsage st) (BridgeNumber a') w)
  /\ (forall b w, usage_has (r_bridgeUsage st0) b w -> usage_has (r_bridgeUsage st) b w).
Proof.
  cbn zeta.
  apply (map_fold_weak_ind (fun st m =>
    (forall w, r_workspaces st !! w
               = match m !! w with
                 | Some a => repaired_allocation mbm a
                 | None => r_workspaces st0 !! w
                 end)
    /\ (forall w a a', m !! w = Some a -> repaired_allocation mbm a = Some a' ->
          usage_has (r_bridgeUsage st) (BridgeNumber a') w)
    /\ (forall b w, usage_has (r_bridgeUsage st0) b w -> usage_has (r_bridgeUsage st) b w))).
  - split; [|split]; [done| |done]. intros w a a' Hw. by rewrite lookup_empty in Hw.
  - intros i x m' st Hi (Hws & Huse & Hmono). rewrite repair_workspace_spec.
    destruct (repaired_allocation mbm x) as [x'|] eqn:Hx; cbn [r_workspaces r_bridgeUsage].
    + split; [|split].
      * intros w. destruct (decide (i = w)) as [->|Hne].
        -- by rewrite !lookup_insert_eq.
        -- rewrite !lookup_insert_ne by done. apply Hws.
      * intros w a a' Hw Ha. destruct (decide (i = w)) as [->|Hne].
        -- rewrite lookup_insert_eq in Hw. simplify_eq. apply usage_has_mark.
        -- rewrite lookup_insert_ne in Hw by done.
           apply usage_has_mark_mono. by eapply Huse.
      * intros b w Hb. apply usage_has_mark_mono. by apply Hmono.
    + split; [|split].
      * intros w. destruct (decide (i = w)) as [->|Hne].
        -- by rewrite lookup_delete_eq, lookup_insert_eq.
        -- rewrite lookup_delete_ne, lookup_insert_ne by done. apply Hws.
      * intros w a a' Hw Ha. destruct (decide (i = w)) as [->|Hne].
        -- rewrite lookup_insert_eq in Hw. simplify_eq.
        -- rewrite lookup_insert_ne in Hw by done. by eapply Huse.
      * done.
Qed.

Lemma prune_usage_lookup ws wm repaired w :
  (prune_usage ws wm repaired).1 !! w
  = match ws !! w with Some _ => wm !! w | None => None end.
Proof.
  unfold prune_usage.
  assert (H : forall m,
    (map_fold (fun workspaceID (_ : bool) acc =>
                 match ws !! workspaceID with
                 | None => (delete workspaceID acc.1, true)
                 | Some _ => acc
                 end) (wm, repaired) m).1 !! w
    = match m !! w, ws !! w with
      | Some _, None => None
      | _, _ => wm !! w
      end).
  { apply (map_fold_weak_ind (fun acc m =>
      acc.1 !! w = match m !! w, ws !! w with
                   | Some _, None => None
                   | _, _ => wm !! w
                   end)).
    - by rewrite lookup_empty.
    - intros i x m acc Hi IH. destruct (decide (i = w)) as [->|Hne].
      + rewrite lookup_insert_eq. destruct (ws !! w) eqn:Hw; cbn [fst].
        * rewrite IH, Hi. done.
        * by rewrite lookup_delete_eq.
      + rewrite lookup_insert_ne by done.
        destruct (ws !! i); cbn [fst]; [done|].
        by rewrite lookup_delete_ne. }
  rewrite H. destruct (wm !! w) eqn:Hwm; destruct (ws !! w); done.
Qed.

Lemma repair_usage_workspaces b wm st :
  r_workspaces (repair_usage b wm st) = r_workspaces st.
Proof.
  unfold repair_usage. destruct (prune_usage _ _ _) as [wm' rep].
  by destruct (size wm' =? 0)%nat.
Qed.

(** The second loop, seen after the bridges of [m] have been visited. *)
Lemma repair_second_loop st1 m :
  let st := map_fold repair_usage st1 m in
  r_workspaces st = r_workspaces st1
  /\ forall b w,
       usage_has (r_bridgeUsage st) b w
       <-> match m !! b with
           | Some wm => is_Some (wm !! w) /\ is_Some (r_workspaces st1 !! w)
           | None => usage_has (r_bridgeUsage st1) b w
           end.
Proof.
  cbn zeta.
  apply (map_fold_weak_ind (fun st m =>
    r_workspaces st = r_workspaces st1
    /\ forall b w,
         usage_has (r_bridgeUsage st) b w
         <-> match m !! b with
             | Some wm => is_Some (wm !! w) /\ is_Some (r_workspaces st1 !! w)
             | None => usage_has (r_bridgeUsage st1) b w
             end)).
  - split; [done|]. intros b w. by rewrite lookup_empty.
  - intros i wm m' st Hi (Hws & Huse).
    split; [by rewrite repair_usage_workspaces|].
    intros b w. unfold repair_usage.
    pose proof (prune_usage_lookup (r_workspaces st) wm (r_repaired st)) as Hp.
    destruct (prune_usage (r_workspaces st) wm (r_repaired st)) as [wm' rep].
    cbn [fst] in Hp. rewrite Hws in Hp.
    destruct (decide (i = b)) as [->|Hne].
    + rewrite lookup_insert_eq.
      assert (Hin : is_Some (wm' !! w)
                    <-> is_Some (wm !! w) /\ is_Some (r_workspaces st1 !! w)).
      { rewrite Hp. destruct (r_workspaces st1 !! w); split.
        - intros ?. split; [done|by eexists].
        - by intros [? _].
        - by intros [? ?].
        - intros [_ [? ?]]. done. }
      destruct (Nat.eqb_spec (size wm') 0) as [Hz|Hnz]; cbn [r_bridgeUsage]; unfold usage_has.
      * rewrite lookup_delete_eq. cbn. rewrite <- Hin.
        apply map_size_empty_iff in Hz. subst wm'. done.
      * rewrite lookup_insert_eq. cbn. done.
    + rewrite lookup_insert_ne by done.
      destruct (size wm' =? 0)%nat; cbn [r_bridgeUsage]; unfold usage_has.
      * rewrite lookup_delete_ne by done. apply Huse.
      * rewrite lookup_insert_ne by done. apply Huse.
Qed.
Lemma repaired_allocation_Some mbm a a' :
  repaired_allocation mbm a = Some a' ->
  0 <= BridgeNumber a < bridgeCount mbm
  /\ BridgeNumber a' = BridgeNumber a
  /\ VMCount a' = (if 5 <? VMCount a then 0 else VMCount a)
  /\ BridgeName a' = bridge_name (bridgePrefix mbm) (BridgeNumber a)
  /\ WorkspaceID a' = WorkspaceID a
  /\ ProjectVLANs a' = ProjectVLANs a
  /\ CreatedAt a' = CreatedAt a.
Proof.
  unfold repaired_allocation.
  destruct (Z.ltb_spec (BridgeNumber a) 0); [done|].
  destruct (Z.leb_spec (bridgeCount mbm) (BridgeNumber a)); [done|].
  cbn [orb]. intros [= <-]. destruct (5 <? VMCount a); cbn; repeat split; done || lia.
Qed.

(** C5.  After [validateAndRepairState], whatever state it ran on: an
    allocation remains exactly when its bridge number was in [0, N), and what
    remains of it has a VM count above 5 set to 0 and the bridge name
    <prefix>-<index>; so every remaining workspace has its bridge number in
    [0, N), a VM count of at most 5 and the right bridge name, and is listed
    in the bridge-usage map under its bridge; and every workspace listed in
    the bridge-usage map remains. *)
Theorem validateAndRepairState_invariants mbm e d :
  let mbm' := (validateAndRepairState mbm e d).1.2 in
  bridgeCount mbm' = bridgeCount mbm
  /\ bridgePrefix mbm' = bridgePrefix mbm
  /\ (forall w, workspaces mbm' !! w = workspaces mbm !! w ≫= repaired_allocation mbm)
  /\ (forall w a, workspaces mbm !! w = Some a ->
        ~ 0 <= BridgeNumber a < bridgeCount mbm -> workspaces mbm' !! w = None)
  /\ (forall w a, workspaces mbm !! w = Some a ->
        0 <= BridgeNumber a < bridgeCount mbm -> 5 < VMCount a ->
        VMCount <$> workspaces mbm' !! w = Some 0)
  /\ (forall w a, workspaces mbm' !! w = Some a ->
        0 <= BridgeNumber a < bridgeCount mbm
        /\ VMCount a <= 5
        /\ BridgeName a = bridge_name (bridgePrefix mbm) (BridgeNumber a)
        /\ usage_has (bridgeUsage mbm') (BridgeNumber a) w)
  /\ (forall b w, usage_has (bridgeUsage mbm') b w -> is_Some (workspaces mbm' !! w)).
Proof.
  cbn zeta.
  assert (Hm : (validateAndRepairState mbm e d).1.2
               = with_maps mbm (r_workspaces (repair_loops mbm))
                   (r_bridgeUsage (repair_loops mbm))).
  { unfold validateAndRepairState. by destruct (r_repaired (repair_loops mbm)). }
  rewrite Hm. clear Hm. cbn [with_maps bridgeCount bridgePrefix workspaces bridgeUsage].
  unfold repair_loops.
  set (st0 := mkRepair (workspaces mbm) (bridgeUsage mbm) false).
  set (st1 := map_fold (repair_workspace mbm) st0 (workspaces mbm)).
  pose proof (repair_first_loop mbm st0 (workspaces mbm)) as (Hws1 & Huse1 & _).
  fold st1 in Hws1, Huse1.
  pose proof (repair_second_loop st1 (r_bridgeUsage st1)) as (Hws2 & Huse2).
  set (st2 := map_fold repair_usage st1 (r_bridgeUsage st1)) in *.
  assert (Hws : forall w, r_workspaces st2 !! w
                          = workspaces mbm !! w ≫= repaired_allocation mbm).
  { intros w. rewrite Hws2, Hws1. subst st0. cbn [r_workspaces].
    by destruct (workspaces mbm !! w). }
  assert (Huse : forall b w, usage_has (r_bridgeUsage st2) b w
                   <-> usage_has (r_bridgeUsage st1) b w /\ is_Some (r_workspaces st1 !! w)).
  { intros b w. rewrite Huse2. unfold usage_has.
    destruct (r_bridgeUsage st1 !! b) as [wm|]; cbn; [done|].
    rewrite lookup_empty. split; [by intros [? ?]|by intros [[? ?] _]]. }
  split; [done|]. split; [done|]. split; [exact Hws|].
  split; [|split; [|split]].
  - intros w a Hw Hout. rewrite Hws, Hw. cbn.
    destruct (repaired_allocation mbm a) as [a'|] eqn:Ha; [|done].
    apply repaired_allocation_Some in Ha as (Hin & _). done.
  - intros w a Hw Hin Hbig. rewrite Hws, Hw. cbn. unfold repaired_allocation.
    destruct (Z.ltb_spec (BridgeNumber a) 0); [lia|].
    destruct (Z.leb_spec (bridgeCount mbm) (BridgeNumber a)); [lia|].
    destruct (Z.ltb_spec 5 (VMCount a)); [done|lia].
  - intros w a' Hw'. rewrite Hws in Hw'.
    destruct (workspaces mbm !! w) as [a|] eqn:Hw; [|done]. cbn in Hw'.
    pose proof (repaired_allocation_Some _ _ _ Hw') as (Hin & Hbn & Hcount & Hname & _).
    rewrite Hbn, Hcount, Hname. repeat split; try lia; try done.
    + destruct (Z.ltb_spec 5 (VMCount a)); lia.
    + rewrite <- Hbn. apply Huse. split.
      * by eapply Huse1.
      * rewrite Hws1, Hw. by eexists.
  - intros b w Hb. apply Huse in Hb as [_ Hsome]. by rewrite Hws2.
Qed.
End Repair.

(** The repair test: the tenant with 25 VMs is kept with none, the tenant on
    bridge 10 of 8 is gone, the bridge name is rewritten and the orphaned
    usage entry is pruned. *)
Lemma validateAndRepairState_invariants_witness :
  let mbm' := (validateAndRepairState (L := example_library)
                 corrupted_manager example_env example_disk).1.2 in
  VMCount <$> workspaces mbm' !! "T" = Some 0
  /\ workspaces mbm' !! "invalid-bridge-workspace" = None
  /\ BridgeName <$> workspaces mbm' !! "wrong-name-workspace" = Some "br-tenant-3"
  /\ ~ usage_has (bridgeUsage mbm') 5 "nonexistent-workspace".
Proof.
  pose proof (validateAndRepairState_invariants (L := example_library)
                corrupted_manager example_env example_disk)
    as (_ & _ & Hws & Hout & Hbig & Hkept & Horphan).
  cbn zeta in *. split; [|split; [|split]].
  - apply (Hbig "T" (mkWorkspaceAllocation "T" 2 "br-tenant-2" ∅ "2025-01-01T00:00:00Z" 25)).
    + vm_compute; reflexivity.
    + cbn. lia.
    + cbn. lia.
  - apply (Hout "invalid-bridge-workspace"
             (mkWorkspaceAllocation "invalid-bridge-workspace" 10 "br-tenant-10" ∅
                "2025-01-01T00:00:00Z" 2)).
    + vm_compute; reflexivity.
    + cbn. lia.
  - rewrite Hws. vm_compute. reflexivity.
  - intros H. apply Horphan in H. rewrite Hws in H. vm_compute in H.
    destruct H as [? H]. discriminate H.
Defined.

(** ** Addresses inside a project VLAN: the two versions of [AllocateVMIP] *)

Section VLAN.
Context `{L : Library}.

Lemma land_224 v : 0 <= v < 256 -> Z.land v 224 = v / 32 * 32.
Proof.
  intros Hv. apply Z.eqb_eq. revert v Hv.
  apply (forallb_seqZ (fun v => Z.land v 224 =? v / 32 * 32)). by vm_compute.
Qed.

Lemma Contains_last_octet a b c x x' m :
  Z.land x m = Z.land x' m ->
  Contains (mkIPNet [a; b; c; x] [255; 255; 255; m]) [a; b; c; x'] = true.
Proof.
  intros Hm. unfold Contains, networkNumberAndMask, To4, list_Z_eqb.
  cbn. apply bool_decide_eq_true_2. by rewrite Hm.
Qed.


Lemma vlan_address_inside b k n :
  0 <= k < 8 -> 0 <= n < 32 ->
  add_byte_at [172; 16; b; k * 32] 3 (byte_of n) = [172; 16; b; k * 32 + n]
  /\ Contains (mkIPNet [172; 16; b; k * 32] [255; 255; 255; 224])
       [172; 16; b; k * 32 + n] = true.
Proof.
  intros Hk Hn. split.
  - unfold add_byte_at, byte_of. change (byte_at [?a; ?b'; ?c; ?x] 3) with x.
    cbn [insert list_insert]. rewrite (Z.mod_small n) by lia.
    rewrite Z.mod_small by lia. reflexivity.
  - apply Contains_last_octet. rewrite !land_224 by lia.
    rewrite Z.div_mul by lia. rewrite Z.div_add_l by lia.
    rewrite (Z.div_small n) by lia. lia.
Qed.




End VLAN.

(** ** When the allocation succeeds *)

Section AllocationSucceeds.
Context `{L : Library}.

Lemma land_248 v : 0 <= v < 256 -> Z.land v 248 = v / 8 * 8.
Proof.
  intros Hv. apply Z.eqb_eq. revert v Hv.
  apply (forallb_seqZ (fun v => Z.land v 248 =? v / 8 * 8)). by vm_compute.
Qed.

Lemma validateIPWithinWorkspaceSubnet_slot b s k :
  0 <= b <= 255 -> 0 <= s < 32 -> 0 <= k < 5 ->
  validateIPWithinWorkspaceSubnet [172; 16; b; s * 8 + 2 + k] b (s * 8) = None.
Proof.
  intros Hb Hs Hk. unfold validateIPWithinWorkspaceSubnet, workspace_subnet_text.
  rewrite (ParseCIDR_172_16 b (s * 8) "29" 29) by (reflexivity || lia).
  destruct (Z.leb_spec 0 b); [|lia]. destruct (Z.leb_spec b 255); [|lia].
  destruct (Z.leb_spec 0 (s * 8)); [|lia]. destruct (Z.leb_spec (s * 8) 255); [|lia].
  cbn [andb].
  change (CIDRMask 29 32) with [255; 255; 255; 248].
  cbn [and_bytes].
  change (Z.land 172 255) with 172. change (Z.land 16 255) with 16.
  rewrite (land_byte b) by lia.
  assert (Hbase : Z.land (s * 8) 248 = s * 8).
  { rewrite land_248 by lia. rewrite Z.div_mul by lia. reflexivity. }
  assert (Hip : Z.land (s * 8 + 2 + k) 248 = s * 8).
  { rewrite land_248 by lia. rewrite <- Z.add_assoc. apply slot_div8. lia. }
  rewrite Hbase.
  rewrite Contains_last_octet by (by rewrite Hbase, Hip).
  cbn [negb net_IP].
  change (To4 [?a; ?b; ?c; ?x]) with [a; b; c; x].
  cbn [length Nat.eqb].
  unfold add_byte_at.
  change (byte_at [?a; ?b; ?c; ?x] 3) with x.
  change (<[3%nat := ?v]> [?a; ?b; ?c; ?x]) with [a; b; c; v].
  change (byte_at [?a; ?b; ?c; ?x] 3) with x.
  unfold byte_of.
  rewrite (Z.mod_small (s * 8 + 2) 256) by lia.
  rewrite (Z.mod_small (s * 8 + 6) 256) by lia.
  destruct (Z.ltb_spec (s * 8 + 2 + k) (s * 8 + 2)); [lia|].
  destruct (Z.ltb_spec (s * 8 + 6) (s * 8 + 2 + k)); [lia|].
  reflexivity.
Qed.

Lemma validateVMIPAllocation_slot w s k :
  0 <= s < 32 -> 0 <= k < 5 ->
  validateVMIPAllocation w (s * 8) (s * 8 + 2 + k) k = None.
Proof.
  intros Hs Hk. unfold validateVMIPAllocation.
  rewrite Z.rem_mul by lia. cbn [Z.eqb negb].
  destruct (Z.ltb_spec (s * 8) 0); [lia|].
  destruct (Z.ltb_spec 248 (s * 8)); [lia|]. cbn [orb]. cbv zeta.
  destruct (Z.ltb_spec (s * 8 + 2 + k) (s * 8 + 2)); [lia|].
  destruct (Z.ltb_spec (s * 8 + 6) (s * 8 + 2 + k)); [lia|]. cbn [orb].
  rewrite wrap64_id by (unfold in_int64; lia).
  rewrite Z.eqb_refl. cbn [negb].
  destruct (Z.ltb_spec k 0); [lia|]. destruct (Z.leb_spec 5 k); [lia|]. reflexivity.
Qed.

Lemma validateBridgeAllocation_valid mbm a :
  0 <= BridgeNumber a < bridgeCount mbm ->
  WorkspaceID a <> "" ->
  0 <= VMCount a < 5 ->
  BridgeName a = bridge_name (bridgePrefix mbm) (BridgeNumber a) ->
  validateBridgeAllocation mbm a = None.
Proof.
  intros Hb Hid Hk Hname. unfold validateBridgeAllocation.
  destruct (Z.ltb_spec (BridgeNumber a) 0); [lia|].
  destruct (Z.leb_spec (bridgeCount mbm) (BridgeNumber a)); [lia|]. cbn [orb].
  destruct (String.eqb_spec (WorkspaceID a) ""); [done|].
  destruct (Z.ltb_spec (VMCount a) 0); [lia|].
  destruct (Z.leb_spec 5 (VMCount a)); [lia|].
  rewrite Hname, String.eqb_refl. reflexivity.
Qed.

(** The allocation record the call works on is valid and the state can be
    saved: the call returns the address of the formula. *)
Lemma AllocateIPForWorkspace_succeeds mbm w e d a :
  allocation_in_use mbm w e a ->
  0 <= BridgeNumber a < bridgeCount mbm ->
  BridgeNumber a <= 255 ->
  WorkspaceID a <> "" ->
  0 <= VMCount a < 5 ->
  BridgeName a = bridge_name (bridgePrefix mbm) (BridgeNumber a) ->
  (forall m, (saveState m e d).1 = None) ->
  exists mbm' d',
    AllocateIPForWorkspace mbm w e d
    = (Ok ([172; 16; BridgeNumber a; FNV1a32 w mod 32 * 8 + 2 + VMCount a],
           bridge_name (bridgePrefix mbm) (BridgeNumber a)), mbm', d').
Proof.
  intros Hin Hb Hb255 Hid Hk Hname Hsave.
  unfold AllocateIPForWorkspace.
  destruct (match workspaces mbm !! w with
            | Some allocation => Some (mbm, allocation)
            | None => _ end) as [[mbm1 a']|] eqn:Hpre.
  2: { unfold allocation_in_use in Hin. destruct (workspaces mbm !! w) as [stored|];
         [discriminate|].
       destruct Hin as (b & Hb' & _). by rewrite Hb' in Hpre. }
  assert (Heq : a' = a /\ bridgeCount mbm1 = bridgeCount mbm
                /\ bridgePrefix mbm1 = bridgePrefix mbm).
  { unfold allocation_in_use in Hin. destruct (workspaces mbm !! w) as [stored|].
    - by simplify_eq.
    - destruct Hin as (b & Hb' & ->). rewrite Hb' in Hpre. by simplify_eq. }
  destruct Heq as (-> & Hcount & Hprefix). clear Hpre.
  rewrite validateBridgeAllocation_valid by (rewrite ?Hcount, ?Hprefix; done).
  rewrite ParseCIDR_bridge_subnet by lia.
  destruct (Z.leb_spec (BridgeNumber a) 255); [|lia].
  destruct (Z.leb_spec 5 (VMCount a)); [lia|].
  pose proof (Z.mod_pos_bound (FNV1a32 w) 32 ltac:(lia)) as Hs.
  rewrite (wrap64_id (FNV1a32 w mod 32 * 8 + 2 + VMCount a)) by (unfold in_int64; lia).
  rewrite (wrap64_id (VMCount a + 1)) by (unfold in_int64; lia).
  rewrite validateVMIPAllocation_slot by lia.
  cbn [net_IP length].
  unfold add_byte_at.
  change (byte_at [?a; ?b; ?c; ?x] 3) with x.
  change (<[3%nat := ?v]> [?a; ?b; ?c; ?x]) with [a; b; c; v].
  unfold byte_of. rewrite Z.add_0_l, Z.mod_mod by lia.
  rewrite (Z.mod_small (FNV1a32 w mod 32 * 8 + 2 + VMCount a) 256) by lia.
  rewrite (Contains_last_octet 172 16 (BridgeNumber a) 0 _ 0)
    by (by rewrite !Z.land_0_r).
  cbn [negb BridgeNumber set_VMCount].
  rewrite validateIPWithinWorkspaceSubnet_slot by lia.
  match goal with |- context [saveState ?m e d] =>
    specialize (Hsave m); destruct (saveState m e d) as [[c|] d'] end;
    [discriminate|].
  change (BridgeName (set_VMCount a (VMCount a + 1))) with (BridgeName a).
  rewrite Hname. by eauto.
Qed.
End AllocationSucceeds.

(** ** Managers whose records sit on their hashed bridges *)

Section HashedBridges.
Context `{L : Library}.

Lemma hashed_bridges_set_workspace mbm w a :
  hashed_bridges mbm ->
  GetBridgeForWorkspace (bridgeCount mbm) w = Some (BridgeNumber a) ->
  hashed_bridges (set_workspace mbm w a).
Proof.
  intros Hinv Ha w' a'. unfold set_workspace, with_maps. cbn [workspaces bridgeCount].
  destruct (decide (w' = w)) as [->|Hne].
  - rewrite lookup_insert_eq. by intros [= <-].
  - rewrite lookup_insert_ne by done. apply Hinv.
Qed.

Lemma AllocateIPForWorkspace_hashed_bridges mbm w e d r mbm' d' :
  hashed_bridges mbm ->
  AllocateIPForWorkspace mbm w e d = (r, mbm', d') ->
  hashed_bridges mbm'.
Proof.
  intros Hinv. unfold AllocateIPForWorkspace.
  destruct (match workspaces mbm !! w with
            | Some allocation => Some (mbm, allocation)
            | None => _ end) as [[mbm1 a]|] eqn:Hpre; [|by intros [= <- <- <-]].
  assert (H1 : hashed_bridges mbm1
               /\ GetBridgeForWorkspace (bridgeCount mbm1) w = Some (BridgeNumber a)).
  { destruct (workspaces mbm !! w) as [stored|] eqn:Hw.
    - simplify_eq. split; [done|]. by apply Hinv.
    - destruct (GetBridgeForWorkspace (bridgeCount mbm) w) as [b|] eqn:Hb; [|discriminate].
      simplify_eq. split; [|done].
      apply (hashed_bridges_set_workspace mbm w
               (mkWorkspaceAllocation w b (bridge_name (bridgePrefix mbm) b) ∅
                  (now_rfc3339 e) 0)); done. }
  destruct H1 as [Hinv1 Hb1]. clear Hpre.
  pose proof (hashed_bridges_set_workspace mbm1 w) as Hset.
  repeat case_match; intros [= <- <- <-]; try done;
    repeat (apply hashed_bridges_set_workspace; try done).
Qed.

Lemma ReleaseIPForWorkspace_hashed_bridges mbm w ip e d r mbm' d' :
  hashed_bridges mbm ->
  ReleaseIPForWorkspace mbm w ip e d = (r, mbm', d') ->
  hashed_bridges mbm'.
Proof.
  intros Hinv. unfold ReleaseIPForWorkspace.
  destruct (workspaces mbm !! w) as [a|] eqn:Hw; [|by intros [= <- <- <-]].
  pose proof (Hinv w a Hw) as Hb.
  assert (Hb' : forall n, GetBridgeForWorkspace (bridgeCount mbm) w
                          = Some (BridgeNumber (set_VMCount a n))) by (intros; exact Hb).
  repeat case_match; intros [= <- <- <-];
    repeat (apply hashed_bridges_set_workspace; try done).
Qed.

Lemma hashed_bridges_empty n prefix lo hi :
  hashed_bridges (mkMultiBridgeManager n prefix ∅ ∅ lo hi).
Proof. intros w a. cbn [workspaces]. by rewrite lookup_empty. Qed.

(** On a manager whose records sit on their hashed bridges, the third
    octet of an issued address is the hash modulo the bridge count. *)
Lemma AllocateIPForWorkspace_hashed_address mbm w e d ip name mbm' d' :
  hashed_bridges mbm ->
  AllocateIPForWorkspace mbm w e d = (Ok (ip, name), mbm', d') ->
  exists k,
    k = default 0 (VMCount <$> workspaces mbm !! w)
    /\ 0 <= k < 5
    /\ ip = [172; 16; FNV1a32 w mod bridgeCount mbm; FNV1a32 w mod 32 * 8 + 2 + k].
Proof.
  intros Hinv Hcall.
  apply AllocateIPForWorkspace_Ok_inv in Hcall
    as (a & Hin & Hbn & _ & Hk & _ & _ & -> & _).
  exists (VMCount a).
  assert (Hb : GetBridgeForWorkspace (bridgeCount mbm) w = Some (BridgeNumber a)
               /\ VMCount a = default 0 (VMCount <$> workspaces mbm !! w)).
  { unfold allocation_in_use in Hin. destruct (workspaces mbm !! w) as [stored|] eqn:Hw.
    - subst. split; [by apply Hinv | done].
    - destruct Hin as (b & Hb & ->). done. }
  destruct Hb as [Hb Hcount].
  unfold GetBridgeForWorkspace, go_rem in Hb.
  destruct (bridgeCount mbm =? 0); [done|]. injection Hb as Hb.
  pose proof (FNV1a32_range w).
  rewrite Z.rem_mod_nonneg in Hb by lia.
  split; [done|]. split; [done|]. by rewrite Hb.
Qed.
End HashedBridges.




(** They part as well on a record whose subnet the manager did not write:
    with the /30 of [narrow_vlan] at index 2, which [validateState] accepts,
    multibridge.go finds the address outside the subnet and unnamed/part_007,
    which does not look, returns it. *)
Lemma AllocateVMIP_versions_differ_outside_subnet :
  validateState (L := example_library) example_manager
    (state_of narrow_vlan_manager example_env) = None
  /\ (AllocateVMIP (L := example_library) narrow_vlan_manager "ws_A" "p").1
     = Err (ErrIPOutsideVLANSubnet "172.16.3.160/30")
  /\ (Split.AllocateVMIP (L := example_library)
        narrow_vlan_manager "ws_A" "p" example_env example_env example_disk).1.1
     = Ok ([172; 16; 3; 164], "br-vms-3").
Proof. vm_compute. repeat split; reflexivity. Qed.

(** ** The copy returned by [GetWorkspaceInfo] *)

Lemma copy_vlan_id v : copy_vlan v = v.
Proof. by destruct v. Qed.

Lemma GetWorkspaceInfo_value mbm w stored :
  workspaces mbm !! w = Some stored ->
  GetWorkspaceInfo mbm w = Ok (set_VMCount stored 0).
Proof.
  intros Hw. unfold GetWorkspaceInfo, set_VMCount. rewrite Hw. do 2 f_equal.
  apply map_eq. intros p. rewrite lookup_fmap.
  destruct (ProjectVLANs stored !! p); cbn; [by rewrite copy_vlan_id|done].
Qed.

Module HeapProofs.

(** The loop that copies the VLAN records: old records are untouched, and
    the copy points to new records that read as the old ones. *)
Lemma copy_vlans_spec (v0 : gmap Heap.loc ProjectVLAN) (pv : gmap string Heap.loc) :
  (forall p lv, pv !! p = Some lv -> is_Some (v0 !! lv)) ->
  let acc := map_fold Heap.copy_vlan_step (∅, v0) pv in
  v0 ⊆ acc.2
  /\ (forall p l', acc.1 !! p = Some l' -> (l' ∉ dom v0) /\ is_Some (acc.2 !! l'))
  /\ Heap.read_vlans acc.2 acc.1 = Heap.read_vlans v0 pv.
Proof.
  cbn zeta.
  apply (map_fold_weak_ind (fun acc (m : gmap string Heap.loc) =>
    (forall p lv, m !! p = Some lv -> is_Some (v0 !! lv)) ->
    v0 ⊆ acc.2
    /\ (forall p l', acc.1 !! p = Some l' -> (l' ∉ dom v0) /\ is_Some (acc.2 !! l'))
    /\ Heap.read_vlans acc.2 acc.1 = Heap.read_vlans v0 m)).
  - intros _. cbn. split; [done|]. split; [|done].
    intros p l' H. by rewrite lookup_empty in H.
  - intros p lv m [copy vl] Hp IH Hvalid.
    destruct IH as (Hsub & Hfresh & Hread).
    { intros q lq Hq. apply (Hvalid q lq). rewrite lookup_insert_ne; [done|].
      intros ->. by rewrite Hp in Hq. }
    cbn [fst snd] in *.
    destruct (Hvalid p lv) as [v Hv]; [by rewrite lookup_insert_eq|].
    assert (Hvl : vl !! lv = Some v) by (by eapply lookup_weaken).
    unfold Heap.copy_vlan_step. cbn [fst snd]. rewrite Hvl. cbn [fst snd].
    pose proof (is_fresh (dom vl)) as Hnew.
    set (l' := fresh (dom vl)) in *.
    assert (Hnone : vl !! l' = None) by (by apply not_elem_of_dom).
    split; [|split].
    + etrans; [exact Hsub|]. by apply insert_subseteq.
    + intros q lq Hq. destruct (decide (p = q)) as [->|Hne].
      * rewrite lookup_insert_eq in Hq. injection Hq as <-. split.
        -- intros Hin. apply Hnew. apply elem_of_dom. apply elem_of_dom in Hin as [x Hx].
           exists x. by eapply lookup_weaken.
        -- rewrite lookup_insert_eq. by eexists.
      * rewrite lookup_insert_ne in Hq by done.
        destruct (Hfresh q lq Hq) as [Hout [x Hx]]. split; [done|].
        exists x. rewrite lookup_insert_ne; [done|]. intros <-. by rewrite Hnone in Hx.
    + apply map_eq. intros q. unfold Heap.read_vlans in *. rewrite !lookup_omap.
      destruct (decide (p = q)) as [->|Hne].
      * rewrite !lookup_insert_eq. cbn. rewrite lookup_insert_eq, Hv.
        by rewrite copy_vlan_id.
      * rewrite !lookup_insert_ne by done.
        assert (Hq : omap (fun l : Heap.loc => vl !! l) copy !! q
                     = omap (fun l : Heap.loc => v0 !! l) m !! q) by (by rewrite Hread).
        rewrite !lookup_omap in Hq. rewrite <- Hq.
        destruct (copy !! q) as [lq|] eqn:Hcq; [|done]. cbn.
        destruct (Hfresh q lq Hcq) as [_ [x Hx]].
        rewrite lookup_insert_ne; [done|]. intros <-. by rewrite Hnone in Hx.
Qed.

(** A Heap.heap that agrees with [h] on the records [h] holds shows the same
    manager state. *)
Lemma view_agree h h' ws :
  Heap.wf h ws ->
  (forall l, is_Some (Heap.cells h !! l) -> Heap.cells h' !! l = Heap.cells h !! l) ->
  (forall l, is_Some (Heap.vlan_cells h !! l) -> Heap.vlan_cells h' !! l = Heap.vlan_cells h !! l) ->
  Heap.view h' ws = Heap.view h ws.
Proof.
  intros Hwf Hcells Hvlans. apply map_eq. intros w. unfold Heap.view. rewrite !lookup_omap.
  destruct (ws !! w) as [l|] eqn:Hw; [|done]. cbn.
  destruct (Hwf w l Hw) as (c & Hc & Hpv).
  unfold Heap.read_workspace. rewrite Hcells by (by eexists). rewrite Hc.
  do 2 f_equal. apply map_eq. intros p. unfold Heap.read_vlans. rewrite !lookup_omap.
  destruct (Heap.cProjectVLANs c !! p) as [lv|] eqn:Hlv; [|done]. cbn.
  apply Hvlans. by eapply Hpv.
Qed.
(** C10.  For a workspace present in the manager, [GetWorkspaceInfo] of
    multibridge.go returns a pointer to a new record that reads as the
    stored record with the VM count replaced by 0, whatever the stored
    count; the manager's state is as before, and it stays so after any
    write through the returned pointer or through a VLAN pointer of the
    returned record. *)
Theorem GetWorkspaceInfo_defensive_copy
    (h : Heap.heap) (ws : gmap string Heap.loc) (w : string) (stored : WorkspaceAllocation) :
  Heap.wf h ws ->
  Heap.view h ws !! w = Some stored ->
  exists l' h',
    Heap.GetWorkspaceInfo h ws w = (Ok l', h')
    /\ Heap.read_workspace h' l' = Some (set_VMCount stored 0)
    /\ VMCount (set_VMCount stored 0) = 0
    /\ (forall mbm, workspaces mbm = Heap.view h ws ->
          GetWorkspaceInfo mbm w = Ok (set_VMCount stored 0))
    /\ Heap.view h' ws = Heap.view h ws
    /\ (forall c, Heap.view (Heap.store_cell h' l' c) ws = Heap.view h ws)
    /\ (forall c' p lv v,
          Heap.cells h' !! l' = Some c' -> Heap.cProjectVLANs c' !! p = Some lv ->
          Heap.view (Heap.store_vlan h' lv v) ws = Heap.view h ws).
Proof.
  intros Hwf Hview. unfold Heap.view in Hview. rewrite lookup_omap in Hview.
  destruct (ws !! w) as [l|] eqn:Hw; [|done]. cbn in Hview.
  destruct (Hwf w l Hw) as (c & Hc & Hpv).
  unfold Heap.read_workspace in Hview. rewrite Hc in Hview. injection Hview as <-.
  unfold Heap.GetWorkspaceInfo. rewrite Hw, Hc.
  pose proof (copy_vlans_spec (Heap.vlan_cells h) (Heap.cProjectVLANs c) Hpv) as Hcopy.
  cbn zeta in Hcopy.
  destruct (map_fold Heap.copy_vlan_step (∅, Heap.vlan_cells h) (Heap.cProjectVLANs c)) as [copy vl].
  cbn [fst snd] in Hcopy. destruct Hcopy as (Hsub & Hfresh & Hread).
  pose proof (is_fresh (dom (Heap.cells h))) as Hnew.
  set (l' := fresh (dom (Heap.cells h))) in *.
  assert (Hold : forall x, is_Some (Heap.cells h !! x) -> x <> l').
  { intros x Hx ->. apply Hnew. by apply elem_of_dom. }
  eexists l', _. split; [reflexivity|].
  split; [|split; [done|split; [|split; [|split]]]].
  - unfold Heap.read_workspace. cbn [Heap.cells Heap.vlan_cells]. rewrite lookup_insert_eq.
    cbv iota. unfold set_VMCount.
    cbn [Heap.cWorkspaceID Heap.cBridgeNumber Heap.cBridgeName Heap.cProjectVLANs
         Heap.cCreatedAt Heap.cVMCount WorkspaceID BridgeNumber BridgeName ProjectVLANs
         CreatedAt].
    by rewrite Hread.
  - intros mbm Hmbm. apply GetWorkspaceInfo_value. rewrite Hmbm.
    unfold Heap.view. rewrite lookup_omap, Hw. cbn. unfold Heap.read_workspace. by rewrite Hc.
  - apply view_agree; [done| |]; cbn [Heap.cells Heap.vlan_cells].
    + intros x Hx. rewrite lookup_insert_ne; [done|]. intros Heq. by apply (Hold x).
    + intros x [y Hy]. rewrite Hy. by eapply lookup_weaken.
  - intros c0. apply view_agree; [done| |]; cbn [Heap.cells Heap.vlan_cells Heap.store_cell].
    + intros x Hx. rewrite !lookup_insert_ne; [done| |]; intros Heq; by apply (Hold x).
    + intros x [y Hy]. rewrite Hy. by eapply lookup_weaken.
  - intros c' p lv v Hc' Hlv. cbn [Heap.cells] in Hc'. rewrite lookup_insert_eq in Hc'.
    injection Hc' as <-. cbn [Heap.cProjectVLANs] in Hlv.
    destruct (Hfresh p lv Hlv) as [Hout _].
    apply view_agree; [done| |]; cbn [Heap.cells Heap.vlan_cells Heap.store_vlan].
    + intros x Hx. rewrite lookup_insert_ne; [done|]. intros Heq. by apply (Hold x).
    + intros x [y Hy]. rewrite lookup_insert_ne.
      * rewrite Hy. by eapply lookup_weaken.
      * intros <-. apply Hout. apply elem_of_dom. by eexists.
Qed.

Lemma example_heap_wf : Heap.wf Heap.example_heap Heap.example_workspaces.
Proof.
  intros w l Hw. unfold Heap.example_workspaces in Hw.
  apply lookup_singleton_Some in Hw as [<- <-].
  exists Heap.example_cell. split; [apply lookup_singleton_eq|].
  intros p lv Hp. unfold Heap.example_cell in Hp. cbn [Heap.cProjectVLANs] in Hp.
  apply lookup_singleton_Some in Hp as [<- <-].
  unfold Heap.example_heap. cbn [Heap.vlan_cells]. rewrite lookup_singleton_eq. by eexists.
Qed.
End HeapProofs.

Lemma GetWorkspaceInfo_defensive_copy_witness :
  Heap.view Heap.example_heap Heap.example_workspaces !! "ws_A"
  = Some (mkWorkspaceAllocation "ws_A" 3 "br-vms-3"
            {[ "p" := mkProjectVLAN "p" 101 "172.16.3.160/27" 4 "2025-01-01T00:00:00Z" ]}
            "2025-01-01T00:00:00Z" 3)
  /\ exists l' h',
       Heap.GetWorkspaceInfo Heap.example_heap Heap.example_workspaces "ws_A" = (Ok l', h')
       /\ VMCount <$> Heap.read_workspace h' l' = Some 0
       /\ Heap.view h' Heap.example_workspaces
          = Heap.view Heap.example_heap Heap.example_workspaces.
Proof.
  assert (Hview :
    Heap.view Heap.example_heap Heap.example_workspaces !! "ws_A"
    = Some (mkWorkspaceAllocation "ws_A" 3 "br-vms-3"
              {[ "p" := mkProjectVLAN "p" 101 "172.16.3.160/27" 4 "2025-01-01T00:00:00Z" ]}
              "2025-01-01T00:00:00Z" 3)) by (vm_compute; reflexivity).
  split; [exact Hview|].
  destruct (HeapProofs.GetWorkspaceInfo_defensive_copy _ _ _ _
              HeapProofs.example_heap_wf Hview)
    as (l' & h' & Hcall & Hread & _ & _ & Hsame & _).
  exists l', h'. split; [exact Hcall|]. split; [|exact Hsame].
  rewrite Hread. reflexivity.
Defined.

(** * The kernel command line *)

Section KernelArgsProofs.
Context `{L : Library}.

Lemma IP_String_4 a b c x : IP_String [a; b; c; x] = dotted_quad [a; b; c; x].
Proof. reflexivity. Qed.

Lemma veth_octets_agree (x : Z) :
  0 <= x < 256 ->
  String.eqb (fmt_d (byte_of (x - 1))) (fmt_d (byte_of (byte_of (x / 8 * 8) + 1)))
  = (x mod 8 =? 2).
Proof.
  intros Hx.
  enough (H : (fun x => Bool.eqb (String.eqb (fmt_d (byte_of (x - 1)))
                                   (fmt_d (byte_of (byte_of (x / 8 * 8) + 1))))
                          (x mod 8 =? 2)) x = true).
  { cbv beta in H. apply Bool.eqb_prop in H. rewrite H. reflexivity. }
  revert x Hx. apply forallb_seqZ. vm_compute. reflexivity.
Qed.

(** The address the guest is told ([VMNetwork.calculateVethHostIP], the
    guest address minus one) is the address [setupVMNetworking] puts on the
    host side of the veth pair exactly for a guest address that is the
    second of its /29, which is the first VM of a tenant slot. *)
Lemma VMNetwork_calculateVethHostIP_agrees (n : VMNetwork) (a b c x : Z) :
  IPAddress n = [a; b; c; x] ->
  0 <= x < 256 ->
  Some (VMNetwork_calculateVethHostIP n) = calculateVethHostIP (IPAddress n)
  <-> x mod 8 = 2.
Proof.
  intros Hip Hx.
  unfold VMNetwork_calculateVethHostIP, calculateVethHostIP. rewrite Hip.
  change (To4 [a; b; c; x]) with [a; b; c; x].
  change (length [a; b; c; x] =? 0)%nat with false.
  change (length [a; b; c; x] <? 4)%nat with false.
  cbv iota.
  change (<[3%nat := ?v]> [a; b; c; x]) with [a; b; c; v].
  rewrite IP_String_4, dotted_quad_4.
  change (byte_at [a; b; c; x] 0) with a.
  change (byte_at [a; b; c; x] 1) with b.
  change (byte_at [a; b; c; x] 2) with c.
  change (byte_at [a; b; c; x] 3) with x.
  cbv zeta.
  pose proof (veth_octets_agree x Hx) as Hoct.
  split.
  - intros Heq. injection Heq as Heq.
    do 6 apply (inj (String.append _)) in Heq.
    rewrite Heq, String.eqb_refl in Hoct. symmetry in Hoct.
    apply Z.eqb_eq in Hoct. exact Hoct.
  - intros Hmod. apply Z.eqb_eq in Hmod. rewrite Hmod in Hoct.
    apply String.eqb_eq in Hoct. rewrite Hoct. reflexivity.
Qed.

Lemma route_args_length (routes : list Route) : forall i,
  0 <= i -> Z.of_nat (length (route_args i routes)) <= Z.max 1 (6 - i).
Proof.
  induction routes as [|route rest IH]; intros i Hi; cbn [route_args length].
  - lia.
  - destruct (bool_decide (is_Some (Destination route))
              && negb (length (RouteGateway route) =? 0)%nat).
    + destruct (5 <=? i) eqn:Hfive; cbn [length].
      * lia.
      * apply Z.leb_gt in Hfive. specialize (IH (i + 1) ltac:(lia)). lia.
    + specialize (IH (i + 1) ltac:(lia)). lia.
Qed.

Lemma prefix_routeArg (route : Route) : String.prefix "route=" (routeArg route) = true.
Proof.
  unfold routeArg. destruct (IPNet_String (Destination route) +:+ _); reflexivity.
Qed.

Lemma route_tokens_route_args (routes : list Route) : forall i,
  route_tokens (route_args i routes) = route_args i routes.
Proof.
  unfold route_tokens.
  induction routes as [|route rest IH]; intros i; cbn [route_args].
  - reflexivity.
  - destruct (bool_decide (is_Some (Destination route))
              && negb (length (RouteGateway route) =? 0)%nat).
    + cbn [List.filter]. rewrite prefix_routeArg.
      destruct (5 <=? i); [reflexivity | by rewrite IH].
    + apply IH.
Qed.

(** The route tokens of the command line are those of the loop over the
    routes: no other token starts with route=. *)
Lemma route_tokens_buildNetworkKernelArgs (n : VMNetwork) :
  route_tokens (buildNetworkKernelArgs (Some n)) = route_args 0 (Routes n).
Proof.
  unfold buildNetworkKernelArgs, route_tokens.
  rewrite !List.filter_app. fold (route_tokens (route_args 0 (Routes n))).
  rewrite route_tokens_route_args.
  assert (Hip : List.filter (String.prefix "route=")
                  (if negb (String.eqb (KernelCmdlineArgs n) "")
                   then [KernelCmdlineArgs n] else []) = []).
  { unfold KernelCmdlineArgs.
    destruct (length (IPAddress n) =? 0)%nat; reflexivity. }
  rewrite Hip.
  assert (Hdns : List.filter (String.prefix "route=")
                   match DNSServers n with
                   | [] => []
                   | [dns0] => ["nameserver=" +:+ dns0]
                   | dns0 :: dns1 :: _ => ["nameserver=" +:+ dns0; "nameserver1=" +:+ dns1]
                   end = []).
  { destruct (DNSServers n) as [|dns0 [|dns1 ?]]; reflexivity. }
  rewrite Hdns.
  assert (Hv6 : List.filter (String.prefix "route=")
                  (if negb (length (IPv6Address n) =? 0)%nat
                      && negb (IsUnspecified (IPv6Address n))
                   then ["ipv6=" +:+ IP_String (IPv6Address n)] else []) = []).
  { destruct (negb (length (IPv6Address n) =? 0)%nat
              && negb (IsUnspecified (IPv6Address n))); reflexivity. }
  rewrite Hv6.
  assert (Hvlan : List.filter (String.prefix "route=")
                    (if 0 <? VLANID n then ["vlan=" +:+ fmt_d (VLANID n)] else []) = []).
  { destruct (0 <? VLANID n); reflexivity. }
  rewrite Hvlan. cbn [app]. apply app_nil_r.
Qed.

(** The command line never holds more than six route tokens. *)
Lemma buildNetworkKernelArgs_route_bound (networkInfo : option VMNetwork) :
  (length (route_tokens (buildNetworkKernelArgs networkInfo)) <= 6)%nat.
Proof.
  destruct networkInfo as [n|]; [|cbn; lia].
  rewrite route_tokens_buildNetworkKernelArgs.
  pose proof (route_args_length (Routes n) 0 ltac:(lia)). lia.
Qed.

End KernelArgsProofs.

(** C6, evaluated at the second VM of a tenant: the second address issued to
    ws_A is 172.16.3.155; the T field of its ip= token is 172.16.3.154, the
    guest address minus one, while device setup puts 172.16.3.153, the first
    address of the /29, on the host side of the veth pair. *)
Theorem KernelCmdlineArgs_second_vm_host_address :
  (AllocateIPForWorkspace (L := example_library)
     one_vm_manager "ws_A" example_env example_disk).1.1
  = Ok (IPAddress second_vm, "br-vms-3")
  /\ KernelCmdlineArgs (L := example_library) second_vm
     = "ip=172.16.3.155::172.16.3.154:255.255.255.248:eth0:off"
  /\ VMNetwork_calculateVethHostIP (L := example_library) second_vm = "172.16.3.154"
  /\ calculateVethHostIP (IPAddress second_vm) = Some "172.16.3.153".
Proof. vm_compute. repeat split; reflexivity. Qed.

(** C8, evaluated at a binding with six routes that each have a destination
    and a gateway: the command line holds six route tokens, the sixth being
    appended before the index test that leaves the loop. *)
Theorem buildNetworkKernelArgs_six_route_tokens :
  route_tokens (buildNetworkKernelArgs (L := example_library) (Some six_route_vm))
  = [ "route=10.1.0.0/16,172.16.3.153,100"; "route=10.2.0.0/16,172.16.3.153,100";
      "route=10.3.0.0/16,172.16.3.153,100"; "route=10.4.0.0/16,172.16.3.153,100";
      "route=10.5.0.0/16,172.16.3.153,100"; "route=10.6.0.0/16,172.16.3.153,100" ]
  /\ length (route_tokens (buildNetworkKernelArgs (L := example_library)
                             (Some six_route_vm))) = 6%nat.
Proof. vm_compute. split; reflexivity. Qed.

(** * The VM lifecycle engine *)

Module LifecycleProofs.
Import Lifecycle.





















Lemma ShutdownVMWithOptions_success c h vmID force t c' tr :
  ShutdownVMWithOptions c h vmID force t = (None, c', tr)
  <-> exists vm,
        c !! vmID = Some vm
        /\ State vm = VM_STATE_RUNNING
        /\ is_Some (Machine vm)
        /\ pause_ok h = true
        /\ c' = <[vmID := set_State vm VM_STATE_SHUTDOWN]> c
        /\ tr = [Call_PauseVM vmID].
Proof.
  unfold ShutdownVMWithOptions. split.
  - destruct (c !! vmID) as [vm|]; [|done].
    destruct (bool_decide (State vm = VM_STATE_RUNNING)) eqn:Hst; cbn [negb]; [|done].
    apply bool_decide_eq_true in Hst.
    destruct (Machine vm) as [m|] eqn:Hm; [|done].
    destruct force, (pause_ok h); cbn [negb]; intros [= <- <-]; try done;
      exists vm; rewrite Hm; by eauto 10.
  - intros (vm & -> & Hst & [m Hm] & Hp & -> & ->).
    rewrite bool_decide_eq_true_2 by done. rewrite Hm, Hp. by destruct force.
Qed.




End LifecycleProofs.

(** * Laws of the lifecycle engine *)

Module LifecycleLaws.
Import Lifecycle.

Lemma BootVM_refuses c h vmID vm :
  c !! vmID = Some vm -> State vm <> VM_STATE_CREATED ->
  BootVM c h vmID = (Some (ErrBootState vmID (State vm)), c, []).
Proof.
  intros Hvm Hst. unfold BootVM. rewrite Hvm.
  by rewrite bool_decide_eq_false_2.
Qed.

(** [RebootVM] never returns without an error: its shutdown step leaves the
    record in Shutdown state, and its boot step accepts only Created.  When
    the shutdown step succeeds, the VM is left paused in Shutdown state and
    PauseVM is the only call issued. *)
Theorem RebootVM_never_succeeds (c : vmRegistry) (h : host) (vmID : string) :
  (exists e c' tr, RebootVM c h vmID = (Some e, c', tr))
  /\ (forall vm,
        c !! vmID = Some vm -> State vm = VM_STATE_RUNNING ->
        is_Some (Machine vm) -> pause_ok h = true ->
        RebootVM c h vmID
        = (Some (ErrBootAfterShutdown (ErrBootState vmID VM_STATE_SHUTDOWN)),
           <[vmID := set_State vm VM_STATE_SHUTDOWN]> c,
           [Call_PauseVM vmID])).
Proof.
  assert (Hok : forall c' tr,
            ShutdownVMWithOptions c h vmID false 30 = (None, c', tr) ->
            exists vm, c !! vmID = Some vm
                       /\ c' = <[vmID := set_State vm VM_STATE_SHUTDOWN]> c
                       /\ tr = [Call_PauseVM vmID]
                       /\ BootVM c' h vmID
                          = (Some (ErrBootState vmID VM_STATE_SHUTDOWN), c', [])).
  { intros c' tr Hs.
    apply LifecycleProofs.ShutdownVMWithOptions_success in Hs
      as (vm & Hvm & _ & _ & _ & -> & ->).
    exists vm. repeat split; try done.
    apply (BootVM_refuses _ h vmID (set_State vm VM_STATE_SHUTDOWN));
      [apply lookup_insert_eq | done]. }
  split.
  - unfold RebootVM.
    destruct (ShutdownVMWithOptions c h vmID false 30) as [[[e|] c'] tr];
      [by eauto|].
    destruct (Hok _ _ eq_refl) as (vm & _ & _ & _ & ->). by eauto.
  - intros vm Hvm Hst Hm Hp. unfold RebootVM.
    assert (Hs : ShutdownVMWithOptions c h vmID false 30
                 = (None, <[vmID := set_State vm VM_STATE_SHUTDOWN]> c,
                    [Call_PauseVM vmID])).
    { apply LifecycleProofs.ShutdownVMWithOptions_success. exists vm. by eauto 10. }
    rewrite Hs. destruct (Hok _ _ Hs) as (vm' & _ & _ & _ & ->). reflexivity.
Qed.

Lemma RebootVM_never_succeeds_witness :
  RebootVM running_registry calm_host "ud-0123456789abcdef"
  = (Some (ErrBootAfterShutdown (ErrBootState "ud-0123456789abcdef" VM_STATE_SHUTDOWN)),
     <[ "ud-0123456789abcdef" := set_State booted_vm VM_STATE_SHUTDOWN ]> running_registry,
     [Call_PauseVM "ud-0123456789abcdef"]).
Proof.
  apply (proj2 (RebootVM_never_succeeds running_registry calm_host "ud-0123456789abcdef")).
  - vm_compute; reflexivity.
  - reflexivity.
  - eexists; reflexivity.
  - reflexivity.
Defined.


(** ** Records in Running state hold a VMM handle *)

Lemma running_have_machine_insert c vmID vm :
  running_have_machine c ->
  (State vm = VM_STATE_RUNNING -> is_Some (Machine vm)) ->
  running_have_machine (<[vmID := vm]> c).
Proof.
  unfold running_have_machine, vmRegistry in *.
  intros Hc Hvm vmID' vm'. destruct (decide (vmID' = vmID)) as [Heq|Hne].
  - subst vmID'. rewrite lookup_insert_eq. intros [= <-]. exact Hvm.
  - rewrite lookup_insert_ne by done. apply Hc.
Qed.

Lemma running_have_machine_delete c vmID :
  running_have_machine c -> running_have_machine (delete vmID c).
Proof.
  unfold running_have_machine, vmRegistry in *.
  intros Hc vmID' vm'. destruct (decide (vmID' = vmID)) as [Heq|Hne].
  - subst vmID'. by rewrite lookup_delete_eq.
  - rewrite lookup_delete_ne by done. apply Hc.
Qed.

Lemma reconnectToFirecracker_record h vm e vm' tr :
  reconnectToFirecracker h vm = (e, vm', tr) ->
  State vm' = State vm /\ (e = None -> is_Some (Machine vm')).
Proof.
  unfold reconnectToFirecracker.
  destruct (socket_exists h (ID vm)), (attach_ok h (ID vm)); cbn [negb];
    intros [= <- <- <-]; split; try done; intros _; by eexists.
Qed.

Lemma recreateVMForResume_record h vm e vm' tr :
  recreateVMForResume h vm = (e, vm', tr) ->
  State vm' = State vm /\ (e = None -> is_Some (Machine vm')).
Proof.
  unfold recreateVMForResume.
  destruct (prepare_assets_ok h), (mkdir_ok h), (create_network h (ID vm)),
    (new_machine_ok h), (start_ok h); cbn [negb];
    intros [= <- <- <-]; split; try done; intros _; by eexists.
Qed.

Lemma machine_for_resume_record h vm e vm' tr :
  machine_for_resume h vm = (e, vm', tr) ->
  State vm' = State vm /\ (e = None -> is_Some (Machine vm')).
Proof.
  unfold machine_for_resume.
  destruct (Machine vm) as [m|] eqn:Hm.
  { intros [= <- <- <-]. split; [done|]. intros _. rewrite Hm. by eexists. }
  destruct (reconnectToFirecracker h vm) as [[e1 vm1] tr1] eqn:Hre.
  apply reconnectToFirecracker_record in Hre as [Hst1 Hm1].
  destruct e1 as [e1|]; [|intros [= <- <- <-]; by split; [|intros _; apply Hm1]].
  destruct (recreateVMForResume h vm1) as [[e2 vm2] tr2] eqn:Hrec.
  apply recreateVMForResume_record in Hrec as [Hst2 Hm2].
  destruct e2 as [e2|]; intros [= <- <- <-]; (split; [congruence|]); [done|].
  intros _. by apply Hm2.
Qed.

Lemma BootVM_running c h vmID :
  running_have_machine c -> running_have_machine (BootVM c h vmID).1.2.
Proof.
  intros Hc. unfold BootVM.
  destruct (c !! vmID) as [vm|] eqn:Hvm; [|done].
  destruct (bool_decide (State vm = VM_STATE_CREATED)) eqn:Hst; cbn [negb]; [|done].
  apply bool_decide_eq_true in Hst.
  destruct (log_create_ok h); cbn [negb]; [|done].
  destruct (new_machine_ok h); cbn [negb fst snd].
  2: { apply running_have_machine_insert; [done|]. cbn. congruence. }
  destruct (start_ok h); cbn [negb fst snd].
  - apply running_have_machine_insert; [done|]. intros _. by eexists.
  - apply running_have_machine_insert; [done|]. cbn. congruence.
Qed.

Lemma ShutdownVMWithOptions_running c h vmID force t :
  running_have_machine c ->
  running_have_machine (ShutdownVMWithOptions c h vmID force t).1.2.
Proof.
  intros Hc. unfold ShutdownVMWithOptions.
  destruct (c !! vmID) as [vm|] eqn:Hvm; [|done].
  destruct (bool_decide (State vm = VM_STATE_RUNNING)); cbn [negb]; [|done].
  destruct (Machine vm); [|done].
  destruct force, (pause_ok h); cbn [negb fst snd]; try done;
    apply running_have_machine_insert; done.
Qed.

Lemma step_running c h op :
  op <> OpInitialize ->
  running_have_machine c -> running_have_machine (step c h op).1.2.
Proof.
  intros Hop Hc. destruct op; cbn [step]; try done.
  - unfold CreateVM.
    destruct (rand_id h) as [vmID|]; [|done].
    destruct (create_network h vmID); [|done].
    destruct (prepare_assets_ok h), (mkdir_ok h); cbn [negb fst snd]; try done.
    by apply running_have_machine_insert.
  - by apply BootVM_running.
  - unfold DeleteVM. destruct (c !! vmID); [|done].
    by apply running_have_machine_delete.
  - by apply ShutdownVMWithOptions_running.
  - by apply ShutdownVMWithOptions_running.
  - unfold PauseVM.
    destruct (c !! vmID) as [vm|] eqn:Hvm; [|done].
    destruct (bool_decide (State vm = VM_STATE_RUNNING)); cbn [negb]; [|done].
    destruct (Machine vm); [|done].
    destruct (pause_ok h); cbn [negb fst snd]; [|done].
    by apply running_have_machine_insert.
  - unfold ResumeVM.
    destruct (c !! vmID) as [vm|] eqn:Hvm; [|done].
    destruct (bool_decide (State vm = VM_STATE_PAUSED)) eqn:Hp;
      destruct (bool_decide (State vm = VM_STATE_SHUTDOWN)) eqn:Hs;
      cbn [negb andb]; try done;
      (destruct (machine_for_resume h vm) as [[e vm'] tr] eqn:Hm;
       apply machine_for_resume_record in Hm as [Hst Hm];
       destruct e as [e|]; cbn [fst snd];
       [apply running_have_machine_insert; [done|];
        rewrite Hst; intros Hrun;
        try apply bool_decide_eq_true in Hp; try apply bool_decide_eq_true in Hs;
        congruence
       |destruct (resume_ok h); cbn [negb fst snd];
        apply running_have_machine_insert; try done; intros _; by apply Hm]).
  - unfold RebootVM.
    pose proof (ShutdownVMWithOptions_running c h vmID false 30 Hc) as Hs.
    destruct (ShutdownVMWithOptions c h vmID false 30) as [[[e|] c'] tr];
      cbn [fst snd] in Hs |- *; [done|].
    pose proof (BootVM_running c' h vmID Hs) as Hb.
    destruct (BootVM c' h vmID) as [[[e|] c''] tr']; exact Hb.
Qed.

Lemma run_running (script : list (host * operation)) : forall c,
  no_restore script ->
  running_have_machine c -> running_have_machine (run c script).1.
Proof.
  induction script as [|[h op] rest IH]; intros c Hno Hc; cbn [run]; [done|].
  pose proof (step_running c h op) as Hstep.
  destruct (step c h op) as [[e c'] tr]. cbn [fst snd] in Hstep.
  specialize (IH c').
  destruct (run c' rest) as [c'' tr']. cbn [fst] in IH |- *.
  apply IH.
  - intros h' Hin. apply (Hno h'). by apply list_elem_of_further.
  - apply Hstep; [|done]. intros ->. apply (Hno h). apply list_elem_of_here.
Qed.

(** A host whose database holds one Running VM and whose sockets are gone. *)
Lemma Initialize_without_socket :
  exists h, ~ running_have_machine (step ∅ h OpInitialize).1.2.
Proof.
  exists (mkHost None (Some [mkDbVM "ud-0123456789abcdef" VM_STATE_RUNNING true])
            (fun _ => None) true true true (fun _ => false) (fun _ => true)
            true true true true).
  intros Hinv.
  destruct (Hinv "ud-0123456789abcdef"
              (mkVM "ud-0123456789abcdef" VM_STATE_RUNNING None None false))
    as [m Hm]; [vm_compute; reflexivity | reflexivity | discriminate].
Qed.

(** Over any sequence of operations other than the restore from the
    database, every record in Running state holds a VMM handle, provided
    that was so at the start; the restore can register a Running record
    with no handle, when the socket of its process is gone. *)
Theorem running_VMs_have_a_machine :
  (forall script c,
     no_restore script -> running_have_machine c ->
     running_have_machine (run c script).1)
  /\ running_have_machine ∅
  /\ (exists h, ~ running_have_machine (step ∅ h OpInitialize).1.2).
Proof.
  split; [intros; by apply run_running|].
  split; [|apply Initialize_without_socket].
  unfold running_have_machine, vmRegistry. intros vmID vm. by rewrite lookup_empty.
Qed.

Lemma running_VMs_have_a_machine_witness :
  no_restore [(calm_host, OpCreateVM); (calm_host, OpBootVM "ud-0123456789abcdef")]
  /\ running_have_machine running_registry.
Proof.
  assert (Hno : no_restore [(calm_host, OpCreateVM);
                            (calm_host, OpBootVM "ud-0123456789abcdef")]).
  { intros h Hin. apply elem_of_cons in Hin as [[= ]|Hin].
    apply elem_of_cons in Hin as [[= ]|Hin]. by apply elem_of_nil in Hin. }
  split; [exact Hno|].
  destruct running_VMs_have_a_machine as (Hrun & Hempty & _).
  exact (Hrun _ ∅ Hno Hempty).
Defined.


(** ** Pause, shutdown and resume *)

Lemma set_State_back vm st :
  set_State (set_State vm st) (State vm) = vm.
Proof. by destruct vm. Qed.

Lemma ResumeVM_with_machine (c : vmRegistry) h vmID vm :
  c !! vmID = Some vm ->
  State vm = VM_STATE_PAUSED \/ State vm = VM_STATE_SHUTDOWN ->
  is_Some (Machine vm) -> resume_ok h = true ->
  ResumeVM c h vmID
  = (None, <[vmID := set_State vm VM_STATE_RUNNING]> c, [Call_ResumeVM vmID]).
Proof.
  intros Hvm Hst [m Hm] Hr. unfold ResumeVM, machine_for_resume. rewrite Hvm, Hm, Hr.
  by destruct Hst as [-> | ->].
Qed.

Lemma PauseVM_running (c : vmRegistry) h vmID vm :
  c !! vmID = Some vm -> State vm = VM_STATE_RUNNING ->
  is_Some (Machine vm) -> pause_ok h = true ->
  PauseVM c h vmID
  = (None, <[vmID := set_State vm VM_STATE_PAUSED]> c, [Call_PauseVM vmID]).
Proof.
  intros Hvm Hst [m Hm] Hp. unfold PauseVM. by rewrite Hvm, Hst, Hm, Hp.
Qed.

Lemma stop_then_resume (c : vmRegistry) h vmID vm st op :
  c !! vmID = Some vm -> State vm = VM_STATE_RUNNING ->
  is_Some (Machine vm) -> resume_ok h = true ->
  st = VM_STATE_PAUSED \/ st = VM_STATE_SHUTDOWN ->
  step c h op = (None, <[vmID := set_State vm st]> c, [Call_PauseVM vmID]) ->
  run c [(h, op); (h, OpResumeVM vmID)] = (c, [Call_PauseVM vmID; Call_ResumeVM vmID]).
Proof.
  intros Hvm Hst Hm Hr Hst' Hstep. cbn [run]. rewrite Hstep. cbn [step].
  rewrite (ResumeVM_with_machine _ h vmID (set_State vm st));
    [|apply lookup_insert_eq|done|done|done].
  unfold vmRegistry in *.
  rewrite insert_insert_eq, <- Hst, set_State_back, insert_id by done.
  reflexivity.
Qed.

(** To the VMM a shutdown, graceful or forced, is the pause that [PauseVM]
    is, and [ResumeVM] undoes each of them: on a Running VM with a handle,
    where the VMM accepts the two calls, pausing or shutting down and then
    resuming issues PauseVM and ResumeVM and leaves the registry as it
    was. *)
Theorem ResumeVM_undoes_pause_and_shutdown (c : vmRegistry) (h : host)
    (vmID : string) (vm : sdkV4VM) :
  c !! vmID = Some vm -> State vm = VM_STATE_RUNNING -> is_Some (Machine vm) ->
  pause_ok h = true -> resume_ok h = true ->
  run c [(h, OpPauseVM vmID); (h, OpResumeVM vmID)]
  = (c, [Call_PauseVM vmID; Call_ResumeVM vmID])
  /\ run c [(h, OpShutdownVM vmID); (h, OpResumeVM vmID)]
     = (c, [Call_PauseVM vmID; Call_ResumeVM vmID])
  /\ (forall force timeoutSeconds,
        run c [(h, OpShutdownVMWithOptions vmID force timeoutSeconds);
               (h, OpResumeVM vmID)]
        = (c, [Call_PauseVM vmID; Call_ResumeVM vmID])).
Proof.
  intros Hvm Hst Hm Hp Hr.
  assert (Hshut : forall force t,
            ShutdownVMWithOptions c h vmID force t
            = (None, <[vmID := set_State vm VM_STATE_SHUTDOWN]> c, [Call_PauseVM vmID])).
  { intros. apply LifecycleProofs.ShutdownVMWithOptions_success. exists vm. by eauto 10. }
  split; [|split; [|intros force t]].
  - apply (stop_then_resume c h vmID vm VM_STATE_PAUSED); try done; [by left|].
    by apply PauseVM_running.
  - apply (stop_then_resume c h vmID vm VM_STATE_SHUTDOWN); try done; [by right|].
    apply Hshut.
  - apply (stop_then_resume c h vmID vm VM_STATE_SHUTDOWN); try done; [by right|].
    apply Hshut.
Qed.

Lemma ResumeVM_undoes_pause_and_shutdown_witness :
  run running_registry
    [(calm_host, OpShutdownVMWithOptions "ud-0123456789abcdef" true 30);
     (calm_host, OpResumeVM "ud-0123456789abcdef")]
  = (running_registry,
     [Call_PauseVM "ud-0123456789abcdef"; Call_ResumeVM "ud-0123456789abcdef"]).
Proof.
  apply (ResumeVM_undoes_pause_and_shutdown running_registry calm_host
           "ud-0123456789abcdef" booted_vm).
  - vm_compute; reflexivity.
  - reflexivity.
  - eexists; reflexivity.
  - reflexivity.
  - reflexivity.
Defined.

(** ** What an operation on one VM leaves alone *)

Lemma ShutdownVMWithOptions_frame (c : vmRegistry) h vmID force t vmID' :
  vmID' <> vmID ->
  (ShutdownVMWithOptions c h vmID force t).1.2 !! vmID' = c !! vmID'.
Proof.
  intros Hne. unfold ShutdownVMWithOptions.
  destruct (c !! vmID) as [vm|]; [|done].
  destruct (bool_decide (State vm = VM_STATE_RUNNING)); cbn [negb]; [|done].
  destruct (Machine vm); [|done].
  destruct force, (pause_ok h); cbn [negb fst snd]; try done;
    unfold vmRegistry in *; by rewrite lookup_insert_ne.
Qed.

Lemma BootVM_frame (c : vmRegistry) h vmID vmID' :
  vmID' <> vmID -> (BootVM c h vmID).1.2 !! vmID' = c !! vmID'.
Proof.
  intros Hne. unfold BootVM.
  destruct (c !! vmID) as [vm|]; [|done].
  destruct (bool_decide (State vm = VM_STATE_CREATED)); cbn [negb]; [|done].
  destruct (log_create_ok h), (new_machine_ok h), (start_ok h); cbn [negb fst snd];
    try done; unfold vmRegistry in *; by rewrite lookup_insert_ne.
Qed.

Lemma step_frame (c : vmRegistry) h op vmID vmID' :
  target op = Some vmID -> vmID' <> vmID ->
  (step c h op).1.2 !! vmID' = c !! vmID'.
Proof.
  intros Ht Hne. destruct op; cbn [target] in Ht; try discriminate;
    injection Ht as ->; cbn [step].
  - by apply BootVM_frame.
  - unfold DeleteVM. destruct (c !! vmID); [|done]. cbn [fst snd].
    unfold vmRegistry in *. by rewrite lookup_delete_ne.
  - by apply ShutdownVMWithOptions_frame.
  - by apply ShutdownVMWithOptions_frame.
  - unfold PauseVM.
    destruct (c !! vmID) as [vm|]; [|done].
    destruct (bool_decide (State vm = VM_STATE_RUNNING)); cbn [negb]; [|done].
    destruct (Machine vm); [|done].
    destruct (pause_ok h); cbn [negb fst snd]; [|done].
    unfold vmRegistry in *. by rewrite lookup_insert_ne.
  - unfold ResumeVM.
    destruct (c !! vmID) as [vm|]; [|done].
    destruct (negb (bool_decide (State vm = VM_STATE_PAUSED))
              && negb (bool_decide (State vm = VM_STATE_SHUTDOWN))); [done|].
    destruct (machine_for_resume h vm) as [[[e|] vm'] tr]; cbn [fst snd];
      [unfold vmRegistry in *; by rewrite lookup_insert_ne|].
    destruct (resume_ok h); cbn [negb fst snd];
      unfold vmRegistry in *; by rewrite lookup_insert_ne.
  - unfold RebootVM.
    pose proof (ShutdownVMWithOptions_frame c h vmID false 30 vmID' Hne) as Hs.
    destruct (ShutdownVMWithOptions c h vmID false 30) as [[[e|] c'] tr];
      cbn [fst snd] in Hs |- *; [done|].
    pose proof (BootVM_frame c' h vmID vmID' Hne) as Hb.
    destruct (BootVM c' h vmID) as [[[e|] c''] tr']; cbn [fst snd] in Hb |- *;
      by rewrite Hb.
Qed.

Lemma step_missing (c : vmRegistry) h op vmID :
  target op = Some vmID -> c !! vmID = None ->
  exists e, step c h op = (Some e, c, []).
Proof.
  intros Ht Hvm. destruct op; cbn [target] in Ht; try discriminate;
    injection Ht as ->; cbn [step];
    unfold BootVM, DeleteVM, ShutdownVM, ShutdownVMWithOptions, PauseVM, ResumeVM,
      RebootVM, ShutdownVMWithOptions; rewrite Hvm; by eauto.
Qed.

(** An operation called for one VM leaves the record of every other VM as
    it was; called for a VM that is not registered, it returns an error,
    issues no call on the VMM and leaves the registry as it was. *)
Theorem operation_on_one_VM_frame (c : vmRegistry) (h : host) (op : operation)
    (vmID : string) :
  target op = Some vmID ->
  (forall vmID', vmID' <> vmID -> (step c h op).1.2 !! vmID' = c !! vmID')
  /\ (c !! vmID = None -> exists e, step c h op = (Some e, c, [])).
Proof.
  intros Ht. split; [intros; by apply (step_frame c h op vmID) | by apply step_missing].
Qed.

Lemma operation_on_one_VM_frame_witness :
  (step running_registry calm_host (OpDeleteVM "ud-ffffffffffffffff")).1.2
     !! "ud-0123456789abcdef"
  = running_registry !! "ud-0123456789abcdef"
  /\ exists e, step running_registry calm_host (OpDeleteVM "ud-ffffffffffffffff")
               = (Some e, running_registry, []).
Proof.
  destruct (operation_on_one_VM_frame running_registry calm_host
              (OpDeleteVM "ud-ffffffffffffffff") "ud-ffffffffffffffff" eq_refl)
    as [Hframe Hmissing].
  split.
  - apply Hframe. discriminate.
  - apply Hmissing. vm_compute; reflexivity.
Defined.


(** ** Booting *)

Lemma BootVM_success (c : vmRegistry) h vmID c' tr :
  BootVM c h vmID = (None, c', tr)
  <-> exists vm,
        c !! vmID = Some vm
        /\ State vm = VM_STATE_CREATED
        /\ log_create_ok h = true /\ new_machine_ok h = true /\ start_ok h = true
        /\ c' = <[vmID := mkVM (ID vm) VM_STATE_RUNNING (Some (machine_of vmID))
                            (NetworkInfo vm) true]> c
        /\ tr = [Call_NewMachine vmID; Call_Start vmID].
Proof.
  unfold BootVM. split.
  - destruct (c !! vmID) as [vm|]; [|done].
    destruct (bool_decide (State vm = VM_STATE_CREATED)) eqn:Hst; cbn [negb]; [|done].
    apply bool_decide_eq_true in Hst.
    destruct (log_create_ok h), (new_machine_ok h), (start_ok h); cbn [negb]; try done.
    intros [= <- <-]. exists vm. by eauto 10.
  - intros (vm & -> & Hst & -> & -> & -> & -> & ->).
    by rewrite bool_decide_eq_true_2.
Qed.

Lemma BootVM_failure (c : vmRegistry) h vmID vm e c' tr :
  c !! vmID = Some vm ->
  BootVM c h vmID = (Some e, c', tr) ->
  State <$> c' !! vmID = Some (State vm)
  /\ c' !! vmID ≫= Machine = Machine vm
  /\ (Call_NewMachine vmID ∈ tr -> Call_Cancel vmID ∈ tr).
Proof.
  intros Hvm. unfold BootVM. rewrite Hvm.
  destruct (bool_decide (State vm = VM_STATE_CREATED)); cbn [negb].
  2: { intros [= <- <- <-]. rewrite Hvm. split; [done|]. split; [done|].
       by intros ?%elem_of_nil. }
  destruct (log_create_ok h); cbn [negb].
  2: { intros [= <- <- <-]. rewrite Hvm. split; [done|]. split; [done|].
       by intros ?%elem_of_nil. }
  destruct (new_machine_ok h); cbn [negb].
  2: { intros [= <- <- <-]. unfold vmRegistry in *. rewrite lookup_insert_eq.
       split; [done|]. split; [done|]. intros _.
       apply list_elem_of_further, list_elem_of_here. }
  destruct (start_ok h); cbn [negb]; [done|].
  intros [= <- <- <-]. unfold vmRegistry in *. rewrite lookup_insert_eq.
  split; [done|]. split; [done|]. intros _.
  do 2 apply list_elem_of_further. apply list_elem_of_here.
Qed.

(** [BootVM] succeeds exactly on a record in Created state when the log
    file, the machine and its start succeed; the record is then Running
    with a handle and NewMachine and Start are the calls issued.  When it
    fails, the record keeps its state and its handle, the context made for
    a machine is cancelled, and a later [BootVM] of a Created record
    succeeds when the host lets it. *)
Theorem BootVM_boots_Created_and_can_be_retried (c : vmRegistry) (h : host)
    (vmID : string) :
  (forall c' tr,
     BootVM c h vmID = (None, c', tr)
     <-> exists vm,
           c !! vmID = Some vm
           /\ State vm = VM_STATE_CREATED
           /\ log_create_ok h = true /\ new_machine_ok h = true /\ start_ok h = true
           /\ c' = <[vmID := mkVM (ID vm) VM_STATE_RUNNING (Some (machine_of vmID))
                               (NetworkInfo vm) true]> c
           /\ tr = [Call_NewMachine vmID; Call_Start vmID])
  /\ (forall vm e c' tr,
        c !! vmID = Some vm ->
        BootVM c h vmID = (Some e, c', tr) ->
        State <$> c' !! vmID = Some (State vm)
        /\ c' !! vmID ≫= Machine = Machine vm
        /\ (Call_NewMachine vmID ∈ tr -> Call_Cancel vmID ∈ tr))
  /\ (forall vm e c' tr h',
        c !! vmID = Some vm -> State vm = VM_STATE_CREATED ->
        BootVM c h vmID = (Some e, c', tr) ->
        log_create_ok h' = true -> new_machine_ok h' = true -> start_ok h' = true ->
        exists c'', BootVM c' h' vmID
                    = (None, c'', [Call_NewMachine vmID; Call_Start vmID])).
Proof.
  split; [intros; apply BootVM_success|].
  split; [intros vm e c' tr; apply BootVM_failure|].
  intros vm e c' tr h' Hvm Hst Hfail Hl Hn Hs.
  destruct (BootVM_failure c h vmID vm e c' tr Hvm Hfail) as (Hst' & _ & _).
  destruct (c' !! vmID) as [vm'|] eqn:Hvm'; [|done].
  injection Hst' as Hst'.
  eexists. apply BootVM_success. exists vm'. rewrite Hst', Hst. by eauto 10.
Qed.

(** A host on which the machine cannot be made. *)
Lemma BootVM_boots_Created_and_can_be_retried_witness :
  exists c'',
    BootVM
      (BootVM (step ∅ calm_host OpCreateVM).1.2
         (mkHost None None (fun _ => None) true true true (fun _ => true)
            (fun _ => true) false true true true)
         "ud-0123456789abcdef").1.2
      calm_host "ud-0123456789abcdef"
    = (None, c'', [Call_NewMachine "ud-0123456789abcdef";
                   Call_Start "ud-0123456789abcdef"]).
Proof.
  destruct (BootVM_boots_Created_and_can_be_retried
              (step ∅ calm_host OpCreateVM).1.2
              (mkHost None None (fun _ => None) true true true (fun _ => true)
                 (fun _ => true) false true true true)
              "ud-0123456789abcdef") as (_ & _ & Hretry).
  apply (Hretry (mkVM "ud-0123456789abcdef" VM_STATE_CREATED None
                   (create_network calm_host "ud-0123456789abcdef") false)
           ErrCreateMachine _
           [Call_NewMachine "ud-0123456789abcdef"; Call_Cancel "ud-0123456789abcdef"]).
  - vm_compute; reflexivity.
  - reflexivity.
  - vm_compute; reflexivity.
  - reflexivity.
  - reflexivity.
  - reflexivity.
Defined.

(** ** Resuming a record that holds no handle *)

(** A Paused or Shutdown record without a VMM handle, as the restore from
    the database leaves it, is resumed by attaching to the socket of its
    process when there is one and it can be attached to; when there is no
    socket and assets, directory and network can be made, a new process is
    made, started and paused before the resume.  On either path the record
    is Running with a handle when the VMM accepts the resume; when it
    refuses, the call returns the resume error and the record keeps its
    state, now with the handle.  When the new machine cannot be made or
    started, or the recreation fails before, the call returns the
    recreation error, issues no resume and the record keeps its state and
    has no handle. *)
Theorem ResumeVM_without_handle (c : vmRegistry) (h : host) (vmID : string)
    (vm : sdkV4VM) :
  c !! vmID = Some vm ->
  State vm = VM_STATE_PAUSED \/ State vm = VM_STATE_SHUTDOWN ->
  Machine vm = None ->
  (socket_exists h (ID vm) = true -> attach_ok h (ID vm) = true ->
   ResumeVM c h vmID
   = if resume_ok h
     then (None,
           <[vmID := mkVM (ID vm) VM_STATE_RUNNING (Some (machine_of (ID vm)))
                       (NetworkInfo vm) (CancelFunc vm)]> c,
           [Call_NewMachine (ID vm); Call_ResumeVM vmID])
     else (Some ErrResume,
           <[vmID := mkVM (ID vm) (State vm) (Some (machine_of (ID vm)))
                       (NetworkInfo vm) (CancelFunc vm)]> c,
           [Call_NewMachine (ID vm); Call_ResumeVM vmID]))
  /\ (forall networkInfo,
        socket_exists h (ID vm) = false ->
        prepare_assets_ok h = true -> mkdir_ok h = true ->
        create_network h (ID vm) = Some networkInfo ->
        ResumeVM c h vmID
        = if negb (new_machine_ok h)
          then (Some (ErrRecreateForResume ErrRecreateMachine),
                <[vmID := mkVM (ID vm) (State vm) None (Some networkInfo)
                            (CancelFunc vm)]> c,
                [Call_NewMachine (ID vm)])
          else if negb (start_ok h)
          then (Some (ErrRecreateForResume ErrRecreateStart),
                <[vmID := mkVM (ID vm) (State vm) None (Some networkInfo)
                            (CancelFunc vm)]> c,
                [Call_NewMachine (ID vm); Call_Start (ID vm)])
          else if resume_ok h
          then (None,
                <[vmID := mkVM (ID vm) VM_STATE_RUNNING (Some (machine_of (ID vm)))
                            (Some networkInfo) (CancelFunc vm)]> c,
                [Call_NewMachine (ID vm); Call_Start (ID vm); Call_PauseVM (ID vm);
                 Call_ResumeVM vmID])
          else (Some ErrResume,
                <[vmID := mkVM (ID vm) (State vm) (Some (machine_of (ID vm)))
                            (Some networkInfo) (CancelFunc vm)]> c,
                [Call_NewMachine (ID vm); Call_Start (ID vm); Call_PauseVM (ID vm);
                 Call_ResumeVM vmID]))
  /\ (socket_exists h (ID vm) = false ->
      prepare_assets_ok h = false \/ mkdir_ok h = false
      \/ create_network h (ID vm) = None ->
      exists e, ResumeVM c h vmID = (Some (ErrRecreateForResume e), c, [])).
Proof.
  intros Hvm Hst Hm.
  assert (Hcheck : negb (bool_decide (State vm = VM_STATE_PAUSED))
                   && negb (bool_decide (State vm = VM_STATE_SHUTDOWN)) = false).
  { by destruct Hst as [-> | ->]. }
  assert (Hshape : vm = mkVM (ID vm) (State vm) None (NetworkInfo vm) (CancelFunc vm)).
  { destruct vm. cbn in *. by subst. }
  split; [|split].
  - intros Hs Ha. unfold ResumeVM, machine_for_resume, reconnectToFirecracker.
    rewrite Hvm, Hcheck, Hm, Hs, Ha. cbn [negb].
    destruct (resume_ok h); reflexivity.
  - intros n Hs Hp Hd Hn.
    unfold ResumeVM, machine_for_resume, reconnectToFirecracker, recreateVMForResume.
    rewrite Hvm, Hcheck, Hm, Hs. cbn [negb]. rewrite Hp, Hd, Hn.
    cbn [negb ID set_NetworkInfo].
    destruct (new_machine_ok h); cbn [negb].
    2: { rewrite Hshape at 1. reflexivity. }
    destruct (start_ok h); cbn [negb].
    2: { rewrite Hshape at 1. reflexivity. }
    destruct (resume_ok h); reflexivity.
  - intros Hs Hfail.
    unfold ResumeVM, machine_for_resume, reconnectToFirecracker, recreateVMForResume.
    rewrite Hvm, Hcheck, Hm, Hs. cbn [negb].
    unfold vmRegistry in *.
    destruct Hfail as [-> | [Hd | Hn]]; cbn [negb].
    + eexists. by rewrite insert_id.
    + destruct (prepare_assets_ok h); cbn [negb]; rewrite ?Hd; cbn [negb];
        eexists; by rewrite insert_id.
    + destruct (prepare_assets_ok h), (mkdir_ok h); cbn [negb]; rewrite ?Hn;
        eexists; by rewrite insert_id.
Qed.

Lemma ResumeVM_without_handle_witness :
  ResumeVM {[ "ud-0123456789abcdef" :=
                mkVM "ud-0123456789abcdef" VM_STATE_SHUTDOWN None None false ]}
    calm_host "ud-0123456789abcdef"
  = (None,
     <[ "ud-0123456789abcdef" :=
          mkVM "ud-0123456789abcdef" VM_STATE_RUNNING
            (Some (machine_of "ud-0123456789abcdef")) None false ]>
       {[ "ud-0123456789abcdef" :=
            mkVM "ud-0123456789abcdef" VM_STATE_SHUTDOWN None None false ]},
     [Call_NewMachine "ud-0123456789abcdef"; Call_ResumeVM "ud-0123456789abcdef"]).
Proof.
  apply (ResumeVM_without_handle
           {[ "ud-0123456789abcdef" :=
                mkVM "ud-0123456789abcdef" VM_STATE_SHUTDOWN None None false ]}
           calm_host "ud-0123456789abcdef"
           (mkVM "ud-0123456789abcdef" VM_STATE_SHUTDOWN None None false)).
  - vm_compute; reflexivity.
  - right; reflexivity.
  - reflexivity.
  - reflexivity.
  - reflexivity.
Defined.


(** ** The restore from the database *)

(** What the restore makes of one row. *)
Lemma restore_row_spec h (c : vmRegistry) tr dbVM c' tr' :
  restore_row h (c, tr) dbVM = (c', tr') ->
  (db_State dbVM = VM_STATE_CREATED \/ db_Config_decodes dbVM = false) /\ c' = c /\ tr' = tr
  \/ db_State dbVM <> VM_STATE_CREATED /\ db_Config_decodes dbVM = true
     /\ exists m,
          c' = <[db_ID dbVM := mkVM (db_ID dbVM) (db_State dbVM) m None false]> c
          /\ (m = None /\ tr' = tr
                /\ (db_State dbVM = VM_STATE_RUNNING ->
                    socket_exists h (db_ID dbVM) = false)
              \/ m = None /\ tr' = tr ++ [Call_NewMachine (db_ID dbVM)]
                 /\ db_State dbVM = VM_STATE_RUNNING
                 /\ socket_exists h (db_ID dbVM) = true
                 /\ attach_ok h (db_ID dbVM) = false
              \/ m = Some (machine_of (db_ID dbVM))
                 /\ tr' = tr ++ [Call_NewMachine (db_ID dbVM)]
                 /\ db_State dbVM = VM_STATE_RUNNING
                 /\ socket_exists h (db_ID dbVM) = true
                 /\ attach_ok h (db_ID dbVM) = true).
Proof.
  unfold restore_row.
  destruct (bool_decide (db_State dbVM = VM_STATE_CREATED)) eqn:Hc.
  { apply bool_decide_eq_true in Hc. intros [= <- <-]. left. by eauto. }
  apply bool_decide_eq_false in Hc.
  destruct (db_Config_decodes dbVM); cbn [negb].
  2: { intros [= <- <-]. left. by eauto. }
  destruct (bool_decide (db_State dbVM = VM_STATE_RUNNING)) eqn:Hr.
  2: { apply bool_decide_eq_false in Hr. intros [= <- <-]. right.
       split; [done|]. split; [done|]. exists None. split; [done|]. left. by eauto. }
  apply bool_decide_eq_true in Hr.
  unfold reconnectToFirecracker. cbn [ID].
  destruct (socket_exists h (db_ID dbVM)) eqn:Hs; cbn [negb].
  2: { intros [= <- <-]. right. split; [done|]. split; [done|]. exists None.
       split; [done|]. left. rewrite app_nil_r. by eauto. }
  destruct (attach_ok h (db_ID dbVM)) eqn:Ha; cbn [negb]; intros [= <- <-]; right;
    (split; [done|]); (split; [done|]).
  - exists (Some (machine_of (db_ID dbVM))). split; [done|]. right. right. by eauto 10.
  - exists None. split; [done|]. right. left. by eauto 10.
Qed.

Lemma restore_rows_spec h dbVMs : forall (c : vmRegistry) tr c' tr',
  fold_left (restore_row h) dbVMs (c, tr) = (c', tr') ->
  (forall vmID, is_Some (c !! vmID) -> is_Some (c' !! vmID))
  /\ (forall vmID vm, c' !! vmID = Some vm ->
        c !! vmID = Some vm
        \/ exists dbVM, dbVM ∈ dbVMs /\ db_ID dbVM = vmID
              /\ db_State dbVM <> VM_STATE_CREATED /\ db_Config_decodes dbVM = true
              /\ ID vm = vmID /\ State vm = db_State dbVM
              /\ NetworkInfo vm = None /\ CancelFunc vm = false
              /\ (is_Some (Machine vm) ->
                    db_State dbVM = VM_STATE_RUNNING
                    /\ socket_exists h vmID = true /\ attach_ok h vmID = true))
  /\ (forall dbVM, dbVM ∈ dbVMs -> db_State dbVM <> VM_STATE_CREATED ->
        db_Config_decodes dbVM = true -> is_Some (c' !! db_ID dbVM))
  /\ (forall call, call ∈ tr' ->
        call ∈ tr
        \/ exists dbVM, dbVM ∈ dbVMs /\ call = Call_NewMachine (db_ID dbVM)
              /\ db_State dbVM = VM_STATE_RUNNING
              /\ socket_exists h (db_ID dbVM) = true).
Proof.
  unfold vmRegistry.
  induction dbVMs as [|dbVM rest IH]; intros c tr c' tr'; cbn [fold_left].
  - intros [= <- <-]. split; [done|]. split; [by left|].
    split; [by intros ? ?%elem_of_nil | by left].
  - destruct (restore_row h (c, tr) dbVM) as [c1 tr1] eqn:Hrow.
    intros Hfold. apply IH in Hfold as (Hkeep & Hfrom & Hreg & Hcalls).
    apply restore_row_spec in Hrow. unfold vmRegistry in *.
    assert (Hkeep1 : forall vmID, is_Some (c !! vmID) -> is_Some (c1 !! vmID)).
    { intros vmID Hin.
      destruct Hrow as [(_ & -> & _) | (_ & _ & m & -> & _)]; [done|].
      destruct (decide (vmID = db_ID dbVM)) as [Heq|Hne].
      - subst vmID. rewrite lookup_insert_eq. by eexists.
      - by rewrite lookup_insert_ne. }
    split; [intros vmID Hin; by apply Hkeep, Hkeep1|].
    split; [|split].
    + intros vmID vm Hvm. destruct (Hfrom vmID vm Hvm) as [Hc1 | (r & Hr & Hrest)].
      2: { right. exists r. split; [by apply list_elem_of_further | done]. }
      destruct Hrow as [(_ & -> & _) | (Hnc & Hdec & m & -> & Hm)]; [by left|].
      destruct (decide (vmID = db_ID dbVM)) as [Heq|Hne].
      * subst vmID. rewrite lookup_insert_eq in Hc1. injection Hc1 as <-.
        right. exists dbVM. split; [apply list_elem_of_here|].
        repeat (split; [done|]). cbn [Machine].
        intros [m' Hm'].
        destruct Hm as [(-> & _) | [(-> & _) | (_ & _ & Hr & Hs & Ha)]]; done.
      * rewrite lookup_insert_ne in Hc1 by done. by left.
    + intros r [-> | Hr]%elem_of_cons Hnc Hdec; [|by apply Hreg].
      apply Hkeep.
      destruct Hrow as [([Hc | Hd] & _) | (_ & _ & m & -> & _)]; [done|congruence|].
      rewrite lookup_insert_eq. by eexists.
    + intros call Hcall. destruct (Hcalls call Hcall) as [Htr1 | (r & Hr & Hrest)].
      2: { right. exists r. split; [by apply list_elem_of_further | done]. }
      destruct Hrow as [(_ & _ & ->) | (_ & _ & m & _ & Hm)]; [by left|].
      destruct Hm as [(_ & -> & _) | [(_ & -> & Hr & Hs & _) | (_ & -> & Hr & Hs & _)]];
        [by left| |];
        (apply elem_of_app in Htr1 as [Htr | ->%list_elem_of_singleton]; [by left|];
         right; exists dbVM; split; [apply list_elem_of_here | done]).
Qed.

(** The registry one row leaves. *)
Lemma restore_row_registry h (c : vmRegistry) tr dbVM :
  (restore_row h (c, tr) dbVM).1
  = if restorable dbVM then <[db_ID dbVM := restored_record h dbVM]> c else c.
Proof.
  unfold restore_row, restorable, restored_record.
  destruct (bool_decide (db_State dbVM = VM_STATE_CREATED)); cbn [negb andb]; [done|].
  destruct (db_Config_decodes dbVM); cbn [negb]; [|done].
  destruct (bool_decide (db_State dbVM = VM_STATE_RUNNING)); cbn [andb]; [|done].
  unfold reconnectToFirecracker. cbn [ID].
  destruct (socket_exists h (db_ID dbVM)); cbn [negb andb]; [|done].
  by destruct (attach_ok h (db_ID dbVM)).
Qed.

(** The registry the rows leave: a restorable row replaces what was
    registered under its id. *)
Lemma restore_rows_lookup h dbVMs : forall (c : vmRegistry) tr c' tr',
  fold_left (restore_row h) dbVMs (c, tr) = (c', tr') ->
  (forall vmID,
      (forall dbVM, dbVM ∈ dbVMs -> restorable dbVM = true -> db_ID dbVM <> vmID) ->
      c' !! vmID = c !! vmID)
  /\ (forall dbVM, dbVM ∈ dbVMs -> restorable dbVM = true ->
        exists dbVM', dbVM' ∈ dbVMs /\ restorable dbVM' = true
          /\ db_ID dbVM' = db_ID dbVM
          /\ c' !! db_ID dbVM = Some (restored_record h dbVM')).
Proof.
  unfold vmRegistry.
  induction dbVMs as [|r rest IH]; intros c tr c' tr'; cbn [fold_left].
  - intros [= <- <-]. split; [done | by intros ? ?%elem_of_nil].
  - destruct (restore_row h (c, tr) r) as [c1 tr1] eqn:Hrow.
    assert (Hc1 : c1 = if restorable r then <[db_ID r := restored_record h r]> c else c).
    { exact (eq_trans (eq_sym (f_equal fst Hrow)) (restore_row_registry h c tr r)). }
    intros Hfold. apply IH in Hfold as [Hother Hrows]. unfold vmRegistry in *.
    split.
    + intros vmID Hno. rewrite Hother.
      2: { intros r' Hr'. apply Hno. by apply list_elem_of_further. }
      rewrite Hc1. destruct (restorable r) eqn:Hr; [|done].
      rewrite lookup_insert_ne; [done|]. apply Hno; [apply list_elem_of_here | done].
    + intros r0 Hin Hr0.
      destruct (decide (Exists (fun r' => restorable r' = true /\ db_ID r' = db_ID r0) rest))
        as [Hex | Hnex].
      * apply Exists_exists in Hex as (r1 & Hin1 & Hr1 & Hid1).
        destruct (Hrows r1 Hin1 Hr1) as (r' & Hin' & Hr' & Hid' & Hlook).
        exists r'. split; [by apply list_elem_of_further|]. split; [done|].
        split; [congruence|]. by rewrite <- Hid1.
      * assert (Hnone : forall r', r' ∈ rest -> restorable r' = true ->
                                   db_ID r' <> db_ID r0).
        { intros r' Hin' Hr' Hid. apply Hnex, Exists_exists. by exists r'. }
        apply elem_of_cons in Hin as [-> | Hin]; [|by destruct (Hnone r0 Hin Hr0)].
        exists r. split; [apply list_elem_of_here|]. split; [done|]. split; [done|].
        rewrite (Hother _ Hnone), Hc1, Hr0. by rewrite lookup_insert_eq.
Qed.

(** [Initialize] fails only when the VM table cannot be read, and then
    changes nothing.  Otherwise a row is restored when it is not in Created
    state and its configuration decodes, and the other rows are skipped.  A
    record whose id is the id of no restored row is kept as it is.  Under
    the id of a restored row the registry holds the record made from a
    restored row of that id, whatever was registered under it before: the
    state of the row, no network binding, no cancel function, and a handle
    only for a Running row whose socket exists and can be attached to.  No
    id is dropped, and the only calls issued are NewMachine for Running
    rows whose socket exists. *)
Theorem Initialize_restores_rows (c : vmRegistry) (h : host) :
  (db_list h = None -> Initialize c h = (Some (ErrRestoreVMs ErrQueryVMs), c, []))
  /\ (forall dbVMs, db_list h = Some dbVMs ->
        exists c' tr,
          Initialize c h = (None, c', tr)
          /\ (forall vmID,
                (forall dbVM, dbVM ∈ dbVMs -> restorable dbVM = true ->
                              db_ID dbVM <> vmID) ->
                c' !! vmID = c !! vmID)
          /\ (forall dbVM, dbVM ∈ dbVMs -> restorable dbVM = true ->
                exists dbVM', dbVM' ∈ dbVMs /\ restorable dbVM' = true
                  /\ db_ID dbVM' = db_ID dbVM
                  /\ c' !! db_ID dbVM = Some (restored_record h dbVM'))
          /\ (forall vmID, is_Some (c !! vmID) -> is_Some (c' !! vmID))
          /\ (forall call, call ∈ tr ->
                exists dbVM, dbVM ∈ dbVMs /\ call = Call_NewMachine (db_ID dbVM)
                  /\ db_State dbVM = VM_STATE_RUNNING
                  /\ socket_exists h (db_ID dbVM) = true)).
Proof.
  unfold Initialize, restoreVMsFromDatabase. split.
  - by intros ->.
  - intros dbVMs ->.
    destruct (fold_left (restore_row h) dbVMs (c, [])) as [c' tr] eqn:Hfold.
    pose proof (restore_rows_lookup _ _ _ _ _ _ Hfold) as [Hother Hrows].
    apply restore_rows_spec in Hfold as (Hkeep & _ & _ & Hcalls).
    exists c', tr. split; [done|]. split; [done|]. split; [done|]. split; [done|].
    intros call Hcall. destruct (Hcalls call Hcall) as [?%elem_of_nil | Hr]; done.
Qed.

Lemma Initialize_restores_rows_witness :
  exists c' tr,
    Initialize (<[ "ud-00000000000000aa" :=
                     mkVM "ud-00000000000000aa" VM_STATE_CREATED None None false ]>
                  running_registry)
      (mkHost None (Some [mkDbVM "ud-0123456789abcdef" VM_STATE_PAUSED true])
         (fun _ => None) true true true (fun _ => false) (fun _ => true)
         true true true true)
    = (None, c', tr)
    /\ running_registry !! "ud-0123456789abcdef" = Some booted_vm
    /\ c' !! "ud-0123456789abcdef"
       = Some (mkVM "ud-0123456789abcdef" VM_STATE_PAUSED None None false)
    /\ c' !! "ud-00000000000000aa"
       = Some (mkVM "ud-00000000000000aa" VM_STATE_CREATED None None false)
    /\ forall call, call ∈ tr -> False.
Proof.
  destruct (Initialize_restores_rows
              (<[ "ud-00000000000000aa" :=
                    mkVM "ud-00000000000000aa" VM_STATE_CREATED None None false ]>
                 running_registry)
              (mkHost None (Some [mkDbVM "ud-0123456789abcdef" VM_STATE_PAUSED true])
                 (fun _ => None) true true true (fun _ => false) (fun _ => true)
                 true true true true)) as [_ Hrows].
  destruct (Hrows _ eq_refl) as (c' & tr & Hinit & Hother & Hrow & _ & Hcalls).
  exists c', tr. split; [exact Hinit|]. split; [vm_compute; reflexivity|]. split; [|split].
  - destruct (Hrow (mkDbVM "ud-0123456789abcdef" VM_STATE_PAUSED true))
      as (r & Hin & _ & _ & Hlook);
      [apply list_elem_of_here | reflexivity |].
    apply list_elem_of_singleton in Hin. subst r. exact Hlook.
  - rewrite Hother.
    + vm_compute; reflexivity.
    + intros r Hin _. apply list_elem_of_singleton in Hin. subst r. discriminate.
  - intros call Hcall. destruct (Hcalls call Hcall) as (r & _ & _ & _ & Hs).
    discriminate Hs.
Defined.

End LifecycleLaws.

(** * Laws of the tenant MAC *)

Section TenantMACLaws.

Lemma tenant_mac_fields (h l a1 a2 a3 a4 a5 a6 : ascii) :
  let mac := ("02:" +:+ String h (String l EmptyString) +:+ ":4B") +:+ ":"
               +:+ (String a1 (String a2 EmptyString) +:+ ":"
                    +:+ String a3 (String a4 EmptyString) +:+ ":"
                    +:+ String a5 (String a6 EmptyString)) in
  substring 9 2 mac = String a1 (String a2 EmptyString)
  /\ substring 12 2 mac = String a3 (String a4 EmptyString)
  /\ substring 15 2 mac = String a5 (String a6 EmptyString).
Proof. repeat split; reflexivity. Qed.

Lemma hex_pair_inj x y : 0 <= x < 256 -> 0 <= y < 256 -> hex_pair x = hex_pair y -> x = y.
Proof.
  intros Hx Hy Heq.
  pose proof (Sscanf_02X_hex_pair x Hx) as Hsx.
  rewrite Heq, (Sscanf_02X_hex_pair y Hy) in Hsx. congruence.
Qed.

Lemma land_255 z : Z.land z 255 = z mod 256.
Proof. change 255 with (Z.ones 8). by rewrite Z.land_ones. Qed.

Lemma index_bytes (i : Z) :
  Z.land (Z.shiftr i 16) 255 = i / 65536 mod 256
  /\ Z.land (Z.shiftr i 8) 255 = i / 256 mod 256
  /\ Z.land i 255 = i mod 256.
Proof.
  rewrite !land_255, !Z.shiftr_div_pow2 by lia. done.
Qed.

Lemma index_of_bytes (i : Z) :
  i mod 16777216 = (i / 65536 mod 256) * 65536 + (i / 256 mod 256) * 256 + i mod 256.
Proof. Z.div_mod_to_equations. lia. Qed.

Lemma GenerateSequentialTenantMAC_text bridgeCount w vmIndex :
  0 < bridgeCount <= 256 ->
  GenerateSequentialTenantMAC bridgeCount w vmIndex
  = Some (("02:" +:+ hex_pair (FNV1a32 w mod bridgeCount) +:+ ":4B") +:+ ":"
            +:+ (hex_pair (vmIndex / 65536 mod 256) +:+ ":"
                 +:+ hex_pair (vmIndex / 256 mod 256) +:+ ":"
                 +:+ hex_pair (vmIndex mod 256))).
Proof.
  intros [Hpos Hle].
  destruct (GetBridgeForWorkspace_range bridgeCount w Hpos) as (b & Hb & -> & Hrange).
  unfold GenerateSequentialTenantMAC. rewrite Hb.
  destruct (index_bytes vmIndex) as (-> & -> & ->).
  pose proof (Z.mod_pos_bound (vmIndex / 65536) 256 ltac:(lia)).
  pose proof (Z.mod_pos_bound (vmIndex / 256) 256 ltac:(lia)).
  pose proof (Z.mod_pos_bound vmIndex 256 ltac:(lia)).
  by rewrite !fmt_02X_byte by lia.
Qed.

(** A sequential tenant MAC is [02:<bridge>:4B:] followed by the low 24
    bits of the VM index, most significant byte first; [ParseTenantFromMAC]
    reads the tenant's bridge back from it, [ValidateTenantMAC] accepts it
    for the tenant, and two indices give the same MAC exactly when they
    agree modulo 2^24. *)
Theorem GenerateSequentialTenantMAC_round_trip (bridgeCount : Z) (w : string)
    (vmIndex : Z) :
  0 < bridgeCount <= 256 ->
  exists mac,
    GenerateSequentialTenantMAC bridgeCount w vmIndex = Some mac
    /\ mac = "02:" +:+ hex_pair (FNV1a32 w mod bridgeCount) +:+ ":4B:"
               +:+ hex_pair (vmIndex / 65536 mod 256) +:+ ":"
               +:+ hex_pair (vmIndex / 256 mod 256) +:+ ":"
               +:+ hex_pair (vmIndex mod 256)
    /\ ParseTenantFromMAC mac = Ok (FNV1a32 w mod bridgeCount)
    /\ ValidateTenantMAC bridgeCount w mac = Ok tt
    /\ (forall vmIndex',
          GenerateSequentialTenantMAC bridgeCount w vmIndex' = Some mac
          <-> vmIndex' mod 16777216 = vmIndex mod 16777216).
Proof.
  intros Hbc. pose proof Hbc as [Hpos Hle].
  destruct (GetBridgeForWorkspace_range bridgeCount w Hpos) as (b & Hb & Hmod & Hrange).
  rewrite GenerateSequentialTenantMAC_text by done.
  eexists. split; [reflexivity|]. split; [reflexivity|].
  assert (Hparse : ParseTenantFromMAC
                     (("02:" +:+ hex_pair (FNV1a32 w mod bridgeCount) +:+ ":4B") +:+ ":"
                        +:+ (hex_pair (vmIndex / 65536 mod 256) +:+ ":"
                             +:+ hex_pair (vmIndex / 256 mod 256) +:+ ":"
                             +:+ hex_pair (vmIndex mod 256)))
                   = Ok (FNV1a32 w mod bridgeCount)).
  { apply ParseTenantFromMAC_tenant_format. lia. }
  split; [exact Hparse|]. split.
  - unfold ValidateTenantMAC. rewrite Hb, Hparse, Hmod, Z.eqb_refl. reflexivity.
  - intros j. rewrite GenerateSequentialTenantMAC_text by done.
    pose proof (Z.mod_pos_bound (vmIndex / 65536) 256 ltac:(lia)).
    pose proof (Z.mod_pos_bound (vmIndex / 256) 256 ltac:(lia)).
    pose proof (Z.mod_pos_bound vmIndex 256 ltac:(lia)).
    pose proof (Z.mod_pos_bound (j / 65536) 256 ltac:(lia)).
    pose proof (Z.mod_pos_bound (j / 256) 256 ltac:(lia)).
    pose proof (Z.mod_pos_bound j 256 ltac:(lia)).
    rewrite (index_of_bytes j), (index_of_bytes vmIndex). split.
    + intros Heq. apply (inj Some) in Heq.
      assert (Hb2 : hex_pair (j / 65536 mod 256) = hex_pair (vmIndex / 65536 mod 256)).
      { apply (f_equal (substring 9 2)) in Heq. exact Heq. }
      assert (Hb1 : hex_pair (j / 256 mod 256) = hex_pair (vmIndex / 256 mod 256)).
      { apply (f_equal (substring 12 2)) in Heq. exact Heq. }
      assert (Hb0 : hex_pair (j mod 256) = hex_pair (vmIndex mod 256)).
      { apply (f_equal (substring 15 2)) in Heq. exact Heq. }
      apply hex_pair_inj in Hb2, Hb1, Hb0; try lia.
    + intros Heq.
      assert (j / 65536 mod 256 = vmIndex / 65536 mod 256
              /\ j / 256 mod 256 = vmIndex / 256 mod 256
              /\ j mod 256 = vmIndex mod 256) as (-> & -> & ->); [|done].
      revert Heq. Z.div_mod_to_equations. lia.
Qed.

Lemma GenerateSequentialTenantMAC_round_trip_witness :
  exists mac,
    GenerateSequentialTenantMAC 8 "ws_A" 66051 = Some mac
    /\ mac = "02:" +:+ hex_pair (FNV1a32 "ws_A" mod 8) +:+ ":4B:"
               +:+ hex_pair (66051 / 65536 mod 256) +:+ ":"
               +:+ hex_pair (66051 / 256 mod 256) +:+ ":"
               +:+ hex_pair (66051 mod 256)
    /\ ParseTenantFromMAC mac = Ok (FNV1a32 "ws_A" mod 8)
    /\ ValidateTenantMAC 8 "ws_A" mac = Ok tt
    /\ (forall vmIndex',
          GenerateSequentialTenantMAC 8 "ws_A" vmIndex' = Some mac
          <-> vmIndex' mod 16777216 = 66051 mod 16777216).
Proof.
  apply (GenerateSequentialTenantMAC_round_trip 8 "ws_A" 66051). lia.
Defined.


(** A MAC generated for one tenant is accepted by [ValidateTenantMAC] for
    every tenant that hashes to the same bridge and rejected, with the two
    bridge numbers, for every tenant of another bridge: the MAC names the
    bridge, not the tenant. *)
Theorem ValidateTenantMAC_names_the_bridge (bridgeCount : Z) (x y : string)
    (d0 d1 d2 : ascii) (mac : string) :
  0 < bridgeCount <= 256 ->
  GenerateTenantMAC bridgeCount x (Some (d0, d1, d2)) = Ok mac ->
  ValidateTenantMAC bridgeCount y mac
  = if FNV1a32 x mod bridgeCount =? FNV1a32 y mod bridgeCount then Ok tt
    else Err (ErrMACBridgeMismatch (FNV1a32 x mod bridgeCount)
                (FNV1a32 y mod bridgeCount)).
Proof.
  intros Hbc Hgen. pose proof Hbc as [Hpos Hle].
  destruct (GetBridgeForWorkspace_range bridgeCount x Hpos) as (bx & Hbx & -> & Hrx).
  destruct (GetBridgeForWorkspace_range bridgeCount y Hpos) as (b & Hb & -> & Hry).
  pose proof (byte_val_range d0). pose proof (byte_val_range d1).
  pose proof (byte_val_range d2).
  unfold GenerateTenantMAC in Hgen. rewrite Hbx in Hgen.
  rewrite !fmt_02X_byte in Hgen by lia. injection Hgen as <-.
  unfold ValidateTenantMAC. rewrite Hb.
  rewrite ParseTenantFromMAC_tenant_format by lia.
  by destruct (Z.eqb_spec (FNV1a32 x mod bridgeCount) (FNV1a32 y mod bridgeCount)).
Qed.

Lemma ValidateTenantMAC_names_the_bridge_witness :
  ValidateTenantMAC 8 "ws_B" "02:03:4B:61:62:63"
  = if FNV1a32 "ws_A" mod 8 =? FNV1a32 "ws_B" mod 8 then Ok tt
    else Err (ErrMACBridgeMismatch (FNV1a32 "ws_A" mod 8) (FNV1a32 "ws_B" mod 8)).
Proof.
  apply (ValidateTenantMAC_names_the_bridge 8 "ws_A" "ws_B" "a" "b" "c").
  - lia.
  - vm_compute; reflexivity.
Defined.

End TenantMACLaws.

(** * Laws of the allocation inside the tenant /29 *)

Section AllocationLaws.
Context `{L : Library}.

Lemma AllocateIPForWorkspace_config mbm w e d :
  let mbm' := (AllocateIPForWorkspace mbm w e d).1.2 in
  bridgeCount mbm' = bridgeCount mbm /\ bridgePrefix mbm' = bridgePrefix mbm.
Proof.
  unfold AllocateIPForWorkspace. cbv zeta. repeat case_match; simplify_eq; done.
Qed.

Lemma allocation_in_use_fun mbm w e a a' :
  allocation_in_use mbm w e a -> allocation_in_use mbm w e a' -> a = a'.
Proof.
  unfold allocation_in_use. destruct (workspaces mbm !! w); [congruence|].
  intros (b & Hb & ->) (b' & Hb' & ->). congruence.
Qed.

(** A call on a valid record: the address, and the record afterwards. *)
Lemma AllocateIPForWorkspace_next mbm w e d a :
  allocation_in_use mbm w e a ->
  0 <= BridgeNumber a < bridgeCount mbm ->
  BridgeNumber a <= 255 ->
  WorkspaceID a <> "" ->
  0 <= VMCount a < 5 ->
  BridgeName a = bridge_name (bridgePrefix mbm) (BridgeNumber a) ->
  saves e ->
  exists mbm' d',
    AllocateIPForWorkspace mbm w e d
    = (Ok (slot_address (BridgeNumber a) (FNV1a32 w mod 32) (VMCount a),
           bridge_name (bridgePrefix mbm) (BridgeNumber a)), mbm', d')
    /\ workspaces mbm' !! w = Some (set_VMCount a (VMCount a + 1))
    /\ bridgeCount mbm' = bridgeCount mbm
    /\ bridgePrefix mbm' = bridgePrefix mbm.
Proof.
  intros Hin Hb Hb255 Hid Hk Hname Hsave.
  destruct (AllocateIPForWorkspace_succeeds mbm w e d a Hin Hb Hb255 Hid Hk Hname)
    as (mbm' & d' & Hcall); [intros m; apply Hsave|].
  exists mbm', d'. split; [exact Hcall|].
  pose proof (AllocateIPForWorkspace_config mbm w e d) as Hcfg.
  rewrite Hcall in Hcfg. cbn in Hcfg.
  apply AllocateIPForWorkspace_Ok_inv in Hcall
    as (a0 & Hin0 & _ & _ & _ & _ & _ & _ & Hw' & _).
  rewrite (allocation_in_use_fun _ _ _ _ _ Hin Hin0). by destruct Hcfg.
Qed.

Lemma AllocateIPForWorkspace_at_five mbm w e d a :
  workspaces mbm !! w = Some a ->
  VMCount a = 5 -> 0 <= BridgeNumber a < bridgeCount mbm -> WorkspaceID a <> "" ->
  AllocateIPForWorkspace mbm w e d
  = (Err (ErrBridgeAllocationValidationFailed (ErrVMCountExceedsCapacity 5)), mbm, d).
Proof.
  intros Hw Hk Hb Hid. unfold AllocateIPForWorkspace. rewrite Hw.
  unfold validateBridgeAllocation. rewrite Hk.
  destruct (Z.ltb_spec (BridgeNumber a) 0); [lia|].
  destruct (Z.leb_spec (bridgeCount mbm) (BridgeNumber a)); [lia|].
  cbn [orb]. by destruct (String.eqb_spec (WorkspaceID a) "").
Qed.

(** A tenant that the manager does not know yet gets, from six calls in a
    row, the five addresses base+2 .. base+6 of its slot in this order, on
    the bridge it hashes to, and then the capacity error; the VM count is 5
    at the end.  This holds for every non-empty workspace id, with 1 to 256
    bridges, as long as the state can be saved. *)
Theorem AllocateIPForWorkspace_five_then_full (mbm : MultiBridgeManager)
    (w : string) (e : env) (d : disk) :
  workspaces mbm !! w = None ->
  w <> "" ->
  0 < bridgeCount mbm <= 256 ->
  saves e ->
  let b := FNV1a32 w mod bridgeCount mbm in
  let s := FNV1a32 w mod 32 in
  let name := bridge_name (bridgePrefix mbm) b in
  (allocate_times 6 mbm w e d).1.1
  = [Ok (slot_address b s 0, name); Ok (slot_address b s 1, name);
     Ok (slot_address b s 2, name); Ok (slot_address b s 3, name);
     Ok (slot_address b s 4, name);
     Err (ErrBridgeAllocationValidationFailed (ErrVMCountExceedsCapacity 5))]
  /\ VMCount <$> workspaces (allocate_times 6 mbm w e d).1.2 !! w = Some 5.
Proof.
  intros Hnew Hid [Hpos Hle] Hsave b s name.
  destruct (GetBridgeForWorkspace_range (bridgeCount mbm) w Hpos)
    as (b0 & Hb0 & Hmod & Hrange).
  fold b in Hmod. subst b0.
  set (a0 := mkWorkspaceAllocation w b name ∅ (now_rfc3339 e) 0).
  assert (Hin0 : allocation_in_use mbm w e a0).
  { unfold allocation_in_use. rewrite Hnew. by exists b. }
  assert (Hstep : forall k mbmk dk,
            0 <= k < 5 ->
            workspaces mbmk !! w = Some (set_VMCount a0 k) ->
            bridgeCount mbmk = bridgeCount mbm ->
            bridgePrefix mbmk = bridgePrefix mbm ->
            exists mbm' d',
              AllocateIPForWorkspace mbmk w e dk
              = (Ok (slot_address b s k, name), mbm', d')
              /\ workspaces mbm' !! w = Some (set_VMCount a0 (k + 1))
              /\ bridgeCount mbm' = bridgeCount mbm
              /\ bridgePrefix mbm' = bridgePrefix mbm).
  { intros k mbmk dk Hk Hwk Hc Hp.
    destruct (AllocateIPForWorkspace_next mbmk w e dk (set_VMCount a0 k))
      as (mbm' & d' & Hcall & Hw' & Hc' & Hp'); cbn; rewrite ?Hc, ?Hp; try done; try lia.
    { unfold allocation_in_use. by rewrite Hwk. }
    exists mbm', d'. cbn in Hcall, Hw'. rewrite Hp in Hcall.
    split; [exact Hcall|]. split; [exact Hw'|]. split; congruence. }
  destruct (AllocateIPForWorkspace_next mbm w e d a0)
    as (m1 & d1 & Hc1 & Hw1 & Hbc1 & Hp1); cbn; try done; try lia.
  cbn in Hc1, Hw1.
  destruct (Hstep 1 m1 d1) as (m2 & d2 & Hc2 & Hw2 & Hbc2 & Hp2); try done; try lia.
  destruct (Hstep 2 m2 d2) as (m3 & d3 & Hc3 & Hw3 & Hbc3 & Hp3); try done; try lia.
  destruct (Hstep 3 m3 d3) as (m4 & d4 & Hc4 & Hw4 & Hbc4 & Hp4); try done; try lia.
  destruct (Hstep 4 m4 d4) as (m5 & d5 & Hc5 & Hw5 & Hbc5 & Hp5); try done; try lia.
  cbn in Hw2, Hw3, Hw4, Hw5.
  pose proof (AllocateIPForWorkspace_at_five m5 w e d5 _ Hw5 eq_refl) as Hc6.
  cbn in Hc6. rewrite Hbc5 in Hc6. specialize (Hc6 Hrange Hid).
  cbn [allocate_times]. rewrite Hc1, Hc2, Hc3, Hc4, Hc5, Hc6. cbn [fst snd].
  split; [reflexivity|]. by rewrite Hw5.
Qed.

End AllocationLaws.

Lemma example_library_saves : saves (L := example_library) example_env.
Proof. intros mbm d. reflexivity. Qed.

Lemma AllocateIPForWorkspace_five_then_full_witness :
  (allocate_times (L := example_library) 6 example_manager "ws_A"
     example_env example_disk).1.1
  = [Ok ([172; 16; 3; 154], "br-vms-3"); Ok ([172; 16; 3; 155], "br-vms-3");
     Ok ([172; 16; 3; 156], "br-vms-3"); Ok ([172; 16; 3; 157], "br-vms-3");
     Ok ([172; 16; 3; 158], "br-vms-3");
     Err (ErrBridgeAllocationValidationFailed (ErrVMCountExceedsCapacity 5))].
Proof.
  apply (AllocateIPForWorkspace_five_then_full (L := example_library)
           example_manager "ws_A" example_env example_disk).
  - reflexivity.
  - discriminate.
  - cbn; lia.
  - intros mbm d. reflexivity.
Defined.
Section AllocationErrors.
Context `{L : Library}.

(** What a call that returns an error leaves behind. *)
Lemma AllocateIPForWorkspace_Err_inv mbm w e d err mbm' d' :
  AllocateIPForWorkspace mbm w e d = (Err err, mbm', d') ->
  VMCount <$> workspaces mbm' !! w = Some (default 0 (VMCount <$> workspaces mbm !! w))
  /\ (forall w', w' <> w -> workspaces mbm' !! w' = workspaces mbm !! w')
  /\ state_file d' = state_file d.
Proof.
  unfold AllocateIPForWorkspace.
  destruct (match workspaces mbm !! w with
            | Some allocation => Some (mbm, allocation)
            | None => _ end) as [[mbm1 a]|] eqn:Hpre; [|discriminate].
  assert (H1 : workspaces mbm1 !! w = Some a
               /\ VMCount a = default 0 (VMCount <$> workspaces mbm !! w)
               /\ (forall w', w' <> w -> workspaces mbm1 !! w' = workspaces mbm !! w')).
  { destruct (workspaces mbm !! w) as [stored|] eqn:Hw.
    - by simplify_eq.
    - destruct (GetBridgeForWorkspace (bridgeCount mbm) w) as [b|]; [|discriminate].
      simplify_eq. cbn. split; [apply lookup_insert_eq|]. split; [done|].
      intros w' Hne. by rewrite lookup_insert_ne. }
  destruct H1 as (Hw1 & Hcount & Hframe). clear Hpre.
  assert (Hkeep : VMCount <$> workspaces mbm1 !! w
                  = Some (default 0 (VMCount <$> workspaces mbm !! w))).
  { by rewrite Hw1, <- Hcount. }
  destruct (validateBridgeAllocation mbm1 a) eqn:Hv; [by intros [= <- <- <-]|].
  apply validateBridgeAllocation_None in Hv as (Hbn & Hid & Hk & Hname).
  destruct (Z.le_gt_cases (BridgeNumber a) 255) as [Hb255|Hb255].
  2: { rewrite ParseCIDR_bridge_subnet by lia.
       destruct (Z.leb_spec (BridgeNumber a) 255); [lia|]. by intros [= <- <- <-]. }
  rewrite ParseCIDR_bridge_subnet by lia.
  destruct (Z.leb_spec (BridgeNumber a) 255); [|lia].
  destruct (Z.leb_spec 5 (VMCount a)); [lia|].
  pose proof (Z.mod_pos_bound (FNV1a32 w) 32 ltac:(lia)) as Hs.
  rewrite (wrap64_id (FNV1a32 w mod 32 * 8 + 2 + VMCount a)) by (unfold in_int64; lia).
  rewrite (wrap64_id (VMCount a + 1)) by (unfold in_int64; lia).
  rewrite validateVMIPAllocation_slot by lia.
  cbn [net_IP length].
  unfold add_byte_at.
  change (byte_at [?a; ?b; ?c; ?x] 3) with x.
  change (<[3%nat := ?v]> [?a; ?b; ?c; ?x]) with [a; b; c; v].
  unfold byte_of. rewrite Z.add_0_l, Z.mod_mod by lia.
  rewrite (Z.mod_small (FNV1a32 w mod 32 * 8 + 2 + VMCount a) 256) by lia.
  rewrite (Contains_last_octet 172 16 (BridgeNumber a) 0 _ 0)
    by (by rewrite !Z.land_0_r).
  cbn [negb BridgeNumber set_VMCount].
  rewrite validateIPWithinWorkspaceSubnet_slot by lia.
  destruct (saveState _ e d) as [[c|] d''] eqn:Hsave; [|discriminate].
  intros [= <- <- <-].
  split; [|split].
  - cbn. rewrite lookup_insert_eq. cbn. rewrite <- Hcount. f_equal.
    rewrite wrap64_id by (unfold in_int64; lia). lia.
  - intros w' Hne. cbn. rewrite !lookup_insert_ne by done. by apply Hframe.
  - unfold saveState in Hsave. repeat case_match; by simplify_eq.
Qed.

(** Whatever error [AllocateIPForWorkspace] returns, validation or
    persistence, the tenant's VM count is what it was before the call (0 for
    a tenant the call has just registered), the records of the other
    tenants are untouched and the state file holds what it held: the count
    is raised only by a call that returns an address. *)
Theorem AllocateIPForWorkspace_error_keeps_count (mbm : MultiBridgeManager)
    (w : string) (e : env) (d : disk) (err : mb_error)
    (mbm' : MultiBridgeManager) (d' : disk) :
  AllocateIPForWorkspace mbm w e d = (Err err, mbm', d') ->
  VMCount <$> workspaces mbm' !! w = Some (default 0 (VMCount <$> workspaces mbm !! w))
  /\ (forall w', w' <> w -> workspaces mbm' !! w' = workspaces mbm !! w')
  /\ state_file d' = state_file d.
Proof. apply AllocateIPForWorkspace_Err_inv. Qed.
End AllocationErrors.

(** The save fails at the rename: the count goes back to what it was. *)
Lemma AllocateIPForWorkspace_error_keeps_count_witness :
  exists err mbm' d',
    AllocateIPForWorkspace (L := example_library) one_vm_manager "ws_A"
      (mkEnv 1700000000 "2025-01-01T00:00:00Z" RenameFails false) example_disk
    = (Err err, mbm', d')
    /\ VMCount <$> workspaces mbm' !! "ws_A" = Some 1
    /\ state_file d' = None.
Proof.
  eexists _, _, _.
  assert (Hcall :
    AllocateIPForWorkspace (L := example_library) one_vm_manager "ws_A"
      (mkEnv 1700000000 "2025-01-01T00:00:00Z" RenameFails false) example_disk
    = (Err (ErrPersistIPAllocation ErrRenameStateFile),
       (AllocateIPForWorkspace (L := example_library) one_vm_manager "ws_A"
          (mkEnv 1700000000 "2025-01-01T00:00:00Z" RenameFails false) example_disk).1.2,
       (AllocateIPForWorkspace (L := example_library) one_vm_manager "ws_A"
          (mkEnv 1700000000 "2025-01-01T00:00:00Z" RenameFails false) example_disk).2))
    by (vm_compute; reflexivity).
  split; [exact Hcall|].
  destruct (AllocateIPForWorkspace_error_keeps_count (L := example_library)
              _ _ _ _ _ _ _ Hcall) as (Hcount & _ & Hfile).
  split; [exact Hcount | exact Hfile].
Defined.

Section ReleaseLaws.
Context `{L : Library}.

Lemma with_maps_same mbm : with_maps mbm (workspaces mbm) (bridgeUsage mbm) = mbm.
Proof. by destruct mbm. Qed.

Lemma set_workspace_twice mbm w a a' :
  set_workspace (set_workspace mbm w a) w a' = set_workspace mbm w a'.
Proof.
  unfold set_workspace, with_maps. cbn. by rewrite insert_insert_eq.
Qed.

Lemma set_workspace_same mbm w a :
  workspaces mbm !! w = Some a -> set_workspace mbm w a = mbm.
Proof.
  intros Hw. unfold set_workspace. rewrite insert_id by done. apply with_maps_same.
Qed.

Lemma set_VMCount_back a n : set_VMCount (set_VMCount a n) (VMCount a) = a.
Proof. by destruct a. Qed.

(** A call on a stored record that returns an address: the manager
    afterwards. *)
Lemma AllocateIPForWorkspace_stored_Ok mbm w e d a ip name mbm' d' :
  workspaces mbm !! w = Some a ->
  AllocateIPForWorkspace mbm w e d = (Ok (ip, name), mbm', d') ->
  0 <= VMCount a < 5
  /\ mbm' = set_workspace mbm w (set_VMCount a (VMCount a + 1))
  /\ validateBridgeAllocation mbm a = None.
Proof.
  intros Hw. unfold AllocateIPForWorkspace. rewrite Hw.
  destruct (validateBridgeAllocation mbm a) eqn:Hv; [discriminate|].
  pose proof Hv as Hv'.
  apply validateBridgeAllocation_None in Hv as (Hbn & Hid & Hk & Hname).
  rewrite (wrap64_id (VMCount a + 1)) by (unfold in_int64; lia).
  repeat case_match; intros; simplify_eq. done.
Qed.

(** [ReleaseIPForWorkspace] on a known tenant, when the state is saved. *)
Lemma ReleaseIPForWorkspace_Ok mbm w ip e d a :
  workspaces mbm !! w = Some a ->
  (saveState (set_workspace mbm w
                (if 0 <? VMCount a then set_VMCount a (wrap64 (VMCount a - 1)) else a))
     e d).1 = None ->
  exists d',
    ReleaseIPForWorkspace mbm w ip e d
    = (Ok tt,
       set_workspace mbm w
         (if 0 <? VMCount a then set_VMCount a (wrap64 (VMCount a - 1)) else a), d').
Proof.
  intros Hw Hsave. unfold ReleaseIPForWorkspace. rewrite Hw. cbv zeta.
  destruct (saveState _ e d) as [[c|] d'']; [discriminate|]. by eauto.
Qed.

(** [ReleaseIPForWorkspace] takes back what [AllocateIPForWorkspace] did to
    a stored record.  In an environment where saving the state never fails:
    after an allocation, a release, for whatever address, returns the
    manager to what it was before the allocation, so that the next
    allocation issues the same address again; and a tenant whose count is 0
    keeps it.  When the save of the release fails, for a stored count
    between 0 and 5, the call returns the persistence error and adds one
    to the count it has just written: a count of 1 to 5 is what it was, a
    count of 0 becomes 1.  The address passed is not looked at, and a
    tenant the manager does not know is an error with nothing changed. *)
Theorem ReleaseIPForWorkspace_undoes_allocation (mbm : MultiBridgeManager)
    (w : string) (e : env) (d : disk) :
  (forall a ip name mbm1 d1 ip',
     workspaces mbm !! w = Some a ->
     AllocateIPForWorkspace mbm w e d = (Ok (ip, name), mbm1, d1) ->
     saves e ->
     exists d2,
       ReleaseIPForWorkspace mbm1 w ip' e d1 = (Ok tt, mbm, d2)
       /\ (AllocateIPForWorkspace mbm w e d2).1.1 = Ok (ip, name))
  /\ (forall a ip,
        workspaces mbm !! w = Some a -> VMCount a = 0 -> saves e ->
        exists d', ReleaseIPForWorkspace mbm w ip e d = (Ok tt, mbm, d'))
  /\ (forall a ip c d',
        workspaces mbm !! w = Some a -> 0 <= VMCount a <= 5 ->
        saveState (set_workspace mbm w
                     (if 0 <? VMCount a then set_VMCount a (VMCount a - 1) else a))
          e d = (Some c, d') ->
        ReleaseIPForWorkspace mbm w ip e d
        = (Err (ErrPersistIPRelease c),
           set_workspace mbm w
             (set_VMCount a (if 0 <? VMCount a then VMCount a else 1)), d'))
  /\ (forall ip,
        workspaces mbm !! w = None ->
        ReleaseIPForWorkspace mbm w ip e d = (Err (ErrWorkspaceNotFound w), mbm, d)).
Proof.
  split; [|split; [|split]].
  - intros a ip name mbm1 d1 ip' Hw Hcall Hsave.
    pose proof Hcall as Hcall'.
    apply (AllocateIPForWorkspace_stored_Ok _ _ _ _ a) in Hcall' as (Hk & -> & Hv);
      [|done].
    apply validateBridgeAllocation_None in Hv as (Hbn & Hid & _ & Hname).
    destruct (ReleaseIPForWorkspace_Ok
                (set_workspace mbm w (set_VMCount a (VMCount a + 1))) w ip' e d1
                (set_VMCount a (VMCount a + 1))) as (d2 & Hrel).
    { cbn. apply lookup_insert_eq. }
    { apply Hsave. }
    exists d2. split.
    + rewrite Hrel. f_equal. f_equal. cbn [VMCount set_VMCount].
      destruct (Z.ltb_spec 0 (VMCount a + 1)); [|lia].
      rewrite set_workspace_twice.
      replace (wrap64 (VMCount a + 1 - 1)) with (VMCount a)
        by (rewrite wrap64_id; [lia | unfold in_int64; lia]).
      apply set_workspace_same. rewrite Hw. f_equal. by destruct a.
    + apply AllocateIPForWorkspace_Ok_inv in Hcall
        as (a0 & Hin & _ & Hb255 & _ & _ & -> & -> & _).
      unfold allocation_in_use in Hin. rewrite Hw in Hin. subst a0.
      destruct (AllocateIPForWorkspace_succeeds mbm w e d2 a) as (m & d3 & ->);
        try done.
      unfold allocation_in_use. by rewrite Hw.
  - intros a ip Hw Hk Hsave.
    destruct (ReleaseIPForWorkspace_Ok mbm w ip e d a Hw) as (d' & Hrel);
      [apply Hsave|].
    exists d'. rewrite Hrel, Hk. cbn. by rewrite set_workspace_same.
  - intros a ip c d' Hw Hk Hsave. unfold ReleaseIPForWorkspace. rewrite Hw. cbv zeta.
    destruct (Z.ltb_spec 0 (VMCount a)) as [Hpos | Hzero].
    + rewrite (wrap64_id (VMCount a - 1)) by (unfold in_int64; lia).
      rewrite Hsave, set_workspace_twice. cbn [VMCount set_VMCount].
      replace (VMCount a - 1 + 1) with (VMCount a) by lia.
      rewrite (wrap64_id (VMCount a)) by (unfold in_int64; lia).
      by destruct a.
    + rewrite Hsave, set_workspace_twice.
      replace (VMCount a) with 0 by lia. reflexivity.
  - intros ip Hw. unfold ReleaseIPForWorkspace. by rewrite Hw.
Qed.
End ReleaseLaws.

Lemma ReleaseIPForWorkspace_undoes_allocation_witness :
  (exists d2,
     ReleaseIPForWorkspace (L := example_library)
       (AllocateIPForWorkspace (L := example_library)
          one_vm_manager "ws_A" example_env example_disk).1.2
       "ws_A" [172; 16; 3; 154] example_env
       (AllocateIPForWorkspace (L := example_library)
          one_vm_manager "ws_A" example_env example_disk).2
     = (Ok tt, one_vm_manager, d2)
     /\ (AllocateIPForWorkspace (L := example_library)
           one_vm_manager "ws_A" example_env d2).1.1
        = Ok ([172; 16; 3; 155], "br-vms-3"))
  /\ ReleaseIPForWorkspace (L := example_library) reloaded_manager "ws_A"
       [172; 16; 0; 154] (mkEnv 1700000000 "2025-01-01T00:00:00Z" WriteFails false)
       example_disk
     = (Err (ErrPersistIPRelease ErrWriteStateFile),
        set_workspace reloaded_manager "ws_A"
          (mkWorkspaceAllocation "ws_A" 0 "br-vms-0" ∅ "2025-01-01T00:00:00Z" 1),
        example_disk).
Proof.
  split.
  - destruct (ReleaseIPForWorkspace_undoes_allocation (L := example_library)
                one_vm_manager "ws_A" example_env example_disk) as (Hundo & _ & _ & _).
    apply (Hundo (mkWorkspaceAllocation "ws_A" 3 "br-vms-3" ∅ "2025-01-01T00:00:00Z" 1)).
    + vm_compute; reflexivity.
    + vm_compute; reflexivity.
    + intros mbm d. reflexivity.
  - destruct (ReleaseIPForWorkspace_undoes_allocation (L := example_library)
                reloaded_manager "ws_A"
                (mkEnv 1700000000 "2025-01-01T00:00:00Z" WriteFails false) example_disk)
      as (_ & _ & Hfail & _).
    apply (Hfail (mkWorkspaceAllocation "ws_A" 0 "br-vms-0" ∅ "2025-01-01T00:00:00Z" 0)).
    + vm_compute; reflexivity.
    + cbn; lia.
    + vm_compute; reflexivity.
Defined.

Section CountLaws.
Context `{L : Library}.

Lemma counts_in_range_set_workspace mbm w a :
  counts_in_range mbm -> 0 <= VMCount a <= 5 ->
  counts_in_range (set_workspace mbm w a).
Proof.
  intros Hinv Ha w' a'. cbn. destruct (decide (w' = w)) as [Heq|Hne].
  - subst w'. rewrite lookup_insert_eq. by intros [= <-].
  - rewrite lookup_insert_ne by done. apply Hinv.
Qed.

Lemma AllocateIPForWorkspace_counts mbm w e d :
  counts_in_range mbm -> counts_in_range (AllocateIPForWorkspace mbm w e d).1.2.
Proof.
  intros Hinv. unfold AllocateIPForWorkspace.
  destruct (match workspaces mbm !! w with
            | Some allocation => Some (mbm, allocation)
            | None => _ end) as [[mbm1 a]|] eqn:Hpre; [|done].
  assert (H1 : counts_in_range mbm1).
  { destruct (workspaces mbm !! w) as [stored|] eqn:Hw.
    - by simplify_eq.
    - destruct (GetBridgeForWorkspace (bridgeCount mbm) w) as [b|]; [|discriminate].
      simplify_eq.
      apply (counts_in_range_set_workspace mbm w
               (mkWorkspaceAllocation w b (bridge_name (bridgePrefix mbm) b) ∅
                  (now_rfc3339 e) 0)); [done|cbn; lia]. }
  clear Hpre.
  destruct (validateBridgeAllocation mbm1 a) eqn:Hv; [done|].
  apply validateBridgeAllocation_None in Hv as (Hbn & Hid & Hk & Hname).
  destruct (Z.le_gt_cases (BridgeNumber a) 255) as [Hb255|Hb255].
  2: { rewrite ParseCIDR_bridge_subnet by lia.
       by destruct (Z.leb_spec (BridgeNumber a) 255); [lia|]. }
  rewrite ParseCIDR_bridge_subnet by lia.
  destruct (Z.leb_spec (BridgeNumber a) 255); [|lia].
  destruct (Z.leb_spec 5 (VMCount a)); [lia|].
  pose proof (Z.mod_pos_bound (FNV1a32 w) 32 ltac:(lia)) as Hs.
  rewrite (wrap64_id (FNV1a32 w mod 32 * 8 + 2 + VMCount a)) by (unfold in_int64; lia).
  rewrite (wrap64_id (VMCount a + 1)) by (unfold in_int64; lia).
  rewrite validateVMIPAllocation_slot by lia.
  cbn [net_IP length].
  unfold add_byte_at.
  change (byte_at [?a; ?b; ?c; ?x] 3) with x.
  change (<[3%nat := ?v]> [?a; ?b; ?c; ?x]) with [a; b; c; v].
  unfold byte_of. rewrite Z.add_0_l, Z.mod_mod by lia.
  rewrite (Z.mod_small (FNV1a32 w mod 32 * 8 + 2 + VMCount a) 256) by lia.
  rewrite (Contains_last_octet 172 16 (BridgeNumber a) 0 _ 0)
    by (by rewrite !Z.land_0_r).
  cbn [negb BridgeNumber set_VMCount].
  rewrite validateIPWithinWorkspaceSubnet_slot by lia.
  destruct (saveState _ e d) as [[c|] d'']; cbn [fst snd].
  - apply counts_in_range_set_workspace; [apply counts_in_range_set_workspace|];
      cbn; rewrite ?wrap64_id by (unfold in_int64; lia); try done; lia.
  - apply counts_in_range_set_workspace; [done|]. cbn. lia.
Qed.

Lemma ReleaseIPForWorkspace_counts mbm w ip e d :
  counts_in_range mbm -> counts_in_range (ReleaseIPForWorkspace mbm w ip e d).1.2.
Proof.
  intros Hinv. unfold ReleaseIPForWorkspace.
  destruct (workspaces mbm !! w) as [a|] eqn:Hw; [|done].
  pose proof (Hinv w a Hw) as Hk. cbv zeta.
  destruct (saveState _ e d) as [[c|] d'']; cbn [fst snd];
    destruct (Z.ltb_spec 0 (VMCount a));
    repeat apply counts_in_range_set_workspace; try done; cbn;
    rewrite ?wrap64_id by (unfold in_int64; cbn; rewrite ?wrap64_id by (unfold in_int64; lia); lia);
    cbn; rewrite ?wrap64_id by (unfold in_int64; lia); lia.
Qed.

(** The VM count of every tenant stays between 0 and 5 under
    [AllocateIPForWorkspace] and [ReleaseIPForWorkspace], whatever they
    return: a release never takes a count below 0, an allocation never
    takes it above 5, and the rollback after a failed save stays inside
    these bounds. *)
Theorem VM_counts_stay_in_range (mbm : MultiBridgeManager) (w : string)
    (e : env) (d : disk) :
  counts_in_range mbm ->
  counts_in_range (AllocateIPForWorkspace mbm w e d).1.2
  /\ (forall ip, counts_in_range (ReleaseIPForWorkspace mbm w ip e d).1.2).
Proof.
  intros Hinv. split; [by apply AllocateIPForWorkspace_counts|].
  intros ip. by apply ReleaseIPForWorkspace_counts.
Qed.
End CountLaws.

Lemma VM_counts_stay_in_range_witness :
  counts_in_range one_vm_manager
  /\ counts_in_range
       (ReleaseIPForWorkspace (L := example_library) one_vm_manager "ws_A"
          [172; 16; 3; 154] example_env example_disk).1.2.
Proof.
  assert (Hinv : counts_in_range one_vm_manager).
  { intros w a. unfold one_vm_manager.
    change (workspaces _)
      with ({[ "ws_A" := mkWorkspaceAllocation "ws_A" 3 "br-vms-3" ∅
                            "2025-01-01T00:00:00Z" 1 ]}
            : gmap string WorkspaceAllocation).
    intros [_ <-]%lookup_singleton_Some. cbn. lia. }
  split; [exact Hinv|].
  apply (VM_counts_stay_in_range (L := example_library)
           one_vm_manager "ws_A" example_env example_disk Hinv).
Defined.

Section AddressLaws.
Context `{L : Library}.

Lemma slot_address_inj b s k b' s' k' :
  0 <= k < 5 -> 0 <= k' < 5 ->
  slot_address b s k = slot_address b' s' k' <-> b = b' /\ s = s' /\ k = k'.
Proof.
  intros Hk Hk'. unfold slot_address. split.
  - intros [= -> Heq]. split; [done|]. lia.
  - by intros (-> & -> & ->).
Qed.

(** Two calls that return an address return the same one exactly when they
    are on the same bridge, in the same tenant slot (the hash modulo 32)
    and at the same VM count.  The address tells the bridge, the slot and
    the count, and tenants whose hashes agree modulo 32 on one bridge are
    issued the same addresses. *)
Theorem AllocateIPForWorkspace_same_address
    (mbm1 mbm2 : MultiBridgeManager) (w1 w2 : string) (e1 e2 : env) (d1 d2 : disk)
    (ip1 ip2 : IP) (name1 name2 : string) (mbm1' mbm2' : MultiBridgeManager)
    (d1' d2' : disk) :
  AllocateIPForWorkspace mbm1 w1 e1 d1 = (Ok (ip1, name1), mbm1', d1') ->
  AllocateIPForWorkspace mbm2 w2 e2 d2 = (Ok (ip2, name2), mbm2', d2') ->
  exists b1 k1 b2 k2,
    bridge_and_count mbm1 w1 b1 k1
    /\ bridge_and_count mbm2 w2 b2 k2
    /\ ip1 = slot_address b1 (FNV1a32 w1 mod 32) k1
    /\ ip2 = slot_address b2 (FNV1a32 w2 mod 32) k2
    /\ (ip1 = ip2
        <-> b1 = b2 /\ FNV1a32 w1 mod 32 = FNV1a32 w2 mod 32 /\ k1 = k2).
Proof.
  intros H1 H2.
  apply AllocateIPForWorkspace_Ok_inv in H1
    as (a1 & Hin1 & Hbn1 & _ & Hk1 & _ & _ & -> & _).
  apply AllocateIPForWorkspace_Ok_inv in H2
    as (a2 & Hin2 & Hbn2 & _ & Hk2 & _ & _ & -> & _).
  assert (Hbc : forall mbm w e a,
            allocation_in_use mbm w e a -> 0 <= BridgeNumber a < bridgeCount mbm ->
            bridge_and_count mbm w (BridgeNumber a) (VMCount a)).
  { intros mbm w e a Hin Hbn. unfold allocation_in_use, bridge_and_count in *.
    destruct (workspaces mbm !! w); [by subst|].
    destruct Hin as (b & Hb & ->). cbn in *. split; [|done].
    unfold GetBridgeForWorkspace, go_rem in Hb.
    destruct (bridgeCount mbm =? 0); [done|]. injection Hb as <-.
    pose proof (FNV1a32_range w). apply Z.rem_mod_nonneg; lia. }
  exists (BridgeNumber a1), (VMCount a1), (BridgeNumber a2), (VMCount a2).
  split; [by eapply Hbc|]. split; [by eapply Hbc|].
  split; [reflexivity|]. split; [reflexivity|].
  by apply (slot_address_inj (BridgeNumber a1) (FNV1a32 w1 mod 32) (VMCount a1)).
Qed.
End AddressLaws.

(** ws_3 and ws_10 hash to slot 9 and, of 8 bridges, to bridge 1. *)
Lemma AllocateIPForWorkspace_same_address_witness :
  exists b1 k1 b2 k2,
    bridge_and_count example_manager "ws_3" b1 k1
    /\ bridge_and_count example_manager "ws_10" b2 k2
    /\ [172; 16; 1; 74] = slot_address b1 (FNV1a32 "ws_3" mod 32) k1
    /\ [172; 16; 1; 74] = slot_address b2 (FNV1a32 "ws_10" mod 32) k2
    /\ ([172; 16; 1; 74] = [172; 16; 1; 74]
        <-> b1 = b2 /\ FNV1a32 "ws_3" mod 32 = FNV1a32 "ws_10" mod 32 /\ k1 = k2).
Proof.
  apply (AllocateIPForWorkspace_same_address (L := example_library)
           example_manager example_manager "ws_3" "ws_10"
           example_env example_env example_disk example_disk
           [172; 16; 1; 74] [172; 16; 1; 74] "br-vms-1" "br-vms-1"
           (AllocateIPForWorkspace (L := example_library)
              example_manager "ws_3" example_env example_disk).1.2
           (AllocateIPForWorkspace (L := example_library)
              example_manager "ws_10" example_env example_disk).1.2
           (AllocateIPForWorkspace (L := example_library)
              example_manager "ws_3" example_env example_disk).2
           (AllocateIPForWorkspace (L := example_library)
              example_manager "ws_10" example_env example_disk).2).
  - vm_compute; reflexivity.
  - vm_compute; reflexivity.
Defined.

(** * Laws of the project VLANs *)

Section VLANLaws.
Context `{L : Library}.

(** [GetVLANForProject] returns a VLAN number inside the manager's range,
    both ends included, for every project id, when the range is not empty
    and starts at 0 or above; for a range inside 1..4094, as the
    constructor's 100..4000, the number passes [validateVLANID]. *)
Theorem GetVLANForProject_in_range (mbm : MultiBridgeManager) (projectID : string) :
  0 <= vlanRangeStart mbm <= vlanRangeEnd mbm ->
  vlanRangeEnd mbm < 2 ^ 31 ->
  exists v,
    GetVLANForProject mbm projectID = Some v
    /\ v = vlanRangeStart mbm
           + FNV1a32 projectID mod (vlanRangeEnd mbm - vlanRangeStart mbm + 1)
    /\ vlanRangeStart mbm <= v <= vlanRangeEnd mbm
    /\ (1 <= vlanRangeStart mbm -> vlanRangeEnd mbm <= 4094 -> validateVLANID v = None).
Proof.
  intros Hrange Hend. unfold GetVLANForProject.
  set (n := vlanRangeEnd mbm - vlanRangeStart mbm + 1).
  assert (Hn : 0 < n < 2 ^ 32) by (unfold n; lia).
  rewrite (wrap64_id (vlanRangeEnd mbm - vlanRangeStart mbm)) by (unfold in_int64; lia).
  fold n. assert (Hdef : n = vlanRangeEnd mbm - vlanRangeStart mbm + 1) by done.
  clearbody n. rewrite (wrap64_id n) by (unfold in_int64; lia).
  unfold uint32_of. rewrite (Z.mod_small n) by lia. unfold go_rem.
  destruct (Z.eqb_spec n 0); [lia|].
  pose proof (FNV1a32_range projectID) as Hh.
  rewrite Z.rem_mod_nonneg by lia.
  pose proof (Z.mod_pos_bound (FNV1a32 projectID) n ltac:(lia)) as Hm.
  rewrite wrap64_id by (unfold in_int64; lia).
  eexists. split; [reflexivity|]. split; [lia|]. split; [lia|].
  intros Hs He. unfold validateVLANID.
  destruct (Z.ltb_spec (FNV1a32 projectID mod n + vlanRangeStart mbm) 1); [lia|].
  destruct (Z.ltb_spec 4094 (FNV1a32 projectID mod n + vlanRangeStart mbm));
    [lia|]. reflexivity.
Qed.

(** [GetOrCreateProjectVLAN] is idempotent: the VLAN it returns is stored
    under the project in the tenant's record, which is the record it
    returns, and a second call returns the same VLAN and the same record and
    changes nothing.  Other tenants and the other projects of the tenant
    are left as they were, and a VLAN the call creates starts at index 0
    on the /27 that [calculateVLANSubnet] gives for the tenant's bridge and
    the project's VLAN number. *)
Theorem GetOrCreateProjectVLAN_idempotent (mbm : MultiBridgeManager)
    (w p : string) (mbm1 : MultiBridgeManager) (vlan : ProjectVLAN)
    (ws : WorkspaceAllocation) :
  GetOrCreateProjectVLAN mbm w p = Some (mbm1, vlan, ws) ->
  workspaces mbm1 !! w = Some ws
  /\ ProjectVLANs ws !! p = Some vlan
  /\ GetOrCreateProjectVLAN mbm1 w p = Some (mbm1, vlan, ws)
  /\ (forall w', w' <> w -> workspaces mbm1 !! w' = workspaces mbm !! w')
  /\ (forall p', p' <> p ->
        ProjectVLANs ws !! p'
        = workspaces mbm !! w ≫= fun a => ProjectVLANs a !! p')
  /\ (workspaces mbm !! w ≫= (fun a => ProjectVLANs a !! p) = None ->
      ProjectID vlan = p /\ NextVMIndex vlan = 0
      /\ GetVLANForProject mbm p = Some (VLANNumber vlan)
      /\ SubnetCIDR vlan = calculateVLANSubnet (BridgeNumber ws) (VLANNumber vlan)).
Proof.
  unfold GetOrCreateProjectVLAN.
  destruct (workspaces mbm !! w) as [stored|] eqn:Hw.
  - destruct (ProjectVLANs stored !! p) as [v|] eqn:Hp.
    + intros [= <- <- <-]. rewrite Hw, Hp. cbn. rewrite Hp. by repeat split.
    + destruct (GetVLANForProject mbm p) as [n|] eqn:Hn; [|discriminate].
      intros [= <- <- <-]. cbn. rewrite lookup_insert_eq. cbn.
      rewrite !lookup_insert_eq.
      split; [done|]. split; [done|]. split; [done|].
      split; [intros w' Hne; by rewrite lookup_insert_ne|].
      split; [intros p' Hne; by rewrite lookup_insert_ne|]. done.
  - destruct (GetBridgeForWorkspace (bridgeCount mbm) w) as [b|] eqn:Hb; [|discriminate].
    cbn [ProjectVLANs]. rewrite lookup_empty.
    change (GetVLANForProject (track_bridge_usage _ _ _) p)
      with (GetVLANForProject mbm p).
    destruct (GetVLANForProject mbm p) as [n|] eqn:Hn; [|discriminate].
    intros [= <- <- <-]. cbn. rewrite !lookup_insert_eq. cbn.
    rewrite !lookup_insert_eq.
    split; [done|]. split; [done|]. split; [done|].
    split; [intros w' Hne; by rewrite !lookup_insert_ne|].
    split; [intros p' Hne; by rewrite lookup_insert_ne, lookup_empty|]. done.
Qed.
End VLANLaws.

Lemma GetVLANForProject_in_range_witness :
  exists v,
    GetVLANForProject example_manager "p" = Some v
    /\ v = 100 + FNV1a32 "p" mod (4000 - 100 + 1)
    /\ 100 <= v <= 4000
    /\ (1 <= 100 -> 4000 <= 4094 -> validateVLANID v = None).
Proof.
  apply (GetVLANForProject_in_range example_manager "p"); cbn; lia.
Defined.

Lemma GetOrCreateProjectVLAN_idempotent_witness :
  exists mbm1 vlan ws,
    GetOrCreateProjectVLAN example_manager "ws_A" "p" = Some (mbm1, vlan, ws)
    /\ GetOrCreateProjectVLAN mbm1 "ws_A" "p" = Some (mbm1, vlan, ws)
    /\ NextVMIndex vlan = 0.
Proof.
  destruct (GetOrCreateProjectVLAN example_manager "ws_A" "p")
    as [[[mbm1 vlan] ws]|] eqn:Hcall; [|vm_compute in Hcall; discriminate].
  exists mbm1, vlan, ws. split; [reflexivity|].
  destruct (GetOrCreateProjectVLAN_idempotent example_manager "ws_A" "p" mbm1 vlan ws
              Hcall) as (_ & _ & Hagain & _ & _ & Hnew).
  split; [exact Hagain|]. apply Hnew. reflexivity.
Defined.

Section VLANAddressLaws.
Context `{L : Library}.

Lemma calculateVLANSubnet_parses b v :
  0 <= b <= 255 -> 0 <= v ->
  ParseCIDR (calculateVLANSubnet b v)
  = Some (v4InV6Prefix ++ [172; 16; b; v mod 8 * 32],
          mkIPNet [172; 16; b; v mod 8 * 32] [255; 255; 255; 224]).
Proof.
  intros Hb Hv. unfold calculateVLANSubnet.
  rewrite Z.rem_mod_nonneg by lia.
  pose proof (Z.mod_pos_bound v 8 ltac:(lia)) as Hm.
  rewrite (ParseCIDR_172_16 b (v mod 8 * 32) "27" 27) by (done || lia).
  destruct (Z.leb_spec 0 b); [|lia]. destruct (Z.leb_spec b 255); [|lia].
  destruct (Z.leb_spec 0 (v mod 8 * 32)); [|lia].
  destruct (Z.leb_spec (v mod 8 * 32) 255); [|lia].
  cbn [andb]. f_equal. f_equal.
  change (CIDRMask 27 32) with [255; 255; 255; 224]. cbn [and_bytes].
  rewrite (land_byte b) by lia. rewrite land_224 by lia.
  rewrite Z.div_mul by lia. reflexivity.
Qed.

(** A project VLAN on the /27 that [calculateVLANSubnet] gives issues the
    addresses at offsets 2 to 30 of the /27, one per call and in this order,
    each inside the /27; the call advances the VLAN's index by one and
    nothing else.  From index 29 on the call reports the VLAN full and
    changes nothing. *)
Theorem AllocateVMIP_issues_next_address (mbm : MultiBridgeManager) (w p : string)
    (stored : WorkspaceAllocation) (vlan : ProjectVLAN) (b v : Z) :
  workspaces mbm !! w = Some stored ->
  ProjectVLANs stored !! p = Some vlan ->
  SubnetCIDR vlan = calculateVLANSubnet b v ->
  0 <= b <= 255 -> 0 <= v ->
  0 <= NextVMIndex vlan < 2 ^ 62 ->
  let i := NextVMIndex vlan in
  let network := mkIPNet [172; 16; b; v mod 8 * 32] [255; 255; 255; 224] in
  (i <= 28 ->
   AllocateVMIP mbm w p
   = (Ok ([172; 16; b; v mod 8 * 32 + 2 + i], BridgeName stored),
      set_project_vlan mbm w p stored (set_NextVMIndex vlan (i + 1)))
   /\ Contains network [172; 16; b; v mod 8 * 32 + 2 + i] = true
   /\ v mod 8 * 32 + 2 <= v mod 8 * 32 + 2 + i <= v mod 8 * 32 + 30)
  /\ (29 <= i -> AllocateVMIP mbm w p = (Err (ErrProjectVLANFull p), mbm)).
Proof.
  intros Hw Hp Hcidr Hb Hv Hi i network.
  pose proof (Z.mod_pos_bound v 8 ltac:(lia)) as Hm.
  assert (Hget : GetOrCreateProjectVLAN mbm w p = Some (mbm, vlan, stored)).
  { unfold GetOrCreateProjectVLAN. by rewrite Hw, Hp. }
  unfold AllocateVMIP. rewrite Hget, Hcidr, calculateVLANSubnet_parses by done.
  rewrite (wrap64_id (2 + NextVMIndex vlan)) by (unfold in_int64; lia).
  cbn [net_IP length]. fold i. split.
  - intros Hle. destruct (Z.ltb_spec 30 (2 + i)); [lia|].
    destruct (vlan_address_inside b (v mod 8) (2 + i)) as [Hadd Hin]; [lia|lia|].
    rewrite Hadd, Hin. cbn [negb].
    rewrite (wrap64_id (i + 1)) by (unfold in_int64; lia).
    rewrite Z.add_assoc. split; [reflexivity|]. split; [|lia].
    subst network. by rewrite <- Z.add_assoc.
  - intros Hge. by destruct (Z.ltb_spec 30 (2 + i)); [|lia].
Qed.
End VLANAddressLaws.

Lemma AllocateVMIP_issues_next_address_witness :
  AllocateVMIP (L := example_library) vlan_manager "ws_A" "p"
  = (Ok ([172; 16; 3; 101 mod 8 * 32 + 2 + 28], "br-vms-3"),
     set_project_vlan vlan_manager "ws_A" "p"
       (mkWorkspaceAllocation "ws_A" 3 "br-vms-3" {[ "p" := vlan_at_28 ]}
          "2025-01-01T00:00:00Z" 0)
       (set_NextVMIndex vlan_at_28 (28 + 1))).
Proof.
  destruct (AllocateVMIP_issues_next_address (L := example_library)
              vlan_manager "ws_A" "p"
              (mkWorkspaceAllocation "ws_A" 3 "br-vms-3" {[ "p" := vlan_at_28 ]}
                 "2025-01-01T00:00:00Z" 0)
              vlan_at_28 3 101) as [Hnext _].
  - vm_compute; reflexivity.
  - vm_compute; reflexivity.
  - reflexivity.
  - lia.
  - lia.
  - cbn; lia.
  - apply Hnext. cbn; lia.
Defined.

(** ** The state of the fabric: what the validator accepts *)

Lemma first_error_None {K A} `{Countable K} (check : K -> A -> option mb_error)
    (m : gmap K A) :
  first_error check m = None <-> (forall k a, m !! k = Some a -> check k a = None).
Proof.
  unfold first_error.
  apply (map_fold_weak_ind (fun r (m : gmap K A) =>
    r = None <-> (forall k a, m !! k = Some a -> check k a = None))).
  - split; [|done]. intros _ k a Hk. by rewrite lookup_empty in Hk.
  - intros i x m' r Hi IH. split.
    + intros Hr k a Hk. destruct r as [err|]; [done|].
      destruct (decide (i = k)) as [Heq|Hne].
      * subst k. rewrite lookup_insert_eq in Hk. by simplify_eq.
      * rewrite lookup_insert_ne in Hk by done. by apply IH.
    + intros Hall. destruct r as [err|].
      * assert (Hnone : Some err = None); [|done].
        apply IH. intros k a Hk. apply Hall.
        rewrite lookup_insert_ne; [done|]. intros ->. by rewrite Hi in Hk.
      * apply Hall. by rewrite lookup_insert_eq.
Qed.

Lemma expectedUsage_lookup (wss : gmap string (option WorkspaceAllocationJSON)) b w :
  default ∅ (expectedUsage wss !! b) !! w
  = match wss !! w with
    | Some (Some ws) => if bool_decide (jBridgeNumber ws = b) then Some true else None
    | _ => None
    end.
Proof.
  unfold expectedUsage.
  apply (map_fold_weak_ind (fun (acc : gmap Z (gmap string bool))
                                (m : gmap string (option WorkspaceAllocationJSON)) =>
    default ∅ (acc !! b) !! w
    = match m !! w with
      | Some (Some ws) => if bool_decide (jBridgeNumber ws = b) then Some true else None
      | _ => None
      end)).
  - by rewrite !lookup_empty.
  - intros i x m' acc Hi IH. destruct x as [ws|].
    + destruct (decide (jBridgeNumber ws = b)) as [Hb|Hb].
      * subst b. rewrite lookup_insert_eq. cbn [default from_option id].
        destruct (decide (i = w)) as [Heq|Hne].
        -- subst w. rewrite !lookup_insert_eq. by rewrite bool_decide_eq_true_2.
        -- rewrite !lookup_insert_ne by done. exact IH.
      * rewrite lookup_insert_ne by done.
        destruct (decide (i = w)) as [Heq|Hne].
        -- subst w. rewrite lookup_insert_eq, bool_decide_eq_false_2 by done.
           rewrite IH, Hi. done.
        -- rewrite lookup_insert_ne by done. exact IH.
    + destruct (decide (i = w)) as [Heq|Hne].
      * subst w. rewrite lookup_insert_eq. by rewrite IH, Hi.
      * rewrite lookup_insert_ne by done. exact IH.
Qed.

Lemma expectedUsage_nonempty (wss : gmap string (option WorkspaceAllocationJSON)) b u :
  expectedUsage wss !! b = Some u -> u <> ∅.
Proof.
  unfold expectedUsage. revert b u.
  apply (map_fold_weak_ind (fun (acc : gmap Z (gmap string bool))
                                (m : gmap string (option WorkspaceAllocationJSON)) =>
    forall b u, acc !! b = Some u -> u <> ∅)).
  - intros b u Hb. by rewrite lookup_empty in Hb.
  - intros i x m' acc Hi IH b u. destruct x as [ws|]; [|apply IH].
    destruct (decide (jBridgeNumber ws = b)) as [Hb|Hb].
    + subst b. rewrite lookup_insert_eq. intros [= <-]. apply insert_non_empty.
    + rewrite lookup_insert_ne by done. apply IH.
Qed.

Lemma same_keys_same_size {A B} (u : gmap string A) (v : gmap string B) :
  (forall w, is_Some (u !! w) <-> is_Some (v !! w)) -> size u = size v.
Proof.
  intros Hkeys. rewrite <- !(size_dom (D := gset string)).
  f_equal. apply set_eq. intros w. rewrite !elem_of_dom. apply Hkeys.
Qed.

Lemma fewer_keys_same_size {A B} (u : gmap string A) (v : gmap string B) w :
  (forall w, is_Some (u !! w) -> is_Some (v !! w)) -> size u = size v ->
  is_Some (v !! w) -> is_Some (u !! w).
Proof.
  intros Hsub Hsize Hw.
  assert (Hdom : dom u = dom v :> gset string).
  { apply set_subseteq_size_eq.
    - intros x. rewrite !elem_of_dom. apply Hsub.
    - rewrite !size_dom. lia. }
  apply elem_of_dom. rewrite Hdom. by apply elem_of_dom.
Qed.

Section FabricLaws.
Context `{L : Library}.

Lemma validateProjectVLAN_None mbm p vlan :
  validateProjectVLAN mbm p (Some vlan) = None <-> vlan_ok mbm p vlan.
Proof.
  unfold validateProjectVLAN, vlan_ok.
  destruct (String.eqb_spec (ProjectID vlan) p) as [Hp|Hp]; cbn [negb].
  2: { split; [done|]. by intros (? & _). }
  destruct (Z.ltb_spec (VLANNumber vlan) (vlanRangeStart mbm)); cbn [orb].
  { split; [done|]. intros (_ & ? & _). lia. }
  destruct (Z.ltb_spec (vlanRangeEnd mbm) (VLANNumber vlan)).
  { split; [done|]. intros (_ & ? & _). lia. }
  destruct (String.eqb_spec (SubnetCIDR vlan) "").
  { split; [done|]. by intros (_ & _ & ? & _). }
  destruct (bool_decide_reflect (is_Some (ParseCIDR (SubnetCIDR vlan)))); cbn [negb].
  2: { split; [done|]. by intros (_ & _ & _ & ? & _). }
  destruct (Z.ltb_spec (NextVMIndex vlan) 0).
  { split; [done|]. intros (_ & _ & _ & _ & ?). lia. }
  destruct (Z.ltb_spec 30 (NextVMIndex vlan)).
  { split; [done|]. intros (_ & _ & _ & _ & ?). lia. }
  split; [intros _|done]. repeat split; try done; lia.
Qed.

Lemma validateWorkspace_None mbm w a :
  validateWorkspace mbm w (Some (to_json a)) = None <-> record_ok mbm w a.
Proof.
  unfold validateWorkspace, record_ok.
  cbn [to_json jWorkspaceID jBridgeNumber jBridgeName jProjectVLANs jCreatedAt jVMCount].
  destruct (String.eqb_spec (WorkspaceID a) w) as [Hw|Hw]; cbn [negb].
  2: { split; [done|]. by intros (? & _). }
  destruct (Z.ltb_spec (BridgeNumber a) 0); cbn [orb].
  { split; [done|]. intros (_ & ? & _). lia. }
  destruct (Z.leb_spec (bridgeCount mbm) (BridgeNumber a)).
  { split; [done|]. intros (_ & ? & _). lia. }
  destruct (String.eqb_spec (BridgeName a)
              (bridge_name (bridgePrefix mbm) (BridgeNumber a))); cbn [negb].
  2: { split; [done|]. by intros (_ & _ & ? & _). }
  destruct (Z.ltb_spec (VMCount a) 0).
  { split; [done|]. intros (_ & _ & _ & ? & _). lia. }
  destruct (first_error _ (Some <$> ProjectVLANs a)) as [err|] eqn:Hvlans.
  - split; [done|]. intros (_ & _ & _ & _ & Hall & _).
    assert (Hnone : Some err = None); [|done].
    rewrite <- Hvlans. apply first_error_None.
    intros p ovlan. rewrite lookup_fmap.
    destruct (ProjectVLANs a !! p) as [vlan|] eqn:Hp; [|done].
    intros [= <-]. apply Hall in Hp. apply validateProjectVLAN_None in Hp.
    by rewrite Hp.
  - assert (Hall : forall p vlan, ProjectVLANs a !! p = Some vlan -> vlan_ok mbm p vlan).
    { intros p vlan Hp. apply validateProjectVLAN_None.
      pose proof (proj1 (first_error_None _ _) Hvlans p (Some vlan)) as Hcheck.
      rewrite lookup_fmap, Hp in Hcheck. specialize (Hcheck eq_refl).
      by destruct (validateProjectVLAN mbm p (Some vlan)). }
    destruct (String.eqb_spec (CreatedAt a) "").
    { split; [done|]. by intros (_ & _ & _ & _ & _ & ? & _). }
    destruct (time_Parse_RFC3339 (CreatedAt a)) eqn:Htime; cbn [negb].
    + split; [intros _|done].
      split; [done|]. split; [lia|]. split; [done|]. split; [lia|]. done.
    + split; [done|]. by intros (_ & _ & _ & _ & _ & _ & ?).
Qed.

Lemma expected_of_manager (ws : gmap string WorkspaceAllocation) b w :
  is_Some (default ∅ (expectedUsage ((fun a => Some (to_json a)) <$> ws) !! b) !! w)
  <-> exists a, ws !! w = Some a /\ BridgeNumber a = b.
Proof.
  rewrite expectedUsage_lookup, lookup_fmap.
  destruct (ws !! w) as [a|]; cbn.
  - case_bool_decide; split.
    + intros _. by exists a.
    + by intros _.
    + by intros [? ?].
    + intros (a' & [= <-] & ?). done.
  - split; [by intros [? ?]|]. by intros (a' & ? & _).
Qed.

Lemma expected_value (wss : gmap string (option WorkspaceAllocationJSON)) b w :
  is_Some (default ∅ (expectedUsage wss !! b) !! w) ->
  default false (default ∅ (expectedUsage wss !! b) !! w) = true.
Proof.
  rewrite expectedUsage_lookup. intros [x Hx]. revert Hx.
  destruct (wss !! w) as [[ws|]|]; [|done..]. by case_bool_decide.
Qed.

Lemma expected_value_inv (wss : gmap string (option WorkspaceAllocationJSON)) b w :
  default false (default ∅ (expectedUsage wss !! b) !! w) = true ->
  is_Some (default ∅ (expectedUsage wss !! b) !! w).
Proof. by destruct (default ∅ (expectedUsage wss !! b) !! w). Qed.
End FabricLaws.

Section FabricUsage.
Context `{L : Library}.

Lemma validateBridgeUsage_None mbm e :
  validateBridgeUsage mbm (state_of mbm e) = None <-> usage_exact mbm.
Proof.
  unfold validateBridgeUsage, usage_exact, usage_has.
  cbn [state_of BridgeUsage Workspaces].
  change (default ∅ (Some ?m)) with m.
  set (wss := (fun a => Some (to_json a)) <$> workspaces mbm).
  split.
  - destruct (first_error _ (Some <$> bridgeUsage mbm)) as [err|] eqn:H1; [done|].
    intros H2.
    pose proof (proj1 (first_error_None _ _) H1) as Hfirst.
    pose proof (proj1 (first_error_None _ _) H2) as Hsecond.
    clear H1 H2.
    assert (Hentry : forall b u, bridgeUsage mbm !! b = Some u ->
              0 <= b < bridgeCount mbm
              /\ size u = size (default ∅ (expectedUsage wss !! b))
              /\ forall w, is_Some (u !! w) ->
                           is_Some (default ∅ (expectedUsage wss !! b) !! w)).
    { intros b u Hb. specialize (Hfirst b (Some u)).
      rewrite lookup_fmap, Hb in Hfirst. specialize (Hfirst eq_refl).
      cbn beta zeta in Hfirst.
      destruct (Z.ltb_spec b 0); [done|]. cbn [orb] in Hfirst.
      destruct (Z.leb_spec (bridgeCount mbm) b); [done|].
      unfold usage_size in Hfirst. cbn [default from_option id] in Hfirst.
      destruct (Nat.eqb_spec (size u) (size (default ∅ (expectedUsage wss !! b))))
        as [Hsize|]; [|done].
      cbn [negb] in Hfirst. split; [lia|]. split; [exact Hsize|].
      intros w [x Hw].
      pose proof (proj1 (first_error_None _ _) Hfirst w x Hw) as Hin.
      cbn beta in Hin. apply expected_value_inv.
      by destruct (default false _). }
    split.
    + intros b w. rewrite <- (expected_of_manager (workspaces mbm) b w). fold wss.
      split.
      * destruct (bridgeUsage mbm !! b) as [u|] eqn:Hb; [|by intros [? ?]].
        apply (Hentry b u Hb).
      * intros Hw.
        destruct (expectedUsage wss !! b) as [ex|] eqn:Hex; [|by destruct Hw].
        specialize (Hsecond b ex Hex). cbn beta in Hsecond.
        rewrite lookup_fmap in Hsecond. unfold usage_size in Hsecond.
        destruct (bridgeUsage mbm !! b) as [u|] eqn:Hb.
        -- cbn in Hsecond. destruct (Hentry b u Hb) as (_ & Hsize & Hsub).
           rewrite Hex in Hsize, Hsub. cbn [default from_option id] in *.
           by eapply fewer_keys_same_size.
        -- cbn in Hsecond.
           destruct (Nat.eqb_spec (size (∅ : gmap string bool)) (size ex)) as [Hs|];
             [|done].
           rewrite map_size_empty in Hs. symmetry in Hs.
           apply map_size_empty_inv in Hs. by apply expectedUsage_nonempty in Hex.
    + intros b u Hb. apply (Hentry b u Hb).
  - intros [Hexact Hrange].
    assert (Hkeys : forall b u, bridgeUsage mbm !! b = Some u ->
              forall w, is_Some (u !! w)
                        <-> is_Some (default ∅ (expectedUsage wss !! b) !! w)).
    { intros b u Hb w. unfold wss. rewrite expected_of_manager, <- Hexact.
      by rewrite Hb. }
    destruct (first_error _ (Some <$> bridgeUsage mbm)) as [err|] eqn:H1.
    { assert (Hnone : Some err = None); [|done]. rewrite <- H1.
      apply first_error_None. intros b ou. rewrite lookup_fmap.
      destruct (bridgeUsage mbm !! b) as [u|] eqn:Hb; [|done]. intros [= <-].
      pose proof (Hrange b u Hb) as Hin.
      destruct (Z.ltb_spec b 0); [lia|]. cbn [orb].
      destruct (Z.leb_spec (bridgeCount mbm) b); [lia|].
      cbn zeta. unfold usage_size. cbn [default from_option id].
      rewrite (same_keys_same_size u _ (Hkeys b u Hb)), Nat.eqb_refl. cbn [negb].
      apply first_error_None. intros w x Hw. cbn beta.
      rewrite expected_value; [done|]. apply (Hkeys b u Hb). by exists x. }
    apply first_error_None. intros b ex Hex. cbn beta.
    rewrite lookup_fmap. unfold usage_size.
    destruct (bridgeUsage mbm !! b) as [u|] eqn:Hb.
    + cbn [fmap option_fmap option_map default from_option id].
      pose proof (same_keys_same_size u _ (Hkeys b u Hb)) as Hsize.
      rewrite Hex in Hsize. cbn [default from_option id] in Hsize.
      by rewrite Hsize, Nat.eqb_refl.
    + exfalso. pose proof (expectedUsage_nonempty _ _ _ Hex) as Hne.
      apply map_choose in Hne as (w & x & Hw).
      assert (Hin : is_Some (default ∅ (expectedUsage wss !! b) !! w)).
      { rewrite Hex. by exists x. }
      unfold wss in Hin. rewrite expected_of_manager, <- Hexact, Hb in Hin.
      by destruct Hin.
Qed.

Lemma validateState_None mbm e :
  validateState mbm (state_of mbm e) = None <-> well_formed mbm.
Proof.
  unfold validateState, well_formed.
  cbn [state_of Workspaces]. change (default ∅ (Some ?m)) with m.
  split.
  - destruct (first_error _ _) as [err|] eqn:H1; [done|].
    intros H2.
    split.
    + intros w a Hw. apply validateWorkspace_None.
      pose proof (proj1 (first_error_None _ _) H1 w (Some (to_json a))) as Hcheck.
      rewrite lookup_fmap, Hw in Hcheck. specialize (Hcheck eq_refl).
      by destruct (validateWorkspace mbm w (Some (to_json a))).
    + apply (validateBridgeUsage_None mbm e).
      by destruct (validateBridgeUsage mbm (state_of mbm e)).
  - intros [Hrecords Husage].
    destruct (first_error _ _) as [err|] eqn:H1.
    { assert (Hnone : Some err = None); [|done]. rewrite <- H1.
      apply first_error_None. intros w oa. rewrite lookup_fmap.
      destruct (workspaces mbm !! w) as [a|] eqn:Hw; [|done]. intros [= <-].
      apply Hrecords in Hw. apply validateWorkspace_None in Hw. by rewrite Hw. }
    apply (validateBridgeUsage_None mbm e) in Husage.
    by rewrite Husage.
Qed.
End FabricUsage.

Section SaveLoad.
Context `{L : Library}.

Lemma of_json_to_json a : of_json (to_json a) = a.
Proof.
  destruct a as [w b name vlans created n]. unfold of_json, to_json. cbn.
  f_equal. apply map_eq. intros p.
  rewrite lookup_omap, lookup_fmap. by destruct (vlans !! p).
Qed.

Lemma decoded_workspaces (ws : gmap string WorkspaceAllocation) :
  omap (fmap of_json) ((fun a => Some (to_json a)) <$> ws) = ws.
Proof.
  apply map_eq. intros w. rewrite lookup_omap, lookup_fmap.
  destruct (ws !! w) as [a|]; [|done]. cbn. by rewrite of_json_to_json.
Qed.

Lemma decoded_usage (bu : gmap Z (gmap string bool)) :
  default ∅ <$> (Some <$> bu) = bu.
Proof.
  apply map_eq. intros b. rewrite !lookup_fmap. by destruct (bu !! b).
Qed.

Lemma with_maps_own mbm ws bu :
  with_maps (with_maps mbm ws bu) (workspaces mbm) (bridgeUsage mbm) = mbm.
Proof. by destruct mbm. Qed.

(** A manager restarted with the same configuration reads back what was
    saved: where encoding/json decodes the written document to itself and
    the file can be read, [loadState] of a file that [saveState] wrote for a
    well-formed manager gives no error and exactly that manager's
    workspaces and bridge usage, whatever maps the loading manager held; a
    manager that is not well formed writes a file that [loadState] refuses
    as corrupted, leaving the loading manager as it was. *)
Theorem saveState_loadState_round_trip mbm ws0 bu0 e e' d d' :
  json_round_trip mbm e ->
  read_fails e' = false ->
  saveState mbm e d = (None, d') ->
  (well_formed mbm -> loadState (with_maps mbm ws0 bu0) e' d' = (None, mbm))
  /\ (~ well_formed mbm ->
      exists cause,
        loadState (with_maps mbm ws0 bu0) e' d'
        = (Some (ErrCorruptedStateFile cause), with_maps mbm ws0 bu0)).
Proof.
  intros Hjson Hread Hsave.
  destruct (saveState_written _ _ _ _ Hsave) as (state & data & Hstate & Hdata & ->).
  destruct (saved_state_checksum _ _ _ Hstate) as (input & _ & _ & Hcalc).
  pose proof (Hjson state data Hstate Hdata) as Hdec.
  assert (Hshape : exists c, state = with_checksum (state_of mbm e) c).
  { unfold saved_state in Hstate.
    destruct (calculateStateChecksum (state_of mbm e)) as [c|]; [|done].
    exists c. by injection Hstate as <-. }
  destruct Hshape as [c ->].
  assert (Hvalid : validateState (with_maps mbm ws0 bu0) (with_checksum (state_of mbm e) c)
                   = validateState mbm (state_of mbm e)) by reflexivity.
  unfold loadState. cbn [state_file]. rewrite Hread, Hdec.
  rewrite (verifyStateChecksum_matches _ Hcalc), Hvalid.
  split.
  - intros Hwf. apply (validateState_None mbm e) in Hwf as ->.
    cbn [with_checksum state_of Workspaces BridgeUsage].
    change (default ∅ (Some ?m)) with m.
    by rewrite decoded_workspaces, decoded_usage, with_maps_own.
  - intros Hbad. destruct (validateState mbm (state_of mbm e)) as [cause|] eqn:Hv.
    + by exists cause.
    + by apply (validateState_None mbm e) in Hv.
Qed.
End SaveLoad.

Section FabricKept.
Context `{L : Library}.

Lemma usage_has_mark_iff bu b0 w0 b w :
  usage_has (mark_usage bu b0 w0) b w <-> (b = b0 /\ w = w0) \/ usage_has bu b w.
Proof.
  unfold usage_has, mark_usage.
  destruct (decide (b = b0)) as [Hb|Hb].
  - subst b. rewrite lookup_insert_eq. cbn [default from_option id].
    destruct (decide (w = w0)) as [Hw|Hw].
    + subst w. rewrite lookup_insert_eq. split; [by left|by eexists].
    + rewrite lookup_insert_ne by done. split; [by right|]. by intros [[_ ?]|?].
  - rewrite lookup_insert_ne by done. split; [by right|]. by intros [[? _]|?].
Qed.

Lemma well_formed_set_VMCount mbm w a n :
  well_formed mbm -> workspaces mbm !! w = Some a -> 0 <= n ->
  well_formed (set_workspace mbm w (set_VMCount a n)).
Proof.
  intros [Hrec [Huse Hkeys]] Hw Hn. split; [|split].
  - intros w' a'. cbn [set_workspace with_maps workspaces].
    destruct (decide (w' = w)) as [Heq|Hne].
    + subst w'. rewrite lookup_insert_eq. intros [= <-].
      destruct (Hrec w a Hw) as (H1 & H2 & H3 & H4 & H5 & H6 & H7).
      split; [done|]. split; [done|]. split; [done|]. split; [done|]. done.
    + rewrite lookup_insert_ne by done. apply Hrec.
  - intros b w'. cbn [set_workspace with_maps workspaces bridgeUsage].
    rewrite Huse. destruct (decide (w' = w)) as [Heq|Hne].
    + subst w'. rewrite lookup_insert_eq, Hw. split.
      * intros (a' & [= <-] & Hb). by eexists.
      * intros (a' & [= <-] & Hb). by eexists.
    + by rewrite lookup_insert_ne.
  - exact Hkeys.
Qed.

Lemma well_formed_new mbm w a :
  well_formed mbm -> workspaces mbm !! w = None -> record_ok mbm w a ->
  well_formed (track_bridge_usage (set_workspace mbm w a) (BridgeNumber a) w).
Proof.
  intros [Hrec [Huse Hkeys]] Hw Ha. split; [|split].
  - intros w' a'. cbn [track_bridge_usage set_workspace with_maps workspaces].
    destruct (decide (w' = w)) as [Heq|Hne].
    + subst w'. rewrite lookup_insert_eq. by intros [= <-].
    + rewrite lookup_insert_ne by done. apply Hrec.
  - intros b w'. cbn [track_bridge_usage set_workspace with_maps workspaces bridgeUsage].
    rewrite usage_has_mark_iff, Huse.
    destruct (decide (w' = w)) as [Heq|Hne].
    + subst w'. rewrite lookup_insert_eq, Hw. split.
      * intros [[-> _]|(a' & ? & _)]; [by eexists|done].
      * intros (a' & [= <-] & <-). by left.
    + rewrite lookup_insert_ne by done. split; [|by right].
      by intros [[_ ?]|?].
  - intros b u. cbn [track_bridge_usage set_workspace with_maps bridgeUsage bridgeCount].
    unfold mark_usage. destruct (decide (b = BridgeNumber a)) as [Hb|Hb].
    + subst b. intros _. apply Ha.
    + rewrite lookup_insert_ne by done. apply Hkeys.
Qed.

Lemma AllocateIPForWorkspace_well_formed mbm w e d :
  well_formed mbm -> 0 < bridgeCount mbm -> clock_ok e ->
  well_formed (AllocateIPForWorkspace mbm w e d).1.2.
Proof.
  intros Hwf Hn [Hclock1 Hclock2]. unfold AllocateIPForWorkspace.
  destruct (match workspaces mbm !! w with
            | Some allocation => Some (mbm, allocation)
            | None => _ end) as [[mbm1 a]|] eqn:Hpre; [|done].
  assert (H1 : well_formed mbm1 /\ workspaces mbm1 !! w = Some a).
  { destruct (workspaces mbm !! w) as [stored|] eqn:Hw.
    - by simplify_eq.
    - destruct (GetBridgeForWorkspace_range (bridgeCount mbm) w Hn)
        as (b & Hb & _ & Hrange).
      rewrite Hb in Hpre. simplify_eq. split.
      + apply (well_formed_new mbm w
                 (mkWorkspaceAllocation w b (bridge_name (bridgePrefix mbm) b) ∅
                    (now_rfc3339 e) 0)); [done|done|].
        split; [done|]. split; [done|]. split; [done|]. split; [done|].
        split; [|done]. intros p vlan Hp. cbn in Hp. by rewrite lookup_empty in Hp.
      + cbn. by rewrite lookup_insert_eq. }
  destruct H1 as [Hwf1 Hw1]. clear Hpre.
  destruct (validateBridgeAllocation mbm1 a) eqn:Hv; [done|].
  apply validateBridgeAllocation_None in Hv as (Hbn & Hid & Hk & Hname).
  assert (Hup : wrap64 (VMCount a + 1) = VMCount a + 1)
    by (apply wrap64_id; unfold in_int64; lia).
  repeat case_match; cbn [fst snd]; try done;
    rewrite ?set_workspace_twice;
    refine (well_formed_set_VMCount mbm1 w a _ Hwf1 Hw1 _);
    cbn [VMCount set_VMCount]; rewrite ?Hup, ?wrap64_id by (unfold in_int64; lia); lia.
Qed.

Lemma ReleaseIPForWorkspace_well_formed mbm w ip e d :
  well_formed mbm -> counts_in_range mbm ->
  well_formed (ReleaseIPForWorkspace mbm w ip e d).1.2.
Proof.
  intros Hwf Hcounts. unfold ReleaseIPForWorkspace.
  destruct (workspaces mbm !! w) as [a|] eqn:Hw; [|done].
  pose proof (Hcounts w a Hw) as Hk. cbv zeta.
  assert (Hsame : set_workspace mbm w a = mbm) by (by apply set_workspace_same).
  assert (Hdown : wrap64 (VMCount a - 1) = VMCount a - 1)
    by (apply wrap64_id; unfold in_int64; lia).
  assert (Hup : wrap64 (VMCount a + 1) = VMCount a + 1)
    by (apply wrap64_id; unfold in_int64; lia).
  destruct (saveState _ e d) as [[c|] d'']; cbn [fst snd];
    destruct (Z.ltb_spec 0 (VMCount a));
    rewrite ?set_workspace_twice, ?Hsame; try done;
    refine (well_formed_set_VMCount mbm w a _ Hwf Hw _);
    cbn [VMCount set_VMCount];
    rewrite ?Hdown, ?Hup, ?wrap64_id by (unfold in_int64; lia); lia.
Qed.

(** Allocation and release keep the fabric well formed, so that what they
    save can be loaded again.  From a well-formed manager,
    [AllocateIPForWorkspace] leaves a well-formed manager when there is at
    least one bridge and the text of the clock parses, and
    [ReleaseIPForWorkspace] leaves one when the VM counts are within 0..5:
    whether the call succeeded, failed validation, or failed to save and
    rolled back. *)
Theorem allocation_and_release_keep_well_formed mbm w ip e d :
  well_formed mbm ->
  (0 < bridgeCount mbm -> clock_ok e ->
   well_formed (AllocateIPForWorkspace mbm w e d).1.2)
  /\ (counts_in_range mbm ->
      well_formed (ReleaseIPForWorkspace mbm w ip e d).1.2).
Proof.
  intros Hwf. split.
  - intros Hn Hclock. by apply AllocateIPForWorkspace_well_formed.
  - intros Hcounts. by apply ReleaseIPForWorkspace_well_formed.
Qed.
End FabricKept.

Lemma full_manager_well_formed : well_formed (L := persistence_library) full_manager.
Proof.
  apply (validateState_None (L := persistence_library) full_manager example_env).
  vm_compute. reflexivity.
Qed.

Lemma full_manager_counts : counts_in_range full_manager.
Proof.
  intros w a Hw.
  change (workspaces full_manager)
    with ({[ "ws_A" := full_allocation ]} : gmap string WorkspaceAllocation) in Hw.
  apply lookup_singleton_Some in Hw as [_ <-]. cbn. lia.
Qed.

Lemma full_manager_json_round_trip :
  json_round_trip (L := persistence_library) full_manager example_env.
Proof.
  intros state data Hstate Hdata.
  assert (Hfull : saved_state (L := persistence_library) full_manager example_env
                  = Some full_state) by (vm_compute; reflexivity).
  rewrite Hfull in Hstate. injection Hstate as <-.
  vm_compute in Hdata. injection Hdata as <-. vm_compute. reflexivity.
Qed.

Lemma saveState_loadState_round_trip_witness :
  loadState (L := persistence_library) example_manager example_env
    (saveState (L := persistence_library) full_manager example_env example_disk).2
  = (None, full_manager).
Proof.
  apply (saveState_loadState_round_trip (L := persistence_library)
           full_manager ∅ ∅ example_env example_env example_disk _
           full_manager_json_round_trip eq_refl eq_refl).
  exact full_manager_well_formed.
Defined.

Lemma allocation_and_release_keep_well_formed_witness :
  well_formed (L := persistence_library)
    (AllocateIPForWorkspace (L := persistence_library)
       full_manager "ws_B" example_env example_disk).1.2
  /\ well_formed (L := persistence_library)
       (ReleaseIPForWorkspace (L := persistence_library)
          full_manager "ws_A" [172; 16; 3; 158] example_env example_disk).1.2.
Proof.
  split.
  - apply (allocation_and_release_keep_well_formed (L := persistence_library)
             full_manager "ws_B" [] example_env example_disk full_manager_well_formed).
    + cbn. lia.
    + split; [discriminate|reflexivity].
  - apply (allocation_and_release_keep_well_formed (L := persistence_library)
             full_manager "ws_A" [172; 16; 3; 158] example_env example_disk
             full_manager_well_formed).
    exact full_manager_counts.
Defined.

(** ** Bridge usage statistics *)

Lemma usage_stats_fold (bu : gmap Z (gmap string bool)) (l : list Z) :
  forall (stats : gmap Z Z) b,
    foldl (fun stats bridgeNum =>
             match bu !! bridgeNum with
             | Some usage => <[bridgeNum := Z.of_nat (size usage)]> stats
             | None => <[bridgeNum := 0]> stats
             end) stats l !! b
    = if bool_decide (b ∈ l) then Some (Z.of_nat (size (default ∅ (bu !! b))))
      else stats !! b.
Proof.
  induction l as [|x l IH]; intros stats b.
  - cbn [foldl]. rewrite bool_decide_eq_false_2; [done|]. apply not_elem_of_nil.
  - cbn [foldl]. rewrite IH.
    destruct (decide (b ∈ l)) as [Hin|Hin].
    + rewrite !bool_decide_eq_true_2; [done| |done]. by apply list_elem_of_further.
    + rewrite (bool_decide_eq_false_2 (b ∈ l)) by done.
      destruct (decide (b = x)) as [Heq|Hne].
      * subst x. rewrite bool_decide_eq_true_2 by apply list_elem_of_here.
        destruct (bu !! b) as [u|]; by rewrite lookup_insert_eq.
      * rewrite bool_decide_eq_false_2.
        -- destruct (bu !! x); by rewrite lookup_insert_ne.
        -- rewrite elem_of_cons. by intros [?|?].
Qed.

(** [GetBridgeUsageStats] has one entry for each bridge number from 0 up to
    the bridge count and no other; where the bridge-usage map lists each
    tenant under the bridge of its record and nowhere else, the entry of a
    bridge is the number of tenants stored on it, 0 for a bridge without
    tenants. *)
Theorem GetBridgeUsageStats_counts_tenants mbm b :
  usage_exact mbm ->
  GetBridgeUsageStats mbm !! b
  = if bool_decide (0 <= b < bridgeCount mbm)
    then Some (Z.of_nat (size (tenants_on mbm b)))
    else None.
Proof.
  intros [Hexact _]. unfold GetBridgeUsageStats. rewrite usage_stats_fold.
  rewrite lookup_empty.
  destruct (decide (0 <= b < bridgeCount mbm)) as [Hb|Hb].
  - rewrite !bool_decide_eq_true_2; [|done|apply elem_of_seqZ; lia].
    do 2 f_equal. apply same_keys_same_size. intros w.
    unfold usage_has in Hexact. rewrite Hexact. unfold tenants_on. split.
    + intros (a & Hw & Ha). exists a. by apply map_lookup_filter_Some.
    + intros [a Ha]. apply map_lookup_filter_Some in Ha as [Hw Ha]. by exists a.
  - rewrite !bool_decide_eq_false_2; [done|done|]. rewrite elem_of_seqZ. lia.
Qed.

Lemma full_manager_usage_exact : usage_exact full_manager.
Proof. apply full_manager_well_formed. Qed.

Lemma GetBridgeUsageStats_counts_tenants_witness :
  GetBridgeUsageStats full_manager !! 3 = Some 1
  /\ GetBridgeUsageStats full_manager !! 0 = Some 0
  /\ GetBridgeUsageStats full_manager !! 8 = None.
Proof.
  pose proof (GetBridgeUsageStats_counts_tenants full_manager 3 full_manager_usage_exact)
    as H3.
  pose proof (GetBridgeUsageStats_counts_tenants full_manager 0 full_manager_usage_exact)
    as H0.
  pose proof (GetBridgeUsageStats_counts_tenants full_manager 8 full_manager_usage_exact)
    as H8.
  split; [|split].
  - rewrite H3. vm_compute. reflexivity.
  - rewrite H0. vm_compute. reflexivity.
  - rewrite H8. vm_compute. reflexivity.
Defined.

(** ** Device names *)

Lemma has_bad_char_app s r : has_bad_char (s +:+ r) = has_bad_char s || has_bad_char r.
Proof.
  induction s as [|c s IH]; [done|].
  rewrite append_String. cbn [has_bad_char]. by destruct (device_name_char c).
Qed.

Lemma length_app s r : String.length (s +:+ r) = (String.length s + String.length r)%nat.
Proof.
  induction s as [|c s IH]; [done|]. rewrite append_String. cbn [String.length].
  by rewrite IH.
Qed.

Lemma device_name_char_digit m : (m < 10)%N -> device_name_char (digit_char m) = true.
Proof.
  intros Hm.
  assert (Hc : m = 0%N \/ m = 1%N \/ m = 2%N \/ m = 3%N \/ m = 4%N \/ m = 5%N
               \/ m = 6%N \/ m = 7%N \/ m = 8%N \/ m = 9%N) by lia.
  repeat (destruct Hc as [->|Hc]; [by vm_compute|]). subst. by vm_compute.
Qed.

Lemma has_bad_char_digits fuel : forall n acc,
  has_bad_char acc = false -> has_bad_char (digits_go 10 fuel n acc) = false.
Proof.
  induction fuel as [|fuel IH]; intros n acc Hacc; cbn [digits_go].
  - cbn [has_bad_char]. rewrite device_name_char_digit; [done|].
    apply N.mod_lt. lia.
  - destruct (n <? 10)%N.
    + cbn [has_bad_char]. rewrite device_name_char_digit; [done|].
      apply N.mod_lt. lia.
    + apply IH. cbn [has_bad_char]. rewrite device_name_char_digit; [done|].
      apply N.mod_lt. lia.
Qed.

Lemma has_bad_char_fmt_d z : has_bad_char (fmt_d z) = false.
Proof.
  unfold fmt_d, digits. destruct (z <? 0).
  - cbn [has_bad_char]. change (device_name_char "-") with true.
    by apply has_bad_char_digits.
  - by apply has_bad_char_digits.
Qed.

(** The name of a bridge is a device name as long as it fits: where the
    bridge prefix passes [validateNetworkDeviceName], the name
    prefix-N that the manager gives bridge N passes it when the prefix,
    the hyphen and the digits of N take at most 15 bytes, and is refused as
    too long otherwise. *)
Theorem bridge_name_is_device_name prefix b :
  validateNetworkDeviceName prefix = None ->
  validateNetworkDeviceName (bridge_name prefix b)
  = if (15 <? String.length prefix + 1 + String.length (fmt_d b))%nat
    then Some (ErrDeviceNameTooLong (bridge_name prefix b))
    else None.
Proof.
  unfold validateNetworkDeviceName, bridge_name.
  destruct prefix as [|c0 rest]; [done|].
  destruct (15 <? String.length (String c0 rest))%nat; [done|].
  destruct (has_bad_char (String c0 rest)) eqn:Hbad; [done|].
  destruct (Ascii.eqb c0 ".") eqn:Hdot; [done|]. intros _.
  rewrite append_String.
  rewrite <- (append_String c0 rest ("-" +:+ fmt_d b)).
  rewrite !length_app, !has_bad_char_app, Hbad, has_bad_char_fmt_d.
  change (String.length "-") with 1%nat. rewrite Nat.add_assoc.
  change (has_bad_char "-") with false. cbn [orb]. by rewrite Hdot.
Qed.

Lemma bridge_name_is_device_name_witness :
  validateNetworkDeviceName (bridge_name "br-tenant" 99999) = None
  /\ validateNetworkDeviceName (bridge_name "br-tenant" 100000)
     = Some (ErrDeviceNameTooLong "br-tenant-100000").
Proof.
  split.
  - rewrite (bridge_name_is_device_name "br-tenant" 99999); reflexivity.
  - rewrite (bridge_name_is_device_name "br-tenant" 100000); reflexivity.
Defined.

(** * VM ids and port forwarding *)

Module PortForwardingLaws.
Import PortForwarding.

Lemma validateProtocol_None protocol :
  validateProtocol protocol = None <-> protocol ∈ ["tcp"; "udp"; "icmp"].
Proof.
  unfold validateProtocol, validProtocols.
  rewrite !elem_of_cons, elem_of_nil.
  destruct (decide (protocol = "tcp")) as [->|H1]; [by split; [left|]|].
  destruct (decide (protocol = "udp")) as [->|H2]; [by split; [right; left|]|].
  destruct (decide (protocol = "icmp")) as [->|H3]; [by split; [right; right; left|]|].
  rewrite !lookup_insert_ne by done. rewrite lookup_singleton_ne by done.
  cbn. split; [done|]. by intros [?|[?|[?|?]]].
Qed.

Lemma validatePortNumber_None port :
  validatePortNumber port = None <-> 1 <= port <= 65535.
Proof.
  unfold validatePortNumber.
  destruct (Z.ltb_spec port 1); [split; [done|lia]|].
  destruct (Z.ltb_spec 65535 port); [split; [done|lia]|].
  cbn. split; [lia|done].
Qed.

Lemma valid_mapping_spec mapping :
  valid_mapping mapping
  <-> Protocol mapping ∈ ["tcp"; "udp"; "icmp"]
      /\ 1 <= HostPort mapping <= 65535 /\ 1 <= ContainerPort mapping <= 65535.
Proof.
  unfold valid_mapping.
  by rewrite validateProtocol_None, !validatePortNumber_None.
Qed.

Section Loops.
Variable run : nat -> command -> bool.
Variable vmIP : string.

Lemma configure_mappings_spec (mappings : list PortMapping) : forall n,
  let full := mappings ≫= rules "-A" vmIP in
  let '(err, tr) := configure_mappings run vmIP mappings n in
  tr.*1 `prefix_of` filter valid_mapping mappings ≫= rules "-A" vmIP
  /\ succeeded tr `prefix_of` full
  /\ (err = None
      <-> Forall valid_mapping mappings
          /\ forall i cmd, full !! i = Some cmd -> run (n + i)%nat cmd = true)
  /\ (err = None -> tr = (fun cmd => (cmd, true)) <$> full).
Proof.
  induction mappings as [|mapping rest IH]; intros n; cbn zeta.
  - cbn. split; [done|]. split; [done|]. split; [|done].
    split; [|done]. intros _. split; [constructor|]. intros i cmd Hi. done.
  - cbn [configure_mappings]. change ((mapping :: rest) ≫= rules "-A" vmIP)
      with (dnat_rule "-A" vmIP mapping :: forward_rule "-A" vmIP mapping
            :: (rest ≫= rules "-A" vmIP)).
    set (full := rest ≫= rules "-A" vmIP) in *.
    set (dnat := dnat_rule "-A" vmIP mapping).
    set (fwd := forward_rule "-A" vmIP mapping).
    assert (Hbad : ~ valid_mapping mapping ->
              ~ (Forall valid_mapping (mapping :: rest)
                 /\ forall i cmd, (dnat :: fwd :: full) !! i = Some cmd ->
                                  run (n + i)%nat cmd = true)).
    { intros Hm [Hall _]. by apply Forall_cons in Hall as [? _]. }
    destruct (validateProtocol (Protocol mapping)) eqn:Hp.
    { cbn. split; [apply prefix_nil|]. split; [apply prefix_nil|].
      split; [|done]. split; [done|]. intros H. exfalso. revert H. apply Hbad.
      intros (H & _ & _). by rewrite Hp in H. }
    destruct (validatePortNumber (HostPort mapping)) eqn:Hh.
    { cbn. split; [apply prefix_nil|]. split; [apply prefix_nil|].
      split; [|done]. split; [done|]. intros H. exfalso. revert H. apply Hbad.
      intros (_ & H & _). by rewrite Hh in H. }
    destruct (validatePortNumber (ContainerPort mapping)) eqn:Hc.
    { cbn. split; [apply prefix_nil|]. split; [apply prefix_nil|].
      split; [|done]. split; [done|]. intros H. exfalso. revert H. apply Hbad.
      intros (_ & _ & H). by rewrite Hc in H. }
    assert (Hvalid : valid_mapping mapping) by done.
    rewrite (filter_cons_True valid_mapping mapping rest Hvalid).
    change ((mapping :: filter valid_mapping rest) ≫= rules "-A" vmIP)
      with (dnat :: fwd :: (filter valid_mapping rest ≫= rules "-A" vmIP)).
    destruct (run n dnat) eqn:H1; cbn [negb].
    2: { cbn. split; [by apply prefix_cons, prefix_nil|]. split; [apply prefix_nil|].
         split; [|done]. split; [done|]. intros [_ Hrun].
         specialize (Hrun 0%nat dnat eq_refl). rewrite Nat.add_0_r in Hrun. congruence. }
    destruct (run (S n) fwd) eqn:H2; cbn [negb].
    2: { cbn. split; [by apply prefix_cons, prefix_cons, prefix_nil|].
         split; [by apply prefix_cons, prefix_nil|].
         split; [|done]. split; [done|]. intros [_ Hrun].
         specialize (Hrun 1%nat fwd eq_refl). rewrite Nat.add_1_r in Hrun. congruence. }
    specialize (IH (S (S n))). cbn zeta in IH. fold full in IH.
    destruct (configure_mappings run vmIP rest (S (S n))) as [err tr].
    destruct IH as (Hpre & Hsucc & Hnone & Hall).
    split; [by apply prefix_cons, prefix_cons|].
    split; [by apply prefix_cons, prefix_cons|].
    split.
    + rewrite Hnone. split.
      * intros [Hrest Hrun]. split; [by constructor|].
        intros [|[|i]] cmd Hi; cbn in Hi; simplify_eq.
        -- by rewrite Nat.add_0_r.
        -- by rewrite Nat.add_1_r.
        -- replace (n + S (S i))%nat with (S (S n) + i)%nat by lia. by apply Hrun.
      * intros [Hforall Hrun]. apply Forall_cons in Hforall as [_ Hrest].
        split; [done|]. intros i cmd Hi.
        replace (S (S n) + i)%nat with (n + S (S i))%nat by lia. by apply Hrun.
    + intros Herr. by rewrite (Hall Herr).
Qed.

Lemma remove_mappings_spec (mappings : list PortMapping) : forall n errors,
  let '(errs, tr) := remove_mappings run vmIP mappings n errors in
  tr.*1 = filter valid_mapping mappings ≫= rules "-D" vmIP
  /\ (forall i cmd ok, tr !! i = Some (cmd, ok) -> ok = run (n + i)%nat cmd)
  /\ (errs = [] <-> errors = [] /\ Forall valid_mapping mappings
                    /\ Forall (fun entry => entry.2 = true) tr).
Proof.
  induction mappings as [|mapping rest IH]; intros n errors.
  - cbn. split; [done|]. split; [done|]. split; [done|]. by intros (? & _).
  - cbn [remove_mappings].
    assert (Hbad : forall (e : port_error) (errs : list port_error) (tr : trace),
              ~ valid_mapping mapping ->
              (errs = [] <-> errors ++ [e] = [] /\ Forall valid_mapping rest
                             /\ Forall (fun entry : command * bool => entry.2 = true) tr) ->
              (errs = [] <-> errors = [] /\ Forall valid_mapping (mapping :: rest)
                             /\ Forall (fun entry : command * bool => entry.2 = true) tr)).
    { intros e errs tr Hm Hiff. rewrite Hiff. split.
      - intros [Happ _]. by destruct errors.
      - intros (_ & Hall & _). by apply Forall_cons in Hall as [? _]. }
    destruct (validateProtocol (Protocol mapping)) eqn:Hp.
    { specialize (IH n (errors ++ [ErrInvalidProtocolInMapping p])).
      destruct (remove_mappings _ _ _ _ _) as [errs tr].
      destruct IH as (Hcmds & Hrun & Hiff).
      assert (Hm : ~ valid_mapping mapping).
      { intros (H & _ & _). by rewrite Hp in H. }
      rewrite filter_cons_False by done. split; [done|]. split; [done|].
      by eapply Hbad. }
    destruct (validatePortNumber (HostPort mapping)) eqn:Hh.
    { specialize (IH n (errors ++ [ErrInvalidHostPortInMapping p])).
      destruct (remove_mappings _ _ _ _ _) as [errs tr].
      destruct IH as (Hcmds & Hrun & Hiff).
      assert (Hm : ~ valid_mapping mapping).
      { intros (_ & H & _). by rewrite Hh in H. }
      rewrite filter_cons_False by done. split; [done|]. split; [done|].
      by eapply Hbad. }
    destruct (validatePortNumber (ContainerPort mapping)) eqn:Hc.
    { specialize (IH n (errors ++ [ErrInvalidContainerPortInMapping p])).
      destruct (remove_mappings _ _ _ _ _) as [errs tr].
      destruct IH as (Hcmds & Hrun & Hiff).
      assert (Hm : ~ valid_mapping mapping).
      { intros (_ & _ & H). by rewrite Hc in H. }
      rewrite filter_cons_False by done. split; [done|]. split; [done|].
      by eapply Hbad. }
    assert (Hvalid : valid_mapping mapping) by done.
    cbn zeta.
    set (dnat := dnat_rule "-D" vmIP mapping).
    set (fwd := forward_rule "-D" vmIP mapping).
    set (errors2 := if negb (run (S n) fwd) then _ else _).
    specialize (IH (S (S n)) errors2).
    destruct (remove_mappings _ _ _ _ _) as [errs tr].
    destruct IH as (Hcmds & Hrun & Hiff).
    rewrite filter_cons_True by done. split; [|split].
    + cbn. by rewrite Hcmds.
    + intros [|[|i]] cmd ok Hi; cbn in Hi; simplify_eq.
      * by rewrite Nat.add_0_r.
      * by rewrite Nat.add_1_r.
      * replace (n + S (S i))%nat with (S (S n) + i)%nat by lia. by apply Hrun.
    + rewrite Hiff. unfold errors2.
      destruct (run n dnat) eqn:H1; destruct (run (S n) fwd) eqn:H2; cbn [negb]; split.
      * intros (? & ? & ?). split; [done|]. split; [by constructor|].
        by repeat constructor.
      * intros (? & Hall & Htr). apply Forall_cons in Hall as [_ ?].
        apply Forall_cons in Htr as [_ Htr]. apply Forall_cons in Htr as [_ Htr]. done.
      * intros [Happ _]. by destruct errors.
      * intros (_ & _ & Htr). apply Forall_cons in Htr as [_ Htr].
        by apply Forall_cons in Htr as [? _].
      * intros [Happ _]. by destruct errors.
      * intros (_ & _ & Htr). by apply Forall_cons in Htr as [? _].
      * intros [Happ _]. by destruct errors.
      * intros (_ & _ & Htr). by apply Forall_cons in Htr as [? _].
Qed.
End Loops.

Lemma filter_valid_all (mappings : list PortMapping) :
  Forall valid_mapping mappings -> filter valid_mapping mappings = mappings.
Proof.
  induction 1 as [|mapping rest Hm _ IH]; [done|].
  by rewrite filter_cons_True, IH.
Qed.

Section Calls.
Variable parse_v6 : string -> option IP.
Variable run : nat -> command -> bool.

Lemma validateIPAddress_None vmIP :
  validateIPAddress parse_v6 vmIP = None <-> is_Some (ParseIP parse_v6 vmIP).
Proof.
  unfold validateIPAddress. destruct (ParseIP parse_v6 vmIP); split; try done.
Qed.

Lemma configurePortForwarding_loop vmID vmIP mappings :
  validateVMID vmID = None -> is_Some (ParseIP parse_v6 vmIP) ->
  configurePortForwarding parse_v6 run vmID vmIP mappings
  = configure_mappings run vmIP mappings 0.
Proof.
  intros Hid Hip. unfold configurePortForwarding.
  apply validateIPAddress_None in Hip. rewrite Hid, Hip. by destruct mappings.
Qed.

Lemma configurePortForwarding_refuses vmID vmIP mappings :
  ~ (validateVMID vmID = None /\ is_Some (ParseIP parse_v6 vmIP)) ->
  (configurePortForwarding parse_v6 run vmID vmIP mappings).1 <> None
  /\ (configurePortForwarding parse_v6 run vmID vmIP mappings).2 = [].
Proof.
  intros Hbad. unfold configurePortForwarding.
  destruct (validateVMID vmID) eqn:Hid; [done|].
  destruct (validateIPAddress parse_v6 vmIP) eqn:Hip; [done|].
  exfalso. apply Hbad. split; [done|]. by apply validateIPAddress_None.
Qed.

Lemma removePortForwarding_refuses vmID vmIP mappings :
  ~ (validateVMID vmID = None /\ is_Some (ParseIP parse_v6 vmIP)) ->
  (removePortForwarding parse_v6 run vmID vmIP mappings).1 <> None
  /\ (removePortForwarding parse_v6 run vmID vmIP mappings).2 = [].
Proof.
  intros Hbad. unfold removePortForwarding.
  destruct (validateVMID vmID) eqn:Hid; [done|].
  destruct (validateIPAddress parse_v6 vmIP) eqn:Hip; [done|].
  exfalso. apply Hbad. split; [done|]. by apply validateIPAddress_None.
Qed.

Lemma removePortForwarding_loop vmID vmIP mappings :
  validateVMID vmID = None -> is_Some (ParseIP parse_v6 vmIP) ->
  (removePortForwarding parse_v6 run vmID vmIP mappings).2
  = (remove_mappings run vmIP mappings 0 []).2
  /\ ((removePortForwarding parse_v6 run vmID vmIP mappings).1 = None
      <-> (remove_mappings run vmIP mappings 0 []).1 = []).
Proof.
  intros Hid Hip. unfold removePortForwarding.
  apply validateIPAddress_None in Hip. rewrite Hid, Hip.
  destruct (remove_mappings run vmIP mappings 0 []) as [errors tr].
  by destruct errors.
Qed.

(** [configurePortForwarding] adds rules in order and stops at the first
    failure without taking anything back: the commands that succeeded are
    always a prefix of the full list of rules (the DNAT rule and the FORWARD
    rule of each mapping, in the order of the mappings).  It returns no
    error exactly when the VM id and the VM address pass validation, every
    mapping has a valid protocol and valid ports, and every command of the
    full list succeeds at its turn; then the commands run are exactly that
    list. *)
Theorem configurePortForwarding_all_or_prefix vmID vmIP mappings :
  let full := mappings ≫= rules "-A" vmIP in
  let r := configurePortForwarding parse_v6 run vmID vmIP mappings in
  succeeded r.2 `prefix_of` full
  /\ (r.1 = None
      <-> validateVMID vmID = None /\ is_Some (ParseIP parse_v6 vmIP)
          /\ Forall valid_mapping mappings
          /\ forall i cmd, full !! i = Some cmd -> run i cmd = true)
  /\ (r.1 = None -> r.2 = (fun cmd => (cmd, true)) <$> full).
Proof.
  cbn zeta.
  destruct (decide (validateVMID vmID = None /\ is_Some (ParseIP parse_v6 vmIP)))
    as [[Hid Hip]|Hbad].
  - rewrite (configurePortForwarding_loop _ _ _ Hid Hip).
    pose proof (configure_mappings_spec run vmIP mappings 0) as Hspec.
    cbn zeta in Hspec.
    destruct (configure_mappings run vmIP mappings 0) as [err tr].
    destruct Hspec as (_ & Hsucc & Hnone & Hall). cbn [fst snd].
    split; [done|]. split; [|done]. rewrite Hnone. cbn [Nat.add]. tauto.
  - destruct (configurePortForwarding_refuses vmID vmIP mappings Hbad) as [Herr Htr].
    rewrite Htr. split; [apply prefix_nil|]. split; [|done].
    split; [done|]. intros (? & ? & _). by destruct Hbad.
Qed.

(** [removePortForwarding] goes on after a failure: for a VM id and a VM
    address that pass validation it runs the two delete commands of every
    mapping with a valid protocol and valid ports, in order, whatever
    fails, each command succeeding or not as the host decides; it returns
    no error exactly when every mapping is valid and every command
    succeeded. *)
Theorem removePortForwarding_attempts_every_rule vmID vmIP mappings :
  validateVMID vmID = None -> is_Some (ParseIP parse_v6 vmIP) ->
  let r := removePortForwarding parse_v6 run vmID vmIP mappings in
  r.2.*1 = filter valid_mapping mappings ≫= rules "-D" vmIP
  /\ (forall i cmd ok, r.2 !! i = Some (cmd, ok) -> ok = run i cmd)
  /\ (r.1 = None
      <-> Forall valid_mapping mappings /\ Forall (fun entry => entry.2 = true) r.2).
Proof.
  intros Hid Hip. cbn zeta.
  destruct (removePortForwarding_loop vmID vmIP mappings Hid Hip) as [-> ->].
  pose proof (remove_mappings_spec run vmIP mappings 0 []) as Hspec.
  destruct (remove_mappings run vmIP mappings 0 []) as [errs tr].
  destruct Hspec as (Hcmds & Hrun & Hiff). cbn [fst snd].
  split; [done|]. split; [exact Hrun|]. rewrite Hiff. tauto.
Qed.

(** No command is run on input that was not validated: every command that
    [configurePortForwarding] or [removePortForwarding] runs is the DNAT
    rule or the FORWARD rule of one of the mappings given, with -A and -D
    respectively, for a VM id and a VM address that pass validation and a
    mapping whose protocol is tcp, udp or icmp and whose ports lie in
    1..65535. *)
Theorem commands_only_after_validation vmID vmIP mappings cmd ok :
  let validated action :=
    validateVMID vmID = None /\ is_Some (ParseIP parse_v6 vmIP)
    /\ exists mapping,
         mapping ∈ mappings
         /\ Protocol mapping ∈ ["tcp"; "udp"; "icmp"]
         /\ 1 <= HostPort mapping <= 65535
         /\ 1 <= ContainerPort mapping <= 65535
         /\ cmd ∈ rules action vmIP mapping in
  ((cmd, ok) ∈ (configurePortForwarding parse_v6 run vmID vmIP mappings).2 ->
   validated "-A")
  /\ ((cmd, ok) ∈ (removePortForwarding parse_v6 run vmID vmIP mappings).2 ->
      validated "-D").
Proof.
  cbn zeta.
  destruct (decide (validateVMID vmID = None /\ is_Some (ParseIP parse_v6 vmIP)))
    as [[Hid Hip]|Hbad].
  2: { destruct (configurePortForwarding_refuses vmID vmIP mappings Hbad) as [_ ->].
       destruct (removePortForwarding_refuses vmID vmIP mappings Hbad) as [_ ->].
       split; intros Hin; by apply elem_of_nil in Hin. }
  assert (Hfrom : forall action (ms : list PortMapping),
            cmd ∈ filter valid_mapping ms ≫= rules action vmIP ->
            exists mapping,
              mapping ∈ ms
              /\ Protocol mapping ∈ ["tcp"; "udp"; "icmp"]
              /\ 1 <= HostPort mapping <= 65535
              /\ 1 <= ContainerPort mapping <= 65535
              /\ cmd ∈ rules action vmIP mapping).
  { intros action ms Hin. apply list_elem_of_bind in Hin as (mapping & Hcmd & Hm).
    apply list_elem_of_filter in Hm as [Hvalid Hm].
    apply valid_mapping_spec in Hvalid as (? & ? & ?). by exists mapping. }
  split; intros Hin; (split; [done|]; split; [done|]).
  - rewrite (configurePortForwarding_loop _ _ _ Hid Hip) in Hin.
    pose proof (configure_mappings_spec run vmIP mappings 0) as Hspec.
    cbn zeta in Hspec.
    destruct (configure_mappings run vmIP mappings 0) as [err tr].
    destruct Hspec as ([rest Hpre] & _ & _ & _). cbn [snd] in Hin.
    apply (Hfrom "-A" mappings). rewrite Hpre. apply elem_of_app. left.
    apply list_elem_of_fmap. by exists (cmd, ok).
  - destruct (removePortForwarding_loop vmID vmIP mappings Hid Hip) as [Htr _].
    rewrite Htr in Hin.
    pose proof (remove_mappings_spec run vmIP mappings 0 []) as Hspec.
    destruct (remove_mappings run vmIP mappings 0 []) as [errs tr].
    destruct Hspec as (Hcmds & _ & _). cbn [snd] in Hin.
    apply (Hfrom "-D" mappings). rewrite <- Hcmds.
    apply list_elem_of_fmap. by exists (cmd, ok).
Qed.

(** What [removePortForwarding] deletes is what [configurePortForwarding]
    added: after a call of [configurePortForwarding] that returned no
    error, the commands it ran are the DNAT and FORWARD rules of the
    mappings with -A, and a call of [removePortForwarding] for the same VM,
    address and mappings runs the same rules with -D, one delete for each
    rule added and in the same order, on whatever host. *)
Theorem removePortForwarding_mirrors_configurePortForwarding
    (run' : nat -> command -> bool) vmID vmIP mappings :
  (configurePortForwarding parse_v6 run vmID vmIP mappings).1 = None ->
  (configurePortForwarding parse_v6 run vmID vmIP mappings).2.*1
  = mappings ≫= rules "-A" vmIP
  /\ (removePortForwarding parse_v6 run' vmID vmIP mappings).2.*1
     = mappings ≫= rules "-D" vmIP.
Proof.
  intros Hok.
  destruct (decide (validateVMID vmID = None /\ is_Some (ParseIP parse_v6 vmIP)))
    as [[Hid Hip]|Hbad].
  2: { by destruct (configurePortForwarding_refuses vmID vmIP mappings Hbad). }
  rewrite (configurePortForwarding_loop _ _ _ Hid Hip) in *.
  pose proof (configure_mappings_spec run vmIP mappings 0) as Hspec.
  cbn zeta in Hspec.
  destruct (configure_mappings run vmIP mappings 0) as [err tr].
  destruct Hspec as (_ & _ & Hnone & Hall). cbn [fst snd] in *.
  apply Hnone in Hok as Hvalid. destruct Hvalid as [Hvalid _].
  split.
  - rewrite (Hall Hok), <- list_fmap_compose. apply list_fmap_id.
  - unfold removePortForwarding.
    apply validateIPAddress_None in Hip. rewrite Hid, Hip.
    pose proof (remove_mappings_spec run' vmIP mappings 0 []) as Hspec.
    destruct (remove_mappings run' vmIP mappings 0 []) as [errs tr'].
    destruct Hspec as (Hcmds & _ & _).
    rewrite (filter_valid_all _ Hvalid) in Hcmds. by destruct errs.
Qed.
End Calls.

(** ** Generated ids and rendered addresses *)

Lemma vmid_char_hex_digit d : (d < 16)%N -> vmid_char (hex_digit d) = true.
Proof.
  intros Hd.
  assert (Hc : d = 0%N \/ d = 1%N \/ d = 2%N \/ d = 3%N \/ d = 4%N \/ d = 5%N
               \/ d = 6%N \/ d = 7%N \/ d = 8%N \/ d = 9%N \/ d = 10%N
               \/ d = 11%N \/ d = 12%N \/ d = 13%N \/ d = 14%N \/ d = 15%N) by lia.
  repeat (destruct Hc as [->|Hc]; [by vm_compute|]). subst. by vm_compute.
Qed.

Lemma N_of_ascii_bound b : (N_of_ascii b < 256)%N.
Proof. destruct b as [[] [] [] [] [] [] [] []]; by vm_compute. Qed.

Lemma all_vmid_chars_hex bytes : all_vmid_chars (hex_EncodeToString bytes) = true.
Proof.
  induction bytes as [|b rest IH]; [done|].
  cbn [hex_EncodeToString all_vmid_chars]. pose proof (N_of_ascii_bound b) as Hb.
  rewrite !vmid_char_hex_digit, IH; [done| |].
  - apply N.mod_lt. lia.
  - apply N.Div0.div_lt_upper_bound. lia.
Qed.

Lemma length_hex bytes :
  String.length (hex_EncodeToString bytes) = (2 * String.length bytes)%nat.
Proof.
  induction bytes as [|b rest IH]; [done|].
  cbn [hex_EncodeToString String.length]. rewrite IH. lia.
Qed.

(** Every id that [generateV4VMID] makes passes [validateVMID], the check
    that port forwarding runs on the id of the VM: from the eight random
    bytes it makes the text ud- followed by sixteen lower-case hexadecimal
    digits, 19 bytes in all. *)
Theorem generateV4VMID_passes_validateVMID bytes :
  String.length bytes = 8%nat ->
  exists id,
    generateV4VMID (Some bytes) = Ok id
    /\ id = "ud-" +:+ hex_EncodeToString bytes
    /\ String.length id = 19%nat
    /\ validateVMID id = None.
Proof.
  intros Hlen. eexists. split; [reflexivity|]. split; [reflexivity|].
  assert (Hid : String.length ("ud-" +:+ hex_EncodeToString bytes) = 19%nat).
  { rewrite length_app, length_hex, Hlen. reflexivity. }
  split; [exact Hid|]. unfold validateVMID. rewrite Hid. cbn [Nat.eqb Nat.ltb Nat.leb orb].
  rewrite !append_String, append_Empty. cbn [all_vmid_chars].
  by rewrite all_vmid_chars_hex.
Qed.

Lemma addr_dispatch_digits fuel : forall n acc,
  addr_dispatch (digits_go 10 fuel n acc) = addr_dispatch acc.
Proof.
  assert (Hdigit : forall m acc, (m < 10)%N ->
            addr_dispatch (String (digit_char m) acc) = addr_dispatch acc).
  { intros m acc Hm.
    assert (Hc : m = 0%N \/ m = 1%N \/ m = 2%N \/ m = 3%N \/ m = 4%N \/ m = 5%N
                 \/ m = 6%N \/ m = 7%N \/ m = 8%N \/ m = 9%N) by lia.
    repeat (destruct Hc as [->|Hc]; [done|]). by subst. }
  induction fuel as [|fuel IH]; intros n acc; cbn [digits_go].
  - apply Hdigit, N.mod_lt. lia.
  - destruct (n <? 10)%N.
    + apply Hdigit, N.mod_lt. lia.
    + rewrite IH. apply Hdigit, N.mod_lt. lia.
Qed.

Lemma parse_octet_then_dot z z' r fields K :
  0 <= z <= 255 -> (length fields < 3)%nat ->
  parseIPv4Fields (fmt_d z' +:+ r) 0 O (fields ++ [z]) = K ->
  parseIPv4Fields (fmt_d z +:+ "." +:+ fmt_d z' +:+ r) 0 O fields = K.
Proof.
  intros Hz Hlen HK.
  rewrite (parseIPv4Fields_fmt_d z _ fields K).
  - destruct (Z.leb_spec 0 z); [|lia]. by destruct (Z.leb_spec z 255); [|lia].
  - intros dl Hdl. rewrite (append_String "." EmptyString), append_Empty.
    cbn [parseIPv4Fields].
    change (is_digit ".") with false. change (Ascii.eqb "." ".") with true. cbv iota.
    destruct dl as [|dl]; [lia|]. cbn [Nat.eqb orb].
    rewrite fmt_d_nonempty.
    destruct (Nat.eqb_spec (length fields) 3); [lia|]. exact HK.
Qed.

Lemma append_Empty_r s : s +:+ EmptyString = s.
Proof. induction s as [|c s IH]; [done|]. by rewrite append_String, IH. Qed.

Section Rendered.
Context `{L : Library}.
Variable parse_v6 : string -> option IP.

(** The address of a VM as [BootVM] and [DeleteVM] hand it to port
    forwarding passes [validateIPAddress]: [net.ParseIP] reads the text
    that [IP.String] gives for four bytes back as that address, in its
    16-byte form. *)
Theorem validateIPAddress_accepts_IP_String a b c d :
  0 <= a <= 255 -> 0 <= b <= 255 -> 0 <= c <= 255 -> 0 <= d <= 255 ->
  ParseIP parse_v6 (IP_String [a; b; c; d]) = Some (v4InV6Prefix ++ [a; b; c; d])
  /\ validateIPAddress parse_v6 (IP_String [a; b; c; d]) = None.
Proof.
  intros Ha Hb Hc Hd.
  assert (Hparse : ParseIP parse_v6 (IP_String [a; b; c; d])
                   = Some (v4InV6Prefix ++ [a; b; c; d])).
  { rewrite IP_String_4. unfold ParseIP, dotted_quad.
    change (byte_at [a; b; c; d] 0) with a. change (byte_at [a; b; c; d] 1) with b.
    change (byte_at [a; b; c; d] 2) with c. change (byte_at [a; b; c; d] 3) with d.
    assert (Hkind : addr_dispatch (fmt_d a +:+ "." +:+ fmt_d b +:+ "." +:+ fmt_d c
                                     +:+ "." +:+ fmt_d d) = AddrV4).
    { unfold fmt_d at 1. destruct (Z.ltb_spec a 0); [lia|]. unfold digits.
      rewrite digits_go_app, append_Empty, addr_dispatch_digits.
      by rewrite (append_String "." EmptyString). }
    rewrite Hkind.
    rewrite (parse_octet_then_dot a b _ [] (Some [a; b; c; d])); [done|done|cbn; lia|].
    rewrite (parse_octet_then_dot b c _ [a] (Some [a; b; c; d])); [done|done|cbn; lia|].
    rewrite <- (append_Empty_r (fmt_d d)).
    rewrite (parse_octet_then_dot c d _ [a; b] (Some [a; b; c; d])); [done|done|cbn; lia|].
    rewrite (parseIPv4Fields_fmt_d d EmptyString _ (Some [a; b; c; d])).
    - destruct (Z.leb_spec 0 d); [|lia]. by destruct (Z.leb_spec d 255); [|lia].
    - intros dl _. reflexivity. }
  split; [exact Hparse|]. unfold validateIPAddress. by rewrite Hparse.
Qed.
End Rendered.

Lemma removePortForwarding_attempts_every_rule_witness :
  let r := removePortForwarding no_v6 first_fails
             "ud-0123456789abcdef" "172.16.3.154" mixed_mappings in
  r.2.*1 = filter valid_mapping mixed_mappings ≫= rules "-D" "172.16.3.154"
  /\ (forall i cmd ok, r.2 !! i = Some (cmd, ok) -> ok = first_fails i cmd)
  /\ (r.1 = None
      <-> Forall valid_mapping mixed_mappings
          /\ Forall (fun entry => entry.2 = true) r.2).
Proof.
  apply (removePortForwarding_attempts_every_rule no_v6 first_fails
           "ud-0123456789abcdef" "172.16.3.154" mixed_mappings).
  - reflexivity.
  - eexists. vm_compute. reflexivity.
Defined.

Lemma removePortForwarding_mirrors_configurePortForwarding_witness :
  (configurePortForwarding no_v6 always_ok
     "ud-0123456789abcdef" "172.16.3.154" example_mappings).2.*1
  = example_mappings ≫= rules "-A" "172.16.3.154"
  /\ (removePortForwarding no_v6 first_fails
        "ud-0123456789abcdef" "172.16.3.154" example_mappings).2.*1
     = example_mappings ≫= rules "-D" "172.16.3.154".
Proof.
  apply (removePortForwarding_mirrors_configurePortForwarding no_v6 always_ok first_fails
           "ud-0123456789abcdef" "172.16.3.154" example_mappings).
  vm_compute. reflexivity.
Defined.

Lemma generateV4VMID_passes_validateVMID_witness :
  exists id,
    generateV4VMID (Some "abcdefgh") = Ok id
    /\ id = "ud-" +:+ hex_EncodeToString "abcdefgh"
    /\ String.length id = 19%nat
    /\ validateVMID id = None.
Proof.
  apply (generateV4VMID_passes_validateVMID "abcdefgh"). reflexivity.
Defined.

Lemma validateIPAddress_accepts_IP_String_witness :
  ParseIP no_v6 (IP_String (L := example_library) [172; 16; 3; 154])
  = Some (v4InV6Prefix ++ [172; 16; 3; 154])
  /\ validateIPAddress no_v6 (IP_String (L := example_library) [172; 16; 3; 154]) = None.
Proof.
  apply (validateIPAddress_accepts_IP_String (L := example_library) no_v6 172 16 3 154);
    lia.
Defined.

Lemma configurePortForwarding_all_or_prefix_witness :
  (configurePortForwarding no_v6 always_ok
     "ud-0123456789abcdef" "172.16.3.154" example_mappings).2
  = (fun cmd => (cmd, true)) <$> (example_mappings ≫= rules "-A" "172.16.3.154")
  /\ succeeded (configurePortForwarding no_v6 first_fails
                  "ud-0123456789abcdef" "172.16.3.154" example_mappings).2
     `prefix_of` example_mappings ≫= rules "-A" "172.16.3.154".
Proof.
  split.
  - apply (configurePortForwarding_all_or_prefix no_v6 always_ok
             "ud-0123456789abcdef" "172.16.3.154" example_mappings).
    vm_compute. reflexivity.
  - apply (configurePortForwarding_all_or_prefix no_v6 first_fails
             "ud-0123456789abcdef" "172.16.3.154" example_mappings).
Defined.

Lemma commands_only_after_validation_witness :
  exists mapping,
    mapping ∈ mixed_mappings
    /\ Protocol mapping ∈ ["tcp"; "udp"; "icmp"]
    /\ 1 <= HostPort mapping <= 65535
    /\ 1 <= ContainerPort mapping <= 65535
    /\ forward_rule "-D" "172.16.3.154" (mkPortMapping "udp" 5353 53)
       ∈ rules "-D" "172.16.3.154" mapping.
Proof.
  apply (commands_only_after_validation no_v6 first_fails
           "ud-0123456789abcdef" "172.16.3.154" mixed_mappings
           (forward_rule "-D" "172.16.3.154" (mkPortMapping "udp" 5353 53)) true).
  vm_compute. do 3 apply list_elem_of_further. apply list_elem_of_here.
Defined.
End PortForwardingLaws.

(** * Validation of a create request *)

Module VMConfigLaws.
Import VMConfig.

Lemma storage_loop_paths devices : forall i has,
  (exists h, storage_loop i devices has = inr h) <-> Forall (fun s => GetPath s <> "") devices.
Proof.
  induction devices as [|storage rest IH]; intros i has; cbn [storage_loop].
  - split; [constructor|by eexists].
  - destruct (String.eqb_spec (GetPath storage) "") as [Hempty|Hpath].
    + split; [by intros [h ?]|]. intros Hall. by apply Forall_cons in Hall as [? _].
    + rewrite IH. split; [by constructor|]. intros Hall.
      by apply Forall_cons in Hall as [_ ?].
Qed.

Lemma storage_loop_flag devices : forall i has h,
  storage_loop i devices has = inr h -> has = true -> h = true.
Proof.
  induction devices as [|storage rest IH]; intros i has h; cbn [storage_loop].
  - by intros [= <-].
  - destruct (String.eqb (GetPath storage) ""); [done|].
    intros Hloop ->. eapply IH; [exact Hloop|]. by destruct (_ || _).
Qed.

Lemma storage_loop_first devices h :
  devices <> [] -> storage_loop 0 devices false = inr h -> h = true.
Proof.
  destruct devices as [|storage rest]; [done|]. intros _. cbn [storage_loop].
  destruct (String.eqb (GetPath storage) ""); [done|].
  rewrite orb_true_r. intros Hloop. by eapply storage_loop_flag.
Qed.

Lemma storage_loop_error devices : forall i has err,
  storage_loop i devices has = inl err -> exists j, err = ErrStoragePathRequired j.
Proof.
  induction devices as [|storage rest IH]; intros i has err; cbn [storage_loop]; [done|].
  destruct (String.eqb (GetPath storage) ""); [|apply IH].
  intros [= <-]. by eexists.
Qed.

Lemma validateVMConfig_accepted (config : option VmConfig) :
  validateVMConfig config = None ->
  exists c cpu memory boot,
    config = Some c /\ Cpu c = Some cpu /\ Memory c = Some memory
    /\ Boot c = Some boot
    /\ 0 < VcpuCount cpu
    /\ (MaxVcpuCount cpu <= 0 \/ VcpuCount cpu <= MaxVcpuCount cpu)
    /\ 0 < SizeBytes memory
    /\ KernelPath boot <> ""
    /\ Storage c <> []
    /\ Forall (fun s => GetPath s <> "") (Storage c).
Proof.
  unfold validateVMConfig.
  destruct config as [c|]; [|done]. cbn [GetCpu GetMemory GetBoot GetStorage mbind
                                         option_bind from_option].
  destruct (Cpu c) as [cpu|] eqn:Hcpu; [|done]. rewrite bool_decide_eq_false_2 by done.
  destruct (Memory c) as [memory|] eqn:Hmem; [|done].
  rewrite bool_decide_eq_false_2 by done.
  destruct (Boot c) as [boot|] eqn:Hboot; [|done].
  rewrite bool_decide_eq_false_2 by done.
  cbn [GetVcpuCount GetMaxVcpuCount GetSizeBytes GetKernelPath from_option].
  destruct (Z.leb_spec (VcpuCount cpu) 0); [done|].
  destruct ((0 <? MaxVcpuCount cpu) && (MaxVcpuCount cpu <? VcpuCount cpu)) eqn:Hmax;
    [done|].
  destruct (Z.leb_spec (SizeBytes memory) 0); [done|].
  destruct (String.eqb_spec (KernelPath boot) ""); [done|].
  destruct (Nat.eqb_spec (length (Storage c)) 0) as [|Hlen]; [done|].
  destruct (storage_loop 0 (Storage c) false) as [err|h] eqn:Hloop; [done|].
  intros _. exists c, cpu, memory, boot.
  split; [done|]. split; [done|]. split; [done|]. split; [done|]. split; [done|].
  split.
  { apply andb_false_iff in Hmax as [Hmax|Hmax].
    - left. by apply Z.ltb_ge in Hmax.
    - right. by apply Z.ltb_ge in Hmax. }
  split; [done|]. split; [done|]. split.
  - intros Hnil. by rewrite Hnil in Hlen.
  - apply (storage_loop_paths _ 0%nat false). by exists h.
Qed.

Lemma validateVMConfig_accepts c cpu memory boot :
  Cpu c = Some cpu -> Memory c = Some memory -> Boot c = Some boot ->
  0 < VcpuCount cpu ->
  MaxVcpuCount cpu <= 0 \/ VcpuCount cpu <= MaxVcpuCount cpu ->
  0 < SizeBytes memory ->
  KernelPath boot <> "" ->
  Storage c <> [] ->
  Forall (fun s => GetPath s <> "") (Storage c) ->
  validateVMConfig (Some c) = None.
Proof.
  intros Hcpu Hmem Hboot Hv Hmax Hs Hk Hne Hall. unfold validateVMConfig.
  cbn [GetCpu GetMemory GetBoot GetStorage mbind option_bind from_option].
  rewrite Hcpu, Hmem, Hboot. rewrite !bool_decide_eq_false_2 by done.
  cbn [GetVcpuCount GetMaxVcpuCount GetSizeBytes GetKernelPath from_option].
  destruct (Z.leb_spec (VcpuCount cpu) 0); [lia|].
  assert (Hmax' : (0 <? MaxVcpuCount cpu) && (MaxVcpuCount cpu <? VcpuCount cpu) = false).
  { apply andb_false_iff. destruct Hmax; [left|right]; by apply Z.ltb_ge. }
  rewrite Hmax'.
  destruct (Z.leb_spec (SizeBytes memory) 0); [lia|].
  destruct (String.eqb_spec (KernelPath boot) ""); [done|].
  destruct (Nat.eqb_spec (length (Storage c)) 0) as [Hlen|_].
  { by destruct (Storage c). }
  apply (storage_loop_paths _ 0%nat false) in Hall as [h Hloop].
  rewrite Hloop. by rewrite (storage_loop_first _ h Hne Hloop).
Qed.

(** [validateVMConfig] never answers that a root device is missing: the
    first storage device counts as the root device whether it is marked or
    not.  It accepts a request exactly when the CPU, memory and boot parts
    are present, the vCPU count is positive, the maximum vCPU count is not
    positive or not below the vCPU count, the memory size is positive, the
    kernel path is not empty, there is at least one storage device and
    every storage device has a path; no root-device mark is needed. *)
Theorem validateVMConfig_never_misses_root_device (config : option VmConfig) :
  validateVMConfig config <> Some ErrRootDeviceRequired
  /\ (validateVMConfig config = None
      <-> exists c cpu memory boot,
            config = Some c /\ Cpu c = Some cpu /\ Memory c = Some memory
            /\ Boot c = Some boot
            /\ 0 < VcpuCount cpu
            /\ (MaxVcpuCount cpu <= 0 \/ VcpuCount cpu <= MaxVcpuCount cpu)
            /\ 0 < SizeBytes memory
            /\ KernelPath boot <> ""
            /\ Storage c <> []
            /\ Forall (fun s => GetPath s <> "") (Storage c)).
Proof.
  split.
  - unfold validateVMConfig. repeat case_match; try done.
    + match goal with H : storage_loop _ _ _ = inl _ |- _ =>
        apply storage_loop_error in H as [j ->] end. done.
    + match goal with H : storage_loop _ _ _ = inr _ |- _ =>
        apply storage_loop_first in H end.
      * by subst.
      * intros Hnil.
        match goal with H : (length _ =? 0)%nat = false |- _ => by rewrite Hnil in H end.
  - split; [apply validateVMConfig_accepted|].
    intros (c & cpu & memory & boot & -> & H1 & H2 & H3 & H4 & H5 & H6 & H7 & H8 & H9).
    by eapply validateVMConfig_accepts.
Qed.

Lemma validateVMConfig_never_misses_root_device_witness :
  validateVMConfig (Some (example_config false)) = None.
Proof.
  apply (validateVMConfig_never_misses_root_device (Some (example_config false))).
  exists (example_config false), (mkCpuConfig 2 4), (mkMemoryConfig 536870912),
    (mkBootConfig "/opt/vm-assets/vmlinux").
  split; [reflexivity|]. split; [reflexivity|]. split; [reflexivity|].
  split; [reflexivity|]. split; [cbn; lia|]. split; [right; cbn; lia|].
  split; [cbn; lia|]. split; [discriminate|]. split; [discriminate|].
  repeat constructor; discriminate.
Defined.
End VMConfigLaws.

(** * The /29 that device setup derives from a VM address *)

Section DeviceSetupLaws.
Context `{L : Library}.

(** Device setup finds the tenant's own /29 from an address the allocator
    issued: for the address that [AllocateIPForWorkspace] returns,
    [calculateVMSubnet] gives the text of the /29 that the allocator checked
    the address against, and [calculateVethHostIP] gives the first address
    of that /29.  Both read the first four bytes of the slice: for the
    16-byte form of any IPv4 address they give 0.0.0.0/29 and 0.0.0.1, and
    for a slice of fewer than four bytes they panic. *)
Theorem calculateVMSubnet_of_allocated_address mbm w e d ip name mbm' d' :
  AllocateIPForWorkspace mbm w e d = (Ok (ip, name), mbm', d') ->
  let base := FNV1a32 w mod 32 * 8 in
  calculateVMSubnet ip = Some (workspace_subnet_text (byte_at ip 2) base)
  /\ calculateVethHostIP ip
     = Some ("172.16." +:+ fmt_d (byte_at ip 2) +:+ "." +:+ fmt_d (base + 1))
  /\ validateIPWithinWorkspaceSubnet ip (byte_at ip 2) base = None
  /\ (forall a b c x,
        calculateVMSubnet (v4InV6Prefix ++ [a; b; c; x]) = Some "0.0.0.0/29"
        /\ calculateVethHostIP (v4InV6Prefix ++ [a; b; c; x]) = Some "0.0.0.1")
  /\ (forall short, (length short < 4)%nat ->
        calculateVMSubnet short = None /\ calculateVethHostIP short = None).
Proof.
  intros Hok. cbn zeta.
  destruct (AllocateIPForWorkspace_Ok_inv _ _ _ _ _ _ _ _ Hok)
    as (a & _ & Hb & Hb255 & Hk & _ & _ & -> & _).
  pose proof (Z.mod_pos_bound (FNV1a32 w) 32 ltac:(lia)) as Hs.
  set (s := FNV1a32 w mod 32) in *.
  change (byte_at [172; 16; BridgeNumber a; s * 8 + 2 + VMCount a] 2)
    with (BridgeNumber a).
  assert (Hbase : byte_of ((s * 8 + 2 + VMCount a) / 8 * 8) = s * 8).
  { replace (s * 8 + 2 + VMCount a) with (s * 8 + (2 + VMCount a)) by lia.
    rewrite slot_div8 by lia. unfold byte_of. apply Z.mod_small. lia. }
  split; [|split; [|split; [|split]]].
  - unfold calculateVMSubnet. cbn [length Nat.ltb Nat.leb].
    change (byte_at [172; 16; BridgeNumber a; s * 8 + 2 + VMCount a] 3)
      with (s * 8 + 2 + VMCount a).
    cbv zeta. rewrite Hbase. reflexivity.
  - unfold calculateVethHostIP. cbn [length Nat.ltb Nat.leb].
    change (byte_at [172; 16; BridgeNumber a; s * 8 + 2 + VMCount a] 3)
      with (s * 8 + 2 + VMCount a).
    cbv zeta. rewrite Hbase.
    replace (byte_of (s * 8 + 1)) with (s * 8 + 1)
      by (unfold byte_of; symmetry; apply Z.mod_small; lia).
    reflexivity.
  - apply validateIPWithinWorkspaceSubnet_slot; lia.
  - intros a0 b0 c0 x0. split; reflexivity.
  - intros short Hshort. unfold calculateVMSubnet, calculateVethHostIP.
    by destruct (Nat.ltb_spec (length short) 4); [|lia].
Qed.
End DeviceSetupLaws.

Lemma calculateVMSubnet_of_allocated_address_witness :
  calculateVMSubnet [172; 16; 3; 154] = Some "172.16.3.152/29"
  /\ calculateVethHostIP [172; 16; 3; 154] = Some "172.16.3.153".
Proof.
  pose proof (calculateVMSubnet_of_allocated_address (L := example_library)
                example_manager "ws_A" example_env example_disk
                [172; 16; 3; 154] "br-vms-3" _ _ eq_refl) as (Hnet & Hhost & _).
  split; [exact Hnet|exact Hhost].
Defined.

Lemma VMNetwork_calculateVethHostIP_agrees_witness :
  Some (VMNetwork_calculateVethHostIP (L := example_library) second_vm)
  = calculateVethHostIP (IPAddress second_vm)
  <-> 155 mod 8 = 2.
Proof.
  apply (VMNetwork_calculateVethHostIP_agrees (L := example_library) second_vm 172 16 3 155).
  - reflexivity.
  - lia.
Defined.
